(** * go-vcloud-director: task completion, name-or-ID resolution, bounded
      retry and endpoint negotiation

    A shallow embedding of the [govcd] client code (org, vdc, catalog item
    and VDC compute policy files) together with the properties stated about
    it.  Go functions become computations in a small state monad: the state
    is the receiver of the method and a chronological trace of every effect
    the code performs (HTTP requests, sleeps, compatibility checks and, as
    ghost events, the entry of each lookup strategy).  A Go pair
    [(value, error)] is a Rocq pair whose second component is an
    [option]; a run-time panic is a separate outcome. *)

From Stdlib Require Import String List ZArith Bool Arith Lia.
Import ListNotations.
Open Scope string_scope.
Open Scope list_scope.

Set Implicit Arguments.

(* ================================================================= *)
(** ** Errors *)

(** Go [error] values.  [fmt.Errorf] is kept structural (format string and
    arguments) so that a wrapped error can still be seen inside its
    wrapper. *)
Inductive error_value : Type :=
| ErrorEntityNotFound
| Errorf (format : string) (args : list fmt_arg)
| errorString (text : string)
| TaskFailed (message : string)
| Cancelled
with fmt_arg : Type :=
| ArgError (e : error_value)
| ArgString (s : string)
| ArgInt (n : Z).

(** A Go [error]: [None] is [nil]. *)
Definition error := option error_value.

(** [err != nil] *)
Definition is_error (err : error) : bool :=
  match err with
  | Some _ => true
  | None => false
  end.

(** [carries e inner]: the error value [e] is [inner] or wraps it through
    one or more [fmt.Errorf] calls that received it as first argument. *)
Fixpoint carries (e inner : error_value) {struct e} : Prop :=
  e = inner \/
  match e with
  | Errorf _ (ArgError e' :: _) => carries e' inner
  | _ => False
  end.

(* ================================================================= *)
(** ** The [types] package (the fields the client code reads) *)

Module types.

Record Link := mkLink {
  Link_Rel : string; Link_Type : string; Link_Name : string;
  Link_HREF : string; Link_ID : string }.
Definition LinkList := list Link.

Record Reference := mkReference {
  Reference_HREF : string; Reference_Type : string;
  Reference_ID : string; Reference_Name : string }.

Record ResourceReference := mkResourceReference {
  ResourceReference_HREF : string; ResourceReference_Type : string;
  ResourceReference_ID : string; ResourceReference_Name : string }.

Record AvailableNetworks := mkAvailableNetworks {
  Network : list Reference }.

Record ResourceEntities := mkResourceEntities {
  ResourceEntity : list ResourceReference }.

Record Org := mkOrg {
  Org_HREF : string; Org_Name : string; Org_Link : LinkList }.

Record Catalog := mkCatalog {
  Catalog_HREF : string; Catalog_ID : string;
  Catalog_Name : string; Catalog_Description : string }.

(** [CatalogStorageProfiles] is only passed through. *)
Record CatalogStorageProfiles := mkCatalogStorageProfiles {
  VdcStorageProfile : list Reference }.

Record AdminCatalog := mkAdminCatalog {
  AdminCatalog_Xmlns : string;
  AdminCatalog_Catalog : Catalog;
  AdminCatalog_CatalogStorageProfiles : option CatalogStorageProfiles }.

Record Vdc := mkVdc {
  Vdc_HREF : string; Vdc_ID : string; Vdc_Name : string;
  Vdc_Link : LinkList;
  Vdc_AvailableNetworks : list AvailableNetworks;
  Vdc_ResourceEntities : list ResourceEntities }.

Record OrgVDCNetwork := mkOrgVDCNetwork {
  OrgVDCNetwork_HREF : string; OrgVDCNetwork_ID : string;
  OrgVDCNetwork_Name : string }.

Record EdgeGateway := mkEdgeGateway {
  EdgeGateway_HREF : string; EdgeGateway_ID : string;
  EdgeGateway_Name : string }.

Record QueryResultEdgeGatewayRecordType := mkEdgeGatewayRecord {
  EdgeGatewayRecord_HREF : string; EdgeGatewayRecord_Name : string }.

Record QueryResultEdgeGatewayRecordsType := mkEdgeGatewayRecords {
  EdgeGatewayRecord : list QueryResultEdgeGatewayRecordType }.

Record VApp := mkVApp {
  VApp_HREF : string; VApp_ID : string; VApp_Name : string }.

Record VAppTemplate := mkVAppTemplate {
  VAppTemplate_HREF : string; VAppTemplate_ID : string;
  VAppTemplate_Name : string }.

Record Entity := mkEntity {
  Entity_HREF : string; Entity_Name : string }.

Record CatalogItem := mkCatalogItem {
  CatalogItem_HREF : string; CatalogItem_ID : string;
  CatalogItem_Name : string; CatalogItem_Entity : option Entity }.

Record Error := mkError { Error_Message : string }.

Record Task := mkTask {
  Task_HREF : string; Task_Status : string;
  Task_Error : option Error; Task_Owner : option Reference }.

Record VdcComputePolicy := mkVdcComputePolicy {
  VdcComputePolicy_ID : string; VdcComputePolicy_Name : string }.

Record AdminOrg := mkAdminOrg {
  AdminOrg_HREF : string; AdminOrg_Name : string }.

Record AdminVdc := mkAdminVdc {
  AdminVdc_HREF : string; AdminVdc_ID : string; AdminVdc_Name : string }.

Record VdcCapability := mkVdcCapability {
  VdcCapability_Name : string; VdcCapability_Value : string }.

End types.

(** The kinds of document the client asks the transport to decode, and
    the Go type each one is decoded into. *)
Inductive kind : Type :=
| KOrg | KCatalog | KAdminCatalog | KVdc | KOrgVDCNetwork | KEdgeGateway
| KEdgeGatewayRecords | KVApp | KVAppTemplate | KTask
| KCatalogItem | KAdminOrg | KAdminVdc
| KVdcComputePolicy | KVdcComputePolicies | KVdcCapabilities.

Definition doc (k : kind) : Type :=
  match k with
  | KOrg => types.Org
  | KCatalog => types.Catalog
  | KAdminCatalog => types.AdminCatalog
  | KVdc => types.Vdc
  | KOrgVDCNetwork => types.OrgVDCNetwork
  | KEdgeGateway => types.EdgeGateway
  | KEdgeGatewayRecords => types.QueryResultEdgeGatewayRecordsType
  | KVApp => types.VApp
  | KVAppTemplate => types.VAppTemplate
  | KTask => types.Task
  | KCatalogItem => types.CatalogItem
  | KAdminOrg => types.AdminOrg
  | KAdminVdc => types.AdminVdc
  | KVdcComputePolicy => types.VdcComputePolicy
  | KVdcComputePolicies => list types.VdcComputePolicy
  | KVdcCapabilities => list types.VdcCapability
  end.

(** Go zero values: what [new(T)] and [&T{}] point to. *)
Definition zero (k : kind) : doc k :=
  match k with
  | KOrg => types.mkOrg "" "" []
  | KCatalog => types.mkCatalog "" "" "" ""
  | KAdminCatalog => types.mkAdminCatalog "" (types.mkCatalog "" "" "" "") None
  | KVdc => types.mkVdc "" "" "" [] [] []
  | KOrgVDCNetwork => types.mkOrgVDCNetwork "" "" ""
  | KEdgeGateway => types.mkEdgeGateway "" "" ""
  | KEdgeGatewayRecords => types.mkEdgeGatewayRecords []
  | KVApp => types.mkVApp "" "" ""
  | KVAppTemplate => types.mkVAppTemplate "" "" ""
  | KTask => types.mkTask "" "" None None
  | KCatalogItem => types.mkCatalogItem "" "" "" None
  | KAdminOrg => types.mkAdminOrg "" ""
  | KAdminVdc => types.mkAdminVdc "" "" ""
  | KVdcComputePolicy => types.mkVdcComputePolicy "" ""
  | KVdcComputePolicies => []
  | KVdcCapabilities => []
  end.

(* ================================================================= *)
(** ** Requests, effects and the client *)

(** [url.URL], reduced to the fields the code touches. *)
Record URL := mkURL { Scheme : string; Host : string; Path : string }.

(** A typed request body. *)
Definition Payload := { k : kind & doc k }.

(** One call through the XML transport ([ExecuteRequest] and friends). *)
Record Request := mkRequest {
  requestType : string;
  pathURL : string;
  contentType : string;
  errorMessage : string;
  params : list (string * string);
  payload : option Payload }.

(** One call through the versioned OpenAPI transport. *)
Record OpenApiRequest := mkOpenApiRequest {
  oa_method : string;
  oa_apiVersion : string;
  oa_urlRef : URL;
  oa_params : list (string * string);
  oa_payload : option Payload }.

(** The lookup strategies whose entry is recorded in the trace. *)
Inductive strategy := ByName | ById.

(** Everything the client code does to the outside world, in order. *)
Inductive Event : Type :=
| EvRequest (r : Request)
| EvOpenApi (r : OpenApiRequest)
| EvSleep (milliseconds : Z)
| EvCompat (endpoint : string)
| EvLookup (entity : kind) (s : strategy) (identifier : string) (refresh : bool).

Definition Trace := list Event.

(** The remote side.  Its answers may depend on everything that happened
    so far, which is what makes a read flaky.  [status] is the outcome of
    sending the request and checking the response code; [body k] is the
    outcome of decoding the response body into a [doc k]. *)
Record Server := mkServer {
  status : Trace -> Event -> error;
  body : forall k : kind, Trace -> Event -> error_value + doc k }.

(** The outcome of one complete exchange: the request is sent, the
    response code checked and the body decoded into a [doc k]. *)
Definition answer (srv : Server) (k : kind) (tr : Trace) (ev : Event)
  : error_value + doc k :=
  match status srv tr ev with
  | Some e => inl e
  | None => body srv k tr ev
  end.

(** [govcd.Client].  [Http] stands for the connection; [compat] is the
    session's answer to an endpoint compatibility check (computed by code
    outside these files); [APIVersion] is the version the server itself
    reports. *)
Record Client := mkClient {
  VCDHREF : URL;
  IsSysAdmin : bool;
  APIVersion : string;
  Http : Server;
  compat : string -> string * error }.

(* ================================================================= *)
(** ** The monad of client computations *)

(** The outcome of running Go code: a value, a run-time panic, or (for
    the one unbounded loop, which the model runs with fuel) the fuel
    running out before the loop ends. *)
Inductive Res (A : Type) : Type :=
| Val (a : A)
| Panic (reason : string)
| OutOfFuel.
Arguments Val {A} a.
Arguments Panic {A} reason.
Arguments OutOfFuel {A}.

(** The state threaded through a method: its receiver (methods have
    pointer receivers and may replace what the receiver points to) and the
    trace so far. *)
Record World (S : Type) := mkWorld { self : S; trace : Trace }.

Definition M (S A : Type) : Type := World S -> Res A * World S.

Definition ret {S A} (a : A) : M S A := fun w => (Val a, w).

Definition bind {S A B} (m : M S A) (k : A -> M S B) : M S B :=
  fun w => match m w with
           | (Val a, w') => k a w'
           | (Panic r, w') => (Panic r, w')
           | (OutOfFuel, w') => (OutOfFuel, w')
           end.

Declare Scope go_scope.
Delimit Scope go_scope with go.
Notation "x <- m ;; k" := (bind m (fun x => k))
  (at level 61, m at next level, right associativity) : go_scope.
Notation "' p <- m ;; k" := (bind m (fun x => match x with p => k end))
  (at level 61, p pattern, m at next level, right associativity) : go_scope.
Notation "m ;; k" := (bind m (fun _ => k))
  (at level 61, right associativity) : go_scope.
Open Scope go_scope.

Definition panic {S A} (reason : string) : M S A := fun w => (Panic reason, w).
Definition out_of_fuel {S A} : M S A := fun w => (OutOfFuel, w).

(** Dereferencing a pointer: [nil] panics. *)
Definition deref {S A} (p : option A) : M S A :=
  match p with
  | Some a => ret a
  | None => panic "invalid memory address or nil pointer dereference"
  end.

Definition get_self {S} : M S S := fun w => (Val (self w), w).
Definition put_self {S} (s : S) : M S unit :=
  fun w => (Val tt, mkWorld s (trace w)).
Definition get_trace {S} : M S Trace := fun w => (Val (trace w), w).
Definition emit {S} (ev : Event) : M S unit :=
  fun w => (Val tt, mkWorld (self w) (trace w ++ [ev])).

(** [for _, x := range l { body }]: the body answers [Some v] for
    [return v] and [None] to fall through to the next element. *)
Fixpoint for_range {S A R} (l : list A) (body : A -> M S (option R))
  : M S (option R) :=
  match l with
  | [] => ret None
  | x :: l' =>
      r <- body x ;;
      match r with
      | Some v => ret (Some v)
      | None => for_range l' body
      end
  end.

(** Running another object's method: the callee works on its own
    receiver, the trace is shared. *)
Definition call_on {S T A} (receiver : T) (m : M T A) : M S (A * T) :=
  fun w => match m (mkWorld receiver (trace w)) with
           | (Val a, w') => (Val (a, self w'), mkWorld (self w) (trace w'))
           | (Panic r, w') => (Panic r, mkWorld (self w) (trace w'))
           | (OutOfFuel, w') => (OutOfFuel, mkWorld (self w) (trace w'))
           end.

(** [time.Sleep(d)], with [d] in milliseconds. *)
Definition Sleep {S} (milliseconds : Z) : M S unit := emit (EvSleep milliseconds).

(* ================================================================= *)
(** ** What the embedded files use and do not define *)

(** Constants of package [types], helpers of package [govcd] defined in
    other files, and functions of the Go library.  They are parameters of
    the development, and so are the two things the resolver and the wait
    loop leave open: the predicate that recognises an opaque ID and the
    polling interval. *)
Class Externals : Type := {
  MimeCatalog : string;
  MimeVDC : string;
  MimeAdminCatalog : string;
  MimeQueryRecords : string;
  XMLNamespaceVCloud : string;
  OpenApiPathVersion1_0_0 : string;
  OpenApiEndpointVdcComputePolicies : string;
  OpenApiEndpointVdcAssignedComputePolicies : string;
  OpenApiEndpointVdcCapabilities : string;
  (** [equalIds(wantedId, foundId, foundHref)] *)
  equalIds : string -> string -> string -> bool;
  (** [client.OpenApiBuildEndpoint(parts...)] *)
  OpenApiBuildEndpoint : Client -> list string -> option URL * error;
  (** [url.ParseRequestURI], [url.QueryEscape], [url.URL.String],
      [fmt.Sprintf], [strconv.FormatBool] *)
  ParseRequestURI : string -> option URL * error;
  QueryEscape : string -> string;
  URL_String : URL -> string;
  Sprintf : string -> list fmt_arg -> string;
  FormatBool : bool -> string;
  (** the shared predicate that recognises the shape of an opaque ID *)
  isOpaqueId : string -> bool;
  (** the fixed interval between two polls of a task, in milliseconds *)
  taskPollInterval : Z
}.

Definition MethodGet := "GET".
Definition MethodPost := "POST".
Definition MethodPut := "PUT".
Definition MethodDelete := "DELETE".

(** Modelled from the spec: [Client.ExecuteRequest] is defined outside
    these files; it is the transport operation
    [fetch(reference) -> Document | TransportError] of the external
    interfaces.  The request is recorded, the server is asked, and on
    success the answer is decoded into [out]; on failure [out] is left as
    it was. *)
Definition ExecuteRequest {S} (client : option Client)
    (pathURL requestType contentType errorMessage : string)
    (payload : option Payload) (k : kind) (out : doc k)
  : M S (doc k * error) :=
  c <- deref client ;;
  tr <- get_trace ;;
  let ev := EvRequest (mkRequest requestType pathURL contentType errorMessage [] payload) in
  emit ev ;;
  match answer (Http c) k tr ev with
  | inl e => ret (out, Some e)
  | inr d => ret (d, None)
  end.

(** Modelled from the spec: [Client.ExecuteRequestWithoutResponse], the
    same transport operation for calls whose response body is not read. *)
Definition ExecuteRequestWithoutResponse {S} (client : option Client)
    (pathURL requestType contentType errorMessage : string)
    (payload : option Payload) : M S error :=
  c <- deref client ;;
  tr <- get_trace ;;
  let ev := EvRequest (mkRequest requestType pathURL contentType errorMessage [] payload) in
  emit ev ;;
  ret (status (Http c) tr ev).

(* ================================================================= *)
(** ** Wrapper structs, interfaces and the resolver *)

(** [Org], [Vdc], [Catalog], [VApp], ... all have the same shape in Go:
    a pointer to the [types] document and a pointer to the client.  The
    zero value [T{}] has both pointers [nil]. *)
Record Wrapper (k : kind) := mkWrapper {
  data : option (doc k);
  client : option Client }.
Arguments mkWrapper {k} data client.

Definition Org := Wrapper KOrg.
Definition Catalog := Wrapper KCatalog.
Definition AdminCatalog := Wrapper KAdminCatalog.
Definition Vdc := Wrapper KVdc.
Definition OrgVDCNetwork := Wrapper KOrgVDCNetwork.
Definition EdgeGateway := Wrapper KEdgeGateway.
Definition VApp := Wrapper KVApp.
Definition VAppTemplate := Wrapper KVAppTemplate.
Definition CatalogItem := Wrapper KCatalogItem.
Definition Task := Wrapper KTask.
Definition AdminOrg := Wrapper KAdminOrg.
Definition AdminVdc := Wrapper KAdminVdc.

(** [T{}] *)
Definition zero_value (k : kind) : Wrapper k := mkWrapper None None.

(** [x == (T{})] *)
Definition is_zero_value {k} (x : Wrapper k) : bool :=
  match data x, client x with
  | None, None => true
  | _, _ => false
  end.

(** The constructors.  [NewOrg], [NewVdc] and [NewCatalogItem] are in
    these files and all read [&T{T: new(types.T), client: cli}].  The
    others are in sibling files; the code here uses their result the same
    way (it is dereferenced, and its document pointer is handed to the
    transport as the place to decode into), and they are given the same
    body. *)
Definition New (k : kind) (cli : option Client) : Wrapper k :=
  mkWrapper (Some (zero k)) cli.

Definition NewOrg := New KOrg.
Definition NewCatalog := New KCatalog.
Definition NewAdminCatalog := New KAdminCatalog.
Definition NewVdc := New KVdc.
Definition NewOrgVDCNetwork := New KOrgVDCNetwork.
Definition NewEdgeGateway := New KEdgeGateway.
Definition NewVApp := New KVApp.
Definition NewVAppTemplate := New KVAppTemplate.
Definition NewCatalogItem := New KCatalogItem.
Definition NewTask := New KTask.

(** [client.ExecuteRequest(..., x.T)]: the call decodes through the
    pointer held by the wrapper [x]. *)
Definition ExecuteRequestInto {S k} (cli : option Client)
    (pathURL requestType contentType errorMessage : string)
    (payload : option Payload) (x : Wrapper k) : M S (Wrapper k * error) :=
  out <- deref (data x) ;;
  '(d, err) <- ExecuteRequest cli pathURL requestType contentType errorMessage payload k out ;;
  ret (mkWrapper (Some d) (client x), err).

(** An [interface{}] holding a pointer to a wrapper struct.  A [nil]
    pointer stored in an interface is not the [nil] interface. *)
Inductive interface : Type :=
| nil_interface
| boxed (k : kind) (p : option (Wrapper k)).
Arguments boxed k p : clear implicits.

Definition kind_eq_dec (a b : kind) : {a = b} + {a <> b}.
Proof. decide equality. Defined.

(** [entity.( *T )] *)
Definition type_assert {S} (k : kind) (entity : interface)
  : M S (option (Wrapper k)) :=
  match entity with
  | nil_interface => panic "interface conversion: interface is nil"
  | boxed k' p =>
      match kind_eq_dec k' k with
      | left e => ret (eq_rect k' (fun j => option (Wrapper j)) p k e)
      | right _ => panic "interface conversion: wrong dynamic type"
      end
  end.

Definition genericGetter (S : Type) : Type :=
  string -> bool -> M S (interface * error).

Section Resolver.
Context `{Externals}.

(** Modelled from the spec: [getEntityByNameOrId] is defined outside
    these files.  Decision rule of the Identifier Resolver: when the
    identifier lexically matches the shape of an opaque ID the by-id
    strategy is called, otherwise the by-name strategy; the refresh flag
    goes to the strategy and the strategy's outcome is propagated. *)
Definition getEntityByNameOrId {S} (getByName getById : genericGetter S)
    (identifier : string) (refresh : bool) : M S (interface * error) :=
  if isOpaqueId identifier
  then getById identifier refresh
  else getByName identifier refresh.

End Resolver.

(** [return v] inside a range loop, and falling through to the next
    element. *)
Definition Return {S R} (v : R) : M S (option R) := ret (Some v).
Definition Continue {S R} : M S (option R) := ret None.

(** What follows a loop: the value returned from inside it, or the code
    after the loop. *)
Definition or_after {S R} (returned : option R) (after : M S R) : M S R :=
  match returned with
  | Some v => ret v
  | None => after
  end.

(* ================================================================= *)
(** ** The versioned OpenAPI transport *)

Section OpenApi.
Context `{Externals}.

(** Modelled from the spec: [Client.checkOpenApiEndpointCompatibility]
    is defined outside these files; this is CheckEndpointCompatibility
    of the Capability Negotiator.  The consultation is recorded; its
    result, the version to use for the call or an error, is the
    session's answer [compat]. *)
Definition checkOpenApiEndpointCompatibility {S} (cli : option Client)
    (endpoint : string) : M S (string * error) :=
  c <- deref cli ;;
  emit (EvCompat endpoint) ;;
  ret (compat c endpoint).

(** Modelled from the spec: the [OpenApi*Item] methods of [Client] are
    defined outside these files; they are the transport operations
    [fetch] and [post/put/delete] of the external interfaces, called
    with an explicit API version. *)
Definition OpenApiCall {S} (cli : option Client) (method apiVersion : string)
    (urlRef : option URL) (queryParameters : list (string * string))
    (payload : option Payload) (k : kind) (out : doc k)
  : M S (doc k * error) :=
  c <- deref cli ;;
  u <- deref urlRef ;;
  tr <- get_trace ;;
  let ev := EvOpenApi (mkOpenApiRequest method apiVersion u queryParameters payload) in
  emit ev ;;
  match answer (Http c) k tr ev with
  | inl e => ret (out, Some e)
  | inr d => ret (d, None)
  end.

Definition OpenApiGetItem {S} (cli : option Client) (apiVersion : string)
    (urlRef : option URL) (k : kind) (out : doc k) : M S (doc k * error) :=
  OpenApiCall cli MethodGet apiVersion urlRef [] None k out.

Definition OpenApiGetAllItems {S} (cli : option Client) (apiVersion : string)
    (urlRef : option URL) (queryParameters : list (string * string))
    (k : kind) (out : doc k) : M S (doc k * error) :=
  OpenApiCall cli MethodGet apiVersion urlRef queryParameters None k out.

Definition OpenApiPostItem {S} (cli : option Client) (apiVersion : string)
    (urlRef : option URL) (payload : option Payload) (k : kind) (out : doc k)
  : M S (doc k * error) :=
  OpenApiCall cli MethodPost apiVersion urlRef [] payload k out.

Definition OpenApiPutItem {S} (cli : option Client) (apiVersion : string)
    (urlRef : option URL) (payload : option Payload) (k : kind) (out : doc k)
  : M S (doc k * error) :=
  OpenApiCall cli MethodPut apiVersion urlRef [] payload k out.

Definition OpenApiDeleteItem {S} (cli : option Client) (apiVersion : string)
    (urlRef : option URL) : M S error :=
  c <- deref cli ;;
  u <- deref urlRef ;;
  tr <- get_trace ;;
  let ev := EvOpenApi (mkOpenApiRequest MethodDelete apiVersion u [] None) in
  emit ev ;;
  ret (status (Http c) tr ev).

End OpenApi.

(** In UI called VM sizing policy. In API VDC compute policy *)
Record VdcComputePolicy := mkVdcComputePolicy {
  VdcComputePolicy_VdcComputePolicy : option types.VdcComputePolicy;
  VdcComputePolicy_Href : string;
  VdcComputePolicy_client : option Client }.

(** [s[low:]] on a Go string: out of range panics. *)
Definition slice_from {S} (s : string) (low : nat) : M S string :=
  if (low <=? String.length s)%nat
  then ret (substring low (String.length s - low) s)
  else panic "slice bounds out of range".

(* ================================================================= *)
(** ** Package-level functions of the org and compute policy files *)

Module govcd.
Section Functions.
Context `{Externals}.

(** CreateCatalogWithStorageProfile is like CreateCatalog, but allows to
    specify storage profile *)
Definition CreateCatalogWithStorageProfile {S} (cli : option Client)
    (links : types.LinkList) (Name Description : string)
    (storageProfiles : option types.CatalogStorageProfiles)
  : M S (option AdminCatalog * error) :=
  let reqCatalog :=
    {| types.Catalog_HREF := ""; types.Catalog_ID := "";
       types.Catalog_Name := Name; types.Catalog_Description := Description |} in
  let vcomp :=
    {| types.AdminCatalog_Xmlns := XMLNamespaceVCloud;
       types.AdminCatalog_Catalog := reqCatalog;
       types.AdminCatalog_CatalogStorageProfiles := storageProfiles |} in
  let createOrgLink :=
    fold_left
      (fun (found : option types.Link) link =>
         if (types.Link_Rel link =? "add") && (types.Link_Type link =? MimeAdminCatalog)
         then Some link else found)
      links None in
  match createOrgLink with
  | None => ret (None, Some (Errorf "creating catalog failed to find url" []))
  | Some link =>
      let catalog := NewAdminCatalog cli in
      '(catalog, err) <-
         ExecuteRequestInto cli (types.Link_HREF link) MethodPost
           "application/vnd.vmware.admin.catalog+xml" "error creating catalog: %s"
           (Some (existT doc KAdminCatalog vcomp)) catalog ;;
      ret (Some catalog, err)
  end.

(** CreateCatalog creates a catalog with specified name and description *)
Definition CreateCatalog {S} (cli : option Client) (links : types.LinkList)
    (Name Description : string) : M S (AdminCatalog * error) :=
  '(adminCatalog, err) <-
     CreateCatalogWithStorageProfile cli links Name Description None ;;
  match err with
  | Some _ => ret (zero_value KAdminCatalog, None)
  | None => a <- deref adminCatalog ;; ret (a, None)
  end.

(** getVdcComputePolicyById retrieves VDC compute policy by given ID *)
Definition getVdcComputePolicyById {S} (cli : option Client) (id : string)
  : M S (option VdcComputePolicy * error) :=
  let endpoint :=
    (OpenApiPathVersion1_0_0 ++ OpenApiEndpointVdcComputePolicies)%string in
  '(minimumApiVersion, err) <- checkOpenApiEndpointCompatibility cli endpoint ;;
  match err with
  | Some e => ret (None, Some e)
  | None =>
      if id =? "" then ret (None, Some (Errorf "empty VDC id" []))
      else
        c <- deref cli ;;
        let '(urlRef, err) := OpenApiBuildEndpoint c [endpoint; id] in
        match err with
        | Some e => ret (None, Some e)
        | None =>
            u <- deref urlRef ;;
            let vdcComputePolicy :=
              mkVdcComputePolicy (Some (zero KVdcComputePolicy)) (URL_String u) cli in
            '(p, err) <-
               OpenApiGetItem cli minimumApiVersion urlRef
                 KVdcComputePolicy (zero KVdcComputePolicy) ;;
            let vdcComputePolicy :=
              mkVdcComputePolicy (Some p)
                (VdcComputePolicy_Href vdcComputePolicy) cli in
            match err with
            | Some e => ret (None, Some e)
            | None => ret (Some vdcComputePolicy, None)
            end
        end
  end.

(** getAllVdcComputePolicies retrieves all VDC compute policies using
    OpenAPI endpoint. *)
Definition getAllVdcComputePolicies {S} (cli : option Client)
    (queryParameters : list (string * string))
  : M S (list VdcComputePolicy * error) :=
  let endpoint :=
    (OpenApiPathVersion1_0_0 ++ OpenApiEndpointVdcComputePolicies)%string in
  '(minimumApiVersion, err) <- checkOpenApiEndpointCompatibility cli endpoint ;;
  match err with
  | Some e => ret ([], Some e)
  | None =>
      c <- deref cli ;;
      let '(urlRef, err) := OpenApiBuildEndpoint c [endpoint] in
      match err with
      | Some e => ret ([], Some e)
      | None =>
          let responses := [zero KVdcComputePolicy] in
          '(responses, err) <-
             OpenApiGetAllItems cli minimumApiVersion urlRef queryParameters
               KVdcComputePolicies responses ;;
          match err with
          | Some e => ret ([], Some e)
          | None =>
              let wrappedVdcComputePolicies :=
                map (fun response => mkVdcComputePolicy (Some response) "" cli)
                    responses in
              ret (wrappedVdcComputePolicies, None)
          end
      end
  end.

End Functions.
End govcd.

(* ================================================================= *)
(** ** Methods of the org file *)

Module Org.
Section Methods.
Context `{Externals}.

(** The receiver [org] of the method. *)
Definition receiver : M Org Org := get_self.

Definition Refresh : M Org error :=
  org <- receiver ;;
  if is_zero_value org
  then ret (Some (Errorf "cannot refresh, Object is empty" []))
  else
    let unmarshalledOrg := zero KOrg in
    o <- deref (data org) ;;
    '(unmarshalledOrg, err) <-
       ExecuteRequest (client org) (types.Org_HREF o) MethodGet
         "" "error refreshing organization: %s" None KOrg unmarshalledOrg ;;
    match err with
    | Some e => ret (Some e)
    | None =>
        put_self (mkWrapper (k := KOrg) (Some unmarshalledOrg) (client org)) ;;
        ret None
    end.

(** Given a valid catalog name, FindCatalog returns a Catalog object.
    If no catalog is found, then returns an empty catalog and no error.
    Otherwise it returns an error.
    Deprecated: use org.GetCatalogByName instead *)
Definition FindCatalog (catalogName : string) : M Org (Catalog * error) :=
  org <- receiver ;;
  o <- deref (data org) ;;
  returned <-
    for_range (types.Org_Link o) (fun link =>
      if (types.Link_Rel link =? "down")
         && (types.Link_Type link =? "application/vnd.vmware.vcloud.catalog+xml")
         && (types.Link_Name link =? catalogName)
      then
        let cat := NewCatalog (client org) in
        '(cat, err) <-
           ExecuteRequestInto (client org) (types.Link_HREF link) MethodGet
             "" "error retrieving catalog: %s" None cat ;;
        Return (cat, err)
      else Continue) ;;
  or_after returned (ret (zero_value KCatalog, None)).

(** GetVdcByName if user specifies valid vdc name then this returns a vdc
    object.  If no vdc is found, then it returns an empty vdc and no
    error.  Otherwise it returns an empty vdc and an error.
    Deprecated: use org.GetVDCByName instead *)
Definition GetVdcByName (vdcname : string) : M Org (Vdc * error) :=
  org <- receiver ;;
  o <- deref (data org) ;;
  returned <-
    for_range (types.Org_Link o) (fun link =>
      if types.Link_Name link =? vdcname
      then
        let vdc := NewVdc (client org) in
        '(vdc, err) <-
           ExecuteRequestInto (client org) (types.Link_HREF link) MethodGet
             "" "error retrieving vdc: %s" None vdc ;;
        Return (vdc, err)
      else Continue) ;;
  or_after returned (ret (zero_value KVdc, None)).

(** CreateCatalogWithStorageProfile is like CreateCatalog but
    additionally allows to specify storage profiles *)
Definition CreateCatalogWithStorageProfile (name description : string)
    (storageProfiles : option types.CatalogStorageProfiles)
  : M Org (option Catalog * error) :=
  org <- receiver ;;
  let catalog := NewCatalog (client org) in
  o <- deref (data org) ;;
  '(adminCatalog, err) <-
     govcd.CreateCatalogWithStorageProfile (client org) (types.Org_Link o)
       name description storageProfiles ;;
  match err with
  | Some e => ret (None, Some e)
  | None =>
      a <- deref adminCatalog ;;
      d <- deref (data a) ;;
      let catalog : Catalog :=
        mkWrapper (k := KCatalog) (Some (types.AdminCatalog_Catalog d))
                  (client catalog) in
      ret (Some catalog, None)
  end.

Definition CreateCatalog (name description : string) : M Org (Catalog * error) :=
  '(catalog, err) <- CreateCatalogWithStorageProfile name description None ;;
  match err with
  | Some e => ret (zero_value KCatalog, Some e)
  | None => c <- deref catalog ;; ret (c, None)
  end.

(** GetCatalogByHref finds a Catalog by HREF.
    On success, returns a pointer to the Catalog structure and a nil error.
    On failure, returns a nil pointer and an error *)
Definition GetCatalogByHref (catalogHref : string)
  : M Org (option Catalog * error) :=
  org <- receiver ;;
  let cat := NewCatalog (client org) in
  '(cat, err) <-
     ExecuteRequestInto (client org) catalogHref MethodGet
       "" "error retrieving catalog: %s" None cat ;;
  match err with
  | Some e => ret (None, Some e)
  | None => ret (Some cat, None)
  end.

(** GetCatalogByName finds a Catalog by Name.
    On success, returns a pointer to the Catalog structure and a nil error.
    On failure, returns a nil pointer and an error *)
Definition GetCatalogByName (catalogName : string) (refresh : bool)
  : M Org (option Catalog * error) :=
  emit (EvLookup KCatalog ByName catalogName refresh) ;;
  err <- (if refresh then Refresh else ret None) ;;
  match err with
  | Some e => ret (None, Some e)
  | None =>
      org <- receiver ;;
      o <- deref (data org) ;;
      returned <-
        for_range (types.Org_Link o) (fun catalog =>
          if (types.Link_Name catalog =? catalogName)
             && (types.Link_Type catalog =? MimeCatalog)
          then r <- GetCatalogByHref (types.Link_HREF catalog) ;; Return r
          else Continue) ;;
      or_after returned (ret (None, Some ErrorEntityNotFound))
  end.

(** GetCatalogById finds a Catalog by ID *)
Definition GetCatalogById (catalogId : string) (refresh : bool)
  : M Org (option Catalog * error) :=
  emit (EvLookup KCatalog ById catalogId refresh) ;;
  err <- (if refresh then Refresh else ret None) ;;
  match err with
  | Some e => ret (None, Some e)
  | None =>
      org <- receiver ;;
      o <- deref (data org) ;;
      returned <-
        for_range (types.Org_Link o) (fun catalog =>
          if equalIds catalogId (types.Link_ID catalog) (types.Link_HREF catalog)
          then r <- GetCatalogByHref (types.Link_HREF catalog) ;; Return r
          else Continue) ;;
      or_after returned (ret (None, Some ErrorEntityNotFound))
  end.

(** GetCatalogByNameOrId finds a Catalog by name or ID *)
Definition GetCatalogByNameOrId (identifier : string) (refresh : bool)
  : M Org (option Catalog * error) :=
  let getByName : genericGetter Org := fun name refresh =>
    '(c, err) <- GetCatalogByName name refresh ;; ret (boxed KCatalog c, err) in
  let getById : genericGetter Org := fun id refresh =>
    '(c, err) <- GetCatalogById id refresh ;; ret (boxed KCatalog c, err) in
  '(entity, err) <- getEntityByNameOrId getByName getById identifier refresh ;;
  match entity with
  | nil_interface => ret (None, err)
  | _ => c <- type_assert KCatalog entity ;; ret (c, err)
  end.

(** GetVDCByHref finds a VDC by HREF *)
Definition GetVDCByHref (vdcHref : string) : M Org (option Vdc * error) :=
  org <- receiver ;;
  let vdc := NewVdc (client org) in
  '(vdc, err) <-
     ExecuteRequestInto (client org) vdcHref MethodGet
       "" "error retrieving VDC: %s" None vdc ;;
  match err with
  | Some e => ret (None, Some e)
  | None => ret (Some vdc, None)
  end.

(** GetVDCByName finds a VDC by Name *)
Definition GetVDCByName (vdcName : string) (refresh : bool)
  : M Org (option Vdc * error) :=
  emit (EvLookup KVdc ByName vdcName refresh) ;;
  err <- (if refresh then Refresh else ret None) ;;
  match err with
  | Some e => ret (None, Some e)
  | None =>
      org <- receiver ;;
      o <- deref (data org) ;;
      returned <-
        for_range (types.Org_Link o) (fun link =>
          if (types.Link_Name link =? vdcName)
             && (types.Link_Type link =? MimeVDC)
          then r <- GetVDCByHref (types.Link_HREF link) ;; Return r
          else Continue) ;;
      or_after returned (ret (None, Some ErrorEntityNotFound))
  end.

(** GetVDCById finds a VDC by ID *)
Definition GetVDCById (vdcId : string) (refresh : bool)
  : M Org (option Vdc * error) :=
  emit (EvLookup KVdc ById vdcId refresh) ;;
  err <- (if refresh then Refresh else ret None) ;;
  match err with
  | Some e => ret (None, Some e)
  | None =>
      org <- receiver ;;
      o <- deref (data org) ;;
      returned <-
        for_range (types.Org_Link o) (fun link =>
          if equalIds vdcId (types.Link_ID link) (types.Link_HREF link)
          then r <- GetVDCByHref (types.Link_HREF link) ;; Return r
          else Continue) ;;
      or_after returned (ret (None, Some ErrorEntityNotFound))
  end.

(** GetVDCByNameOrId finds a VDC by name or ID *)
Definition GetVDCByNameOrId (identifier : string) (refresh : bool)
  : M Org (option Vdc * error) :=
  let getByName : genericGetter Org := fun name refresh =>
    '(v, err) <- GetVDCByName name refresh ;; ret (boxed KVdc v, err) in
  let getById : genericGetter Org := fun id refresh =>
    '(v, err) <- GetVDCById id refresh ;; ret (boxed KVdc v, err) in
  '(entity, err) <- getEntityByNameOrId getByName getById identifier refresh ;;
  match entity with
  | nil_interface => ret (None, err)
  | _ => v <- type_assert KVdc entity ;; ret (v, err)
  end.

(** GetVdcComputePolicyById retrieves VDC compute policy by given ID *)
Definition GetVdcComputePolicyById (id : string)
  : M Org (option VdcComputePolicy * error) :=
  org <- receiver ;;
  govcd.getVdcComputePolicyById (client org) id.

(** GetAllVdcComputePolicies retrieves all VDC compute policies using
    OpenAPI endpoint. *)
Definition GetAllVdcComputePolicies (queryParameters : list (string * string))
  : M Org (list VdcComputePolicy * error) :=
  org <- receiver ;;
  govcd.getAllVdcComputePolicies (client org) queryParameters.

End Methods.
End Org.

(* ================================================================= *)
(** ** Tasks *)

(** [context.Context], reduced to its cancellation signal: whether the
    signal has fired by the time the trace has grown to the given one.
    Only the wait loop looks at it; every other function merely hands its
    [ctx] to the transport, and the embedding leaves that argument out. *)
Definition Ctx : Type := Trace -> bool.

(** [context.Background()]: never cancelled. *)
Definition Background : Ctx := fun _ => false.

Module Task.
Section Methods.
Context `{Externals}.

Definition receiver : M Task Task := get_self.

(** The server-reported message of a task snapshot (it is optional). *)
Definition message (t : types.Task) : string :=
  match types.Task_Error t with
  | Some e => types.Error_Message e
  | None => ""
  end.

(** Modelled from the spec: [Task.WaitTaskCompletion] is defined outside
    these files; this is the contract WaitUntilComplete of the Task
    State Machine.  Each iteration checks the cancellation signal,
    fetches the current representation of the task (a new snapshot),
    returns success on status success, fails with [TaskFailed] carrying
    the server-reported message on status error or aborted, and
    otherwise sleeps for the fixed interval (during which the signal is
    still observed) and polls again.  A failing fetch is returned to the
    caller.  The Go loop is unbounded; [fuel] bounds the number of
    iterations of the model. *)
Fixpoint WaitTaskCompletion (fuel : nat) (ctx : Ctx) : M Task error :=
  match fuel with
  | O => out_of_fuel
  | S fuel' =>
      tr <- get_trace ;;
      if ctx tr then ret (Some Cancelled)
      else
        task <- receiver ;;
        t <- deref (data task) ;;
        '(t', err) <-
           ExecuteRequest (client task) (types.Task_HREF t) MethodGet
             "" "" None KTask t ;;
        match err with
        | Some e => ret (Some e)
        | None =>
            put_self (mkWrapper (k := KTask) (Some t') (client task)) ;;
            if types.Task_Status t' =? "success" then ret None
            else if (types.Task_Status t' =? "error")
                    || (types.Task_Status t' =? "aborted")
            then ret (Some (TaskFailed (message t')))
            else
              Sleep taskPollInterval ;;
              tr' <- get_trace ;;
              if ctx tr' then ret (Some Cancelled)
              else WaitTaskCompletion fuel' ctx
        end
  end.

End Methods.
End Task.

(* ================================================================= *)
(** ** Methods of the vdc file *)

Module Vdc.
Section Methods.
Context `{Externals}.

Definition receiver : M Vdc Vdc := get_self.

(** Gets a vapp with a specific url vappHREF *)
Definition getVdcVAppbyHREF (vappHREF : URL) : M Vdc (option VApp * error) :=
  vdc <- receiver ;;
  let vapp := NewVApp (client vdc) in
  '(vapp, err) <-
     ExecuteRequestInto (client vdc) (URL_String vappHREF) MethodGet
       "" "error retrieving VApp: %s" None vapp ;;
  ret (Some vapp, err).

Definition Refresh : M Vdc error :=
  vdc <- receiver ;;
  v <- deref (data vdc) ;;
  if types.Vdc_HREF v =? ""
  then ret (Some (Errorf "cannot refresh, Object is empty" []))
  else
    let unmarshalledVdc := zero KVdc in
    '(unmarshalledVdc, err) <-
       ExecuteRequest (client vdc) (types.Vdc_HREF v) MethodGet
         "" "error refreshing vDC: %s" None KVdc unmarshalledVdc ;;
    match err with
    | Some e => ret (Some e)
    | None =>
        put_self (mkWrapper (k := KVdc) (Some unmarshalledVdc) (client vdc)) ;;
        ret None
    end.

(** Deletes the vdc, returning an error of the vCD call fails.
    [NewRequest], [Http.Do], [checkResp] and [decodeBody] are defined
    outside these files: sending the request and checking the response is
    the server's [status], decoding the body into the task its [body]. *)
Definition Delete (force recursive : bool) : M Vdc (Task * error) :=
  vdc <- receiver ;;
  v <- deref (data vdc) ;;
  if types.Vdc_HREF v =? ""
  then ret (zero_value KTask, Some (Errorf "cannot delete, Object is empty" []))
  else
    let '(vdcUrl, err) := ParseRequestURI (types.Vdc_HREF v) in
    match err with
    | Some e =>
        ret (zero_value KTask, Some (Errorf "error parsing vdc url: %s" [ArgError e]))
    | None =>
        c <- deref (client vdc) ;;
        u <- deref vdcUrl ;;
        let req :=
          EvRequest (mkRequest MethodDelete (URL_String u) "" ""
                       [("force", FormatBool force);
                        ("recursive", FormatBool recursive)] None) in
        tr <- get_trace ;;
        emit req ;;
        match status (Http c) tr req with
        | Some e =>
            ret (zero_value KTask, Some (Errorf "error deleting vdc: %s" [ArgError e]))
        | None =>
            let task := NewTask (client vdc) in
            match body (Http c) KTask tr req with
            | inl e =>
                ret (zero_value KTask,
                     Some (Errorf "error decoding task response: %s" [ArgError e]))
            | inr t =>
                let task : Task := mkWrapper (k := KTask) (Some t) (client task) in
                if types.Task_Status t =? "error"
                then ret (zero_value KTask,
                          Some (Errorf "vdc not properly destroyed" []))
                else ret (task, None)
            end
        end
    end.

(** Deletes the vdc and waits for the asynchronous task to complete. *)
Definition DeleteWait (fuel : nat) (ctx : Ctx) (force recursive : bool)
  : M Vdc error :=
  '(task, err) <- Delete force recursive ;;
  match err with
  | Some e => ret (Some e)
  | None =>
      '(err, _) <- call_on task (Task.WaitTaskCompletion fuel ctx) ;;
      match err with
      | Some e => ret (Some (Errorf "couldn't finish removing vdc %s" [ArgError e]))
      | None => ret None
      end
  end.

(** The nested loops over [vdc.Vdc.AvailableNetworks] and the [Network]
    list of each. *)
Definition range_networks {R} (v : types.Vdc)
    (body : types.Reference -> M Vdc (option R)) : M Vdc (option R) :=
  for_range (types.Vdc_AvailableNetworks v) (fun an =>
    for_range (types.Network an) body).

(** The nested loops over [vdc.Vdc.ResourceEntities] and the
    [ResourceEntity] list of each. *)
Definition range_resources {R} (v : types.Vdc)
    (body : types.ResourceReference -> M Vdc (option R)) : M Vdc (option R) :=
  for_range (types.Vdc_ResourceEntities v) (fun resourceEntities =>
    for_range (types.ResourceEntity resourceEntities) body).

(** Deprecated: use GetOrgVdcNetworkByName *)
Definition FindVDCNetwork (network : string) : M Vdc (OrgVDCNetwork * error) :=
  err <- Refresh ;;
  match err with
  | Some e =>
      ret (zero_value KOrgVDCNetwork,
           Some (Errorf "error refreshing vdc: %s" [ArgError e]))
  | None =>
      vdc <- receiver ;;
      v <- deref (data vdc) ;;
      returned <-
        range_networks v (fun reference =>
          if types.Reference_Name reference =? network
          then
            let orgNet := NewOrgVDCNetwork (client vdc) in
            '(orgNet, err) <-
               ExecuteRequestInto (client vdc) (types.Reference_HREF reference)
                 MethodGet "" "error retrieving org vdc network: %s" None orgNet ;;
            Return (orgNet, err)
          else Continue) ;;
      or_after returned
        (ret (zero_value KOrgVDCNetwork,
              Some (Errorf "can't find VDC Network: %s" [ArgString network])))
  end.

(** GetOrgVdcNetworkByHref returns an Org VDC Network reference if the
    network HREF matches an existing one.  If no valid external network
    is found, it returns a nil Network reference and an error *)
Definition GetOrgVdcNetworkByHref (href : string)
  : M Vdc (option OrgVDCNetwork * error) :=
  vdc <- receiver ;;
  let orgNet := NewOrgVDCNetwork (client vdc) in
  '(orgNet, err) <-
     ExecuteRequestInto (client vdc) href MethodGet
       "" "error retrieving org vdc network: %s" None orgNet ;;
  ret (Some orgNet, err).

Definition GetOrgVdcNetworkByName (name : string) (refresh : bool)
  : M Vdc (option OrgVDCNetwork * error) :=
  emit (EvLookup KOrgVDCNetwork ByName name refresh) ;;
  err <- (if refresh then Refresh else ret None) ;;
  match err with
  | Some e => ret (None, Some (Errorf "error refreshing vdc: %s" [ArgError e]))
  | None =>
      vdc <- receiver ;;
      v <- deref (data vdc) ;;
      returned <-
        range_networks v (fun reference =>
          if types.Reference_Name reference =? name
          then r <- GetOrgVdcNetworkByHref (types.Reference_HREF reference) ;; Return r
          else Continue) ;;
      or_after returned (ret (None, Some ErrorEntityNotFound))
  end.

Definition GetOrgVdcNetworkById (id : string) (refresh : bool)
  : M Vdc (option OrgVDCNetwork * error) :=
  emit (EvLookup KOrgVDCNetwork ById id refresh) ;;
  err <- (if refresh then Refresh else ret None) ;;
  match err with
  | Some e => ret (None, Some (Errorf "error refreshing vdc: %s" [ArgError e]))
  | None =>
      vdc <- receiver ;;
      v <- deref (data vdc) ;;
      returned <-
        range_networks v (fun reference =>
          if equalIds id (types.Reference_ID reference) (types.Reference_HREF reference)
          then r <- GetOrgVdcNetworkByHref (types.Reference_HREF reference) ;; Return r
          else Continue) ;;
      or_after returned (ret (None, Some ErrorEntityNotFound))
  end.

Definition GetOrgVdcNetworkByNameOrId (identifier : string) (refresh : bool)
  : M Vdc (option OrgVDCNetwork * error) :=
  let getByName : genericGetter Vdc := fun name refresh =>
    '(n, err) <- GetOrgVdcNetworkByName name refresh ;;
    ret (boxed KOrgVDCNetwork n, err) in
  let getById : genericGetter Vdc := fun id refresh =>
    '(n, err) <- GetOrgVdcNetworkById id refresh ;;
    ret (boxed KOrgVDCNetwork n, err) in
  '(entity, err) <- getEntityByNameOrId getByName getById identifier false ;;
  match entity with
  | nil_interface => ret (None, err)
  | _ => n <- type_assert KOrgVDCNetwork entity ;; ret (n, err)
  end.

(** The retry loop of [FindEdgeGateway] and [GetEdgeGatewayByHref]
    (written out in both):
    [for i := 1; i < 4 && err != nil; i++ { time.Sleep(200ms); _, err = ExecuteRequest(...) }].
    [steps] is the number of iterations still allowed by the bound on
    [i]. *)
Fixpoint retry_edge_gateway (steps : nat) (i : Z) (href : string)
    (edge : EdgeGateway) (err : error) : M Vdc (EdgeGateway * error) :=
  if (i <? 4)%Z && is_error err
  then
    match steps with
    | O => out_of_fuel
    | S steps' =>
        vdc <- receiver ;;
        Sleep 200 ;;
        '(edge, err) <-
           ExecuteRequestInto (client vdc) href MethodGet
             "" "error retrieving edge gateway: %s" None edge ;;
        retry_edge_gateway steps' (i + 1)%Z href edge err
    end
  else ret (edge, err).

(** Deprecated: use GetEdgeGatewayByName *)
Definition FindEdgeGateway (edgegateway : string) : M Vdc (EdgeGateway * error) :=
  err <- Refresh ;;
  match err with
  | Some e =>
      ret (zero_value KEdgeGateway,
           Some (Errorf "error refreshing vdc: %s" [ArgError e]))
  | None =>
      vdc <- receiver ;;
      v <- deref (data vdc) ;;
      returned <-
        for_range (types.Vdc_Link v) (fun av =>
          if (types.Link_Rel av =? "edgeGateways")
             && (types.Link_Type av =? MimeQueryRecords)
          then
            let query := zero KEdgeGatewayRecords in
            '(query, err) <-
               ExecuteRequest (client vdc) (types.Link_HREF av) MethodGet
                 "" "error querying edge gateways: %s" None KEdgeGatewayRecords query ;;
            match err with
            | Some e => Return (zero_value KEdgeGateway, Some e)
            | None =>
                let href :=
                  fold_left
                    (fun href edge =>
                       if types.EdgeGatewayRecord_Name edge =? edgegateway
                       then types.EdgeGatewayRecord_HREF edge else href)
                    (types.EdgeGatewayRecord query) "" in
                if href =? ""
                then Return (zero_value KEdgeGateway,
                             Some (Errorf "can't find edge gateway with name: %s"
                                     [ArgString edgegateway]))
                else
                  let edge := NewEdgeGateway (client vdc) in
                  '(edge, err) <-
                     ExecuteRequestInto (client vdc) href MethodGet
                       "" "error retrieving edge gateway: %s" None edge ;;
                  r <- (match err with
                        | Some _ => retry_edge_gateway (Z.to_nat (4 - 1)) 1 href edge err
                        | None => ret (edge, err)
                        end) ;;
                  Return r
            end
          else Continue) ;;
      or_after returned
        (ret (zero_value KEdgeGateway, Some (Errorf "can't find Edge Gateway" [])))
  end.

(** GetEdgeGatewayByHref retrieves an edge gateway from VDC by querying
    directly its HREF. *)
Definition GetEdgeGatewayByHref (href : string)
  : M Vdc (option EdgeGateway * error) :=
  if href =? ""
  then ret (None, Some (Errorf "empty edge gateway HREF" []))
  else
    vdc <- receiver ;;
    let edge := NewEdgeGateway (client vdc) in
    '(edge, err) <-
       ExecuteRequestInto (client vdc) href MethodGet
         "" "error retrieving edge gateway: %s" None edge ;;
    '(edge, err) <-
       (match err with
        | Some _ => retry_edge_gateway (Z.to_nat (4 - 1)) 1 href edge err
        | None => ret (edge, err)
        end) ;;
    match err with
    | Some e => ret (None, Some e)
    | None => ret (Some edge, None)
    end.

(** GetEdgeGatewayRecordsType retrieves a list of edge gateways from VDC *)
Definition GetEdgeGatewayRecordsType (refresh : bool)
  : M Vdc (option types.QueryResultEdgeGatewayRecordsType * error) :=
  err <- (if refresh then Refresh else ret None) ;;
  match err with
  | Some e => ret (None, Some (Errorf "error refreshing vdc: %s" [ArgError e]))
  | None =>
      vdc <- receiver ;;
      v <- deref (data vdc) ;;
      returned <-
        for_range (types.Vdc_Link v) (fun av =>
          if (types.Link_Rel av =? "edgeGateways")
             && (types.Link_Type av =? MimeQueryRecords)
          then
            let edgeGatewayRecordsType := zero KEdgeGatewayRecords in
            '(edgeGatewayRecordsType, err) <-
               ExecuteRequest (client vdc) (types.Link_HREF av) MethodGet
                 "" "error querying edge gateways: %s" None
                 KEdgeGatewayRecords edgeGatewayRecordsType ;;
            match err with
            | Some e => Return (None, Some e)
            | None => Return (Some edgeGatewayRecordsType, None)
            end
          else Continue) ;;
      or_after returned
        (ret (None, Some (Errorf "no edge gateway query link found in VDC %s"
                            [ArgString (types.Vdc_Name v)])))
  end.

(** GetEdgeGatewayByName search the VDC list of edge gateways for a
    given name. *)
Definition GetEdgeGatewayByName (name : string) (refresh : bool)
  : M Vdc (option EdgeGateway * error) :=
  emit (EvLookup KEdgeGateway ByName name refresh) ;;
  '(edgeGatewayRecord, err) <- GetEdgeGatewayRecordsType refresh ;;
  match err with
  | Some e =>
      ret (None, Some (Errorf "error retrieving edge gateways list: %s" [ArgError e]))
  | None =>
      records <- deref edgeGatewayRecord ;;
      returned <-
        for_range (types.EdgeGatewayRecord records) (fun edge =>
          if types.EdgeGatewayRecord_Name edge =? name
          then r <- GetEdgeGatewayByHref (types.EdgeGatewayRecord_HREF edge) ;; Return r
          else Continue) ;;
      or_after returned (ret (None, Some ErrorEntityNotFound))
  end.

(** GetEdgeGatewayById search VDC list of edge gateways for a given ID. *)
Definition GetEdgeGatewayById (id : string) (refresh : bool)
  : M Vdc (option EdgeGateway * error) :=
  emit (EvLookup KEdgeGateway ById id refresh) ;;
  '(edgeGatewayRecord, err) <- GetEdgeGatewayRecordsType refresh ;;
  match err with
  | Some e =>
      ret (None, Some (Errorf "error retrieving edge gateways list: %s" [ArgError e]))
  | None =>
      records <- deref edgeGatewayRecord ;;
      returned <-
        for_range (types.EdgeGatewayRecord records) (fun edge =>
          if equalIds id "" (types.EdgeGatewayRecord_HREF edge)
          then r <- GetEdgeGatewayByHref (types.EdgeGatewayRecord_HREF edge) ;; Return r
          else Continue) ;;
      or_after returned (ret (None, Some ErrorEntityNotFound))
  end.

Definition GetEdgeGatewayByNameOrId (identifier : string) (refresh : bool)
  : M Vdc (option EdgeGateway * error) :=
  let getByName : genericGetter Vdc := fun name refresh =>
    '(e, err) <- GetEdgeGatewayByName name refresh ;;
    ret (boxed KEdgeGateway e, err) in
  let getById : genericGetter Vdc := fun id refresh =>
    '(e, err) <- GetEdgeGatewayById id refresh ;;
    ret (boxed KEdgeGateway e, err) in
  '(entity, err) <- getEntityByNameOrId getByName getById identifier false ;;
  match entity with
  | nil_interface => ret (None, err)
  | _ => e <- type_assert KEdgeGateway entity ;; ret (e, err)
  end.

(** GetVappByHref returns a vApp reference by running a vCD API call *)
Definition GetVAppByHref (vappHref : string) : M Vdc (option VApp * error) :=
  vdc <- receiver ;;
  let newVapp := NewVApp (client vdc) in
  '(newVapp, err) <-
     ExecuteRequestInto (client vdc) vappHref MethodGet
       "" "error retrieving vApp: %s" None newVapp ;;
  match err with
  | Some e => ret (None, Some e)
  | None => ret (Some newVapp, None)
  end.

Definition GetVAppByName (vappName : string) (refresh : bool)
  : M Vdc (option VApp * error) :=
  emit (EvLookup KVApp ByName vappName refresh) ;;
  err <- (if refresh then Refresh else ret None) ;;
  match err with
  | Some e => ret (None, Some (Errorf "error refreshing VDC: %s" [ArgError e]))
  | None =>
      vdc <- receiver ;;
      v <- deref (data vdc) ;;
      returned <-
        range_resources v (fun resourceReference =>
          if (types.ResourceReference_Name resourceReference =? vappName)
             && (types.ResourceReference_Type resourceReference
                 =? "application/vnd.vmware.vcloud.vApp+xml")
          then r <- GetVAppByHref (types.ResourceReference_HREF resourceReference) ;;
               Return r
          else Continue) ;;
      or_after returned (ret (None, Some ErrorEntityNotFound))
  end.

Definition GetVAppById (id : string) (refresh : bool)
  : M Vdc (option VApp * error) :=
  emit (EvLookup KVApp ById id refresh) ;;
  err <- (if refresh then Refresh else ret None) ;;
  match err with
  | Some e => ret (None, Some (Errorf "error refreshing VDC: %s" [ArgError e]))
  | None =>
      vdc <- receiver ;;
      v <- deref (data vdc) ;;
      returned <-
        range_resources v (fun resourceReference =>
          if equalIds id (types.ResourceReference_ID resourceReference)
               (types.ResourceReference_HREF resourceReference)
          then r <- GetVAppByHref (types.ResourceReference_HREF resourceReference) ;;
               Return r
          else Continue) ;;
      or_after returned (ret (None, Some ErrorEntityNotFound))
  end.

Definition GetVAppByNameOrId (identifier : string) (refresh : bool)
  : M Vdc (option VApp * error) :=
  let getByName : genericGetter Vdc := fun name refresh =>
    '(a, err) <- GetVAppByName name refresh ;; ret (boxed KVApp a, err) in
  let getById : genericGetter Vdc := fun id refresh =>
    '(a, err) <- GetVAppById id refresh ;; ret (boxed KVApp a, err) in
  '(entity, err) <- getEntityByNameOrId getByName getById identifier false ;;
  match entity with
  | nil_interface => ret (None, err)
  | _ => a <- type_assert KVApp entity ;; ret (a, err)
  end.

(** GetCapabilities allows to retrieve a list of VDC capabilities. *)
Definition GetCapabilities : M Vdc (list types.VdcCapability * error) :=
  vdc <- receiver ;;
  v <- deref (data vdc) ;;
  if types.Vdc_ID v =? ""
  then ret ([], Some (Errorf "VDC ID must be set to get capabilities" []))
  else
    let endpoint := (OpenApiPathVersion1_0_0 ++ OpenApiEndpointVdcCapabilities)%string in
    '(minimumApiVersion, err) <-
       checkOpenApiEndpointCompatibility (client vdc) endpoint ;;
    match err with
    | Some e => ret ([], Some e)
    | None =>
        c <- deref (client vdc) ;;
        let '(urlRef, err) :=
          OpenApiBuildEndpoint c
            [Sprintf endpoint [ArgString (QueryEscape (types.Vdc_ID v))]] in
        match err with
        | Some e => ret ([], Some e)
        | None =>
            let capabilities : list types.VdcCapability := [] in
            '(capabilities, err) <-
               OpenApiGetAllItems (client vdc) minimumApiVersion urlRef []
                 KVdcCapabilities capabilities ;;
            match err with
            | Some e => ret ([], Some e)
            | None => ret (capabilities, None)
            end
        end
    end.

End Methods.
End Vdc.

(* ================================================================= *)
(** ** Methods of the compute policy file *)

Module AdminOrg.
Section Methods.
Context `{Externals}.

Definition receiver : M AdminOrg AdminOrg := get_self.

(** GetVdcComputePolicyById retrieves VDC compute policy by given ID *)
Definition GetVdcComputePolicyById (id : string)
  : M AdminOrg (option VdcComputePolicy * error) :=
  org <- receiver ;;
  govcd.getVdcComputePolicyById (client org) id.

(** GetAllVdcComputePolicies retrieves all VDC compute policies using
    OpenAPI endpoint. *)
Definition GetAllVdcComputePolicies (queryParameters : list (string * string))
  : M AdminOrg (list VdcComputePolicy * error) :=
  org <- receiver ;;
  govcd.getAllVdcComputePolicies (client org) queryParameters.

(** CreateVdcComputePolicy creates a new VDC Compute Policy using OpenAPI
    endpoint *)
Definition CreateVdcComputePolicy (newVdcComputePolicy : option types.VdcComputePolicy)
  : M AdminOrg (option VdcComputePolicy * error) :=
  org <- receiver ;;
  let endpoint :=
    (OpenApiPathVersion1_0_0 ++ OpenApiEndpointVdcComputePolicies)%string in
  '(minimumApiVersion, err) <-
     checkOpenApiEndpointCompatibility (client org) endpoint ;;
  match err with
  | Some e => ret (None, Some e)
  | None =>
      c <- deref (client org) ;;
      let '(urlRef, err) := OpenApiBuildEndpoint c [endpoint] in
      match err with
      | Some e => ret (None, Some e)
      | None =>
          '(p, err) <-
             OpenApiPostItem (client org) minimumApiVersion urlRef
               (option_map (existT doc KVdcComputePolicy) newVdcComputePolicy)
               KVdcComputePolicy (zero KVdcComputePolicy) ;;
          let returnVdcComputePolicy := mkVdcComputePolicy (Some p) "" (client org) in
          match err with
          | Some e =>
              ret (None, Some (Errorf "error creating VDC compute policy: %s" [ArgError e]))
          | None => ret (Some returnVdcComputePolicy, None)
          end
      end
  end.

End Methods.
End AdminOrg.

Module VdcComputePolicy.
Section Methods.
Context `{Externals}.

Definition receiver : M VdcComputePolicy VdcComputePolicy := get_self.

(** Update existing VDC compute policy *)
Definition Update : M VdcComputePolicy (option VdcComputePolicy * error) :=
  vdcComputePolicy <- receiver ;;
  let cli := VdcComputePolicy_client vdcComputePolicy in
  let endpoint :=
    (OpenApiPathVersion1_0_0 ++ OpenApiEndpointVdcComputePolicies)%string in
  '(minimumApiVersion, err) <- checkOpenApiEndpointCompatibility cli endpoint ;;
  match err with
  | Some e => ret (None, Some e)
  | None =>
      policy <- deref (VdcComputePolicy_VdcComputePolicy vdcComputePolicy) ;;
      if types.VdcComputePolicy_ID policy =? ""
      then ret (None, Some (Errorf "cannot update VDC compute policy without ID" []))
      else
        c <- deref cli ;;
        let '(urlRef, err) :=
          OpenApiBuildEndpoint c [endpoint; types.VdcComputePolicy_ID policy] in
        match err with
        | Some e => ret (None, Some e)
        | None =>
            '(p, err) <-
               OpenApiPutItem cli minimumApiVersion urlRef
                 (Some (existT doc KVdcComputePolicy policy))
                 KVdcComputePolicy (zero KVdcComputePolicy) ;;
            let returnVdcComputePolicy := mkVdcComputePolicy (Some p) "" cli in
            match err with
            | Some e =>
                ret (None,
                     Some (Errorf "error updating VDC compute policy: %s" [ArgError e]))
            | None => ret (Some returnVdcComputePolicy, None)
            end
        end
  end.

(** Delete deletes VDC compute policy *)
Definition Delete : M VdcComputePolicy error :=
  vdcComputePolicy <- receiver ;;
  let cli := VdcComputePolicy_client vdcComputePolicy in
  let endpoint :=
    (OpenApiPathVersion1_0_0 ++ OpenApiEndpointVdcComputePolicies)%string in
  '(minimumApiVersion, err) <- checkOpenApiEndpointCompatibility cli endpoint ;;
  match err with
  | Some e => ret (Some e)
  | None =>
      policy <- deref (VdcComputePolicy_VdcComputePolicy vdcComputePolicy) ;;
      if types.VdcComputePolicy_ID policy =? ""
      then ret (Some (Errorf "cannot delete VDC compute policy without id" []))
      else
        c <- deref cli ;;
        let '(urlRef, err) :=
          OpenApiBuildEndpoint c [endpoint; types.VdcComputePolicy_ID policy] in
        match err with
        | Some e => ret (Some e)
        | None =>
            err <- OpenApiDeleteItem cli minimumApiVersion urlRef ;;
            match err with
            | Some e =>
                ret (Some (Errorf "error deleting VDC compute policy: %s" [ArgError e]))
            | None => ret None
            end
        end
  end.

End Methods.
End VdcComputePolicy.

Module AdminVdc.
Section Methods.
Context `{Externals}.

Definition receiver : M AdminVdc AdminVdc := get_self.

(** GetAllAssignedVdcComputePolicies retrieves all VDC assigned compute
    policies using OpenAPI endpoint. *)
Definition GetAllAssignedVdcComputePolicies (queryParameters : list (string * string))
  : M AdminVdc (list VdcComputePolicy * error) :=
  vdc <- receiver ;;
  let endpoint :=
    (OpenApiPathVersion1_0_0 ++ OpenApiEndpointVdcAssignedComputePolicies)%string in
  '(minimumApiVersion, err) <-
     checkOpenApiEndpointCompatibility (client vdc) endpoint ;;
  match err with
  | Some e => ret ([], Some e)
  | None =>
      v <- deref (data vdc) ;;
      c <- deref (client vdc) ;;
      let '(urlRef, err) :=
        OpenApiBuildEndpoint c
          [Sprintf endpoint [ArgString (types.AdminVdc_ID v)]] in
      match err with
      | Some e => ret ([], Some e)
      | None =>
          let responses := [zero KVdcComputePolicy] in
          '(responses, err) <-
             OpenApiGetAllItems (client vdc) minimumApiVersion urlRef queryParameters
               KVdcComputePolicies responses ;;
          match err with
          | Some e => ret ([], Some e)
          | None =>
              let wrappedVdcComputePolicies :=
                map (fun response => mkVdcComputePolicy (Some response) "" (client vdc))
                    responses in
              ret (wrappedVdcComputePolicies, None)
          end
      end
  end.

End Methods.
End AdminVdc.

(* ================================================================= *)
(** ** Methods of the catalog item file *)

Module CatalogItem.
Section Methods.
Context `{Externals}.

Definition receiver : M CatalogItem CatalogItem := get_self.

Definition GetVAppTemplate : M CatalogItem (VAppTemplate * error) :=
  catalogItem <- receiver ;;
  let cat := NewVAppTemplate (client catalogItem) in
  item <- deref (data catalogItem) ;;
  entity <- deref (types.CatalogItem_Entity item) ;;
  '(cat, err) <-
     ExecuteRequestInto (client catalogItem) (types.Entity_HREF entity) MethodGet
       "" "error retrieving vApp template: %s" None cat ;;
  ret (cat, err).

(** Deletes the Catalog Item, returning an error if the vCD call fails. *)
Definition Delete : M CatalogItem error :=
  catalogItem <- receiver ;;
  c <- deref (client catalogItem) ;;
  let catalogItemHREF := VCDHREF c in
  item <- deref (data catalogItem) ;;
  suffix <- slice_from (types.CatalogItem_ID item) 23 ;;
  let catalogItemHREF :=
    mkURL (Scheme catalogItemHREF) (Host catalogItemHREF)
          (Path catalogItemHREF ++ "/catalogItem/" ++ suffix)%string in
  ExecuteRequestWithoutResponse (client catalogItem) (URL_String catalogItemHREF)
    MethodDelete "" "error deleting Catalog item: %s" None.

End Methods.
End CatalogItem.

(* ================================================================= *)
(** ** Further functions of the org and vdc files *)

(** A Go slice that may be [nil]: [None] is the [nil] slice. *)
Definition slice (A : Type) : Type := option (list A).

(** [s == nil], [len(s)] and the elements of a slice. *)
Definition is_nil {A} (s : slice A) : bool :=
  match s with
  | None => true
  | Some _ => false
  end.

Definition elems {A} (s : slice A) : list A :=
  match s with
  | None => []
  | Some l => l
  end.

Definition len {A} (s : slice A) : nat := List.length (elems s).

(** [l[i]]: out of range panics. *)
Definition at_index {S A} (l : list A) (i : nat) : M S A :=
  match nth_error l i with
  | Some x => ret x
  | None => panic "index out of range"
  end.

(** [l[low:]] on a slice: out of range panics. *)
Definition slice_list_from {S A} (l : list A) (low : nat) : M S (list A) :=
  if (low <=? List.length l)%nat
  then ret (skipn low l)
  else panic "slice bounds out of range".

(** [strings.SplitAfter(s, sep)] for a non-empty separator: [s] is cut
    after each occurrence of [sep], found from left to right; the last
    piece is what follows the last occurrence, and it may be empty.
    [inside] counts the bytes of the occurrence being copied that are
    still to come, the current one included. *)
Fixpoint split_after (sep : string) (inside : nat) (s : string) : list string :=
  match s with
  | EmptyString => [""]
  | String c s' =>
      let inside :=
        if (inside =? 0)%nat && String.prefix sep s
        then String.length sep else inside in
      if (inside =? 1)%nat
      then String c "" :: split_after sep 0 s'
      else match split_after sep (Nat.pred inside) s' with
           | piece :: pieces => String c piece :: pieces
           | [] => [String c ""]
           end
  end.

Definition SplitAfter (s sep : string) : list string := split_after sep 0 s.

(** [strings.Join(elems, sep)] *)
Definition Join (pieces : list string) (sep : string) : string :=
  String.concat sep pieces.

(** [errors.New(text)] *)
Definition errors_New (text : string) : error := Some (errorString text).

(** [types.VdcConfiguration] and the structs it points to, reduced to the
    fields that [validateVdcConfiguration] reads.  [ComputeCapacity] is a
    slice of pointers (its first element is compared with [nil]);
    [VdcStorageProfile] is one too, and its first element is read without
    such a test. *)
Record CapacityWithUsage := mkCapacityWithUsage {
  CapacityWithUsage_Units : string }.

Record ComputeCapacity := mkComputeCapacity {
  ComputeCapacity_CPU : option CapacityWithUsage;
  ComputeCapacity_Memory : option CapacityWithUsage }.

Record VdcStorageProfileConfiguration := mkVdcStorageProfileConfiguration {
  VdcStorageProfileConfiguration_Units : string }.

Record VdcConfiguration := mkVdcConfiguration {
  VdcConfiguration_Name : string;
  VdcConfiguration_AllocationModel : string;
  VdcConfiguration_ComputeCapacity : slice (option ComputeCapacity);
  VdcConfiguration_VdcStorageProfile : slice (option VdcStorageProfileConfiguration);
  VdcConfiguration_ProviderVdcReference : option types.Reference }.

(** The checks of [validateVdcConfiguration], in the order of the
    source; the first one that fails decides the error. *)
Definition validateVdcConfiguration {S} (vdcDefinition : VdcConfiguration)
  : M S error :=
  if VdcConfiguration_Name vdcDefinition =? ""
  then ret (errors_New "VdcConfiguration missing required field: Name")
  else if VdcConfiguration_AllocationModel vdcDefinition =? ""
  then ret (errors_New "VdcConfiguration missing required field: AllocationModel")
  else if is_nil (VdcConfiguration_ComputeCapacity vdcDefinition)
  then ret (errors_New "VdcConfiguration missing required field: ComputeCapacity")
  else if negb (len (VdcConfiguration_ComputeCapacity vdcDefinition) =? 1)%nat
  then ret (errors_New
              "VdcConfiguration invalid field: ComputeCapacity must only have one element")
  else
    capacity0 <- at_index (elems (VdcConfiguration_ComputeCapacity vdcDefinition)) 0 ;;
    match capacity0 with
    | None =>
        ret (errors_New "VdcConfiguration missing required field: ComputeCapacity[0]")
    | Some capacity =>
    match ComputeCapacity_CPU capacity with
    | None =>
        ret (errors_New "VdcConfiguration missing required field: ComputeCapacity[0].CPU")
    | Some cpu =>
    if CapacityWithUsage_Units cpu =? ""
    then ret (errors_New
                "VdcConfiguration missing required field: ComputeCapacity[0].CPU.Units")
    else
    match ComputeCapacity_Memory capacity with
    | None =>
        ret (errors_New
               "VdcConfiguration missing required field: ComputeCapacity[0].Memory")
    | Some memory =>
    if CapacityWithUsage_Units memory =? ""
    then ret (errors_New
                "VdcConfiguration missing required field: ComputeCapacity[0].Memory.Units")
    else if is_nil (VdcConfiguration_VdcStorageProfile vdcDefinition)
            || (len (VdcConfiguration_VdcStorageProfile vdcDefinition) =? 0)%nat
    then ret (errors_New "VdcConfiguration missing required field: VdcStorageProfile")
    else
      profile0 <- at_index (elems (VdcConfiguration_VdcStorageProfile vdcDefinition)) 0 ;;
      profile <- deref profile0 ;;
      if VdcStorageProfileConfiguration_Units profile =? ""
      then ret (errors_New
                  "VdcConfiguration missing required field: VdcStorageProfile.Units")
      else
        match VdcConfiguration_ProviderVdcReference vdcDefinition with
        | None =>
            ret (errors_New
                   "VdcConfiguration missing required field: ProviderVdcReference")
        | Some providerVdcReference =>
            if types.Reference_HREF providerVdcReference =? ""
            then ret (errors_New
                        "VdcConfiguration missing required field: ProviderVdcReference.HREF")
            else ret None
        end
    end end end.

(** [types.QueryResultRecordsType] and its storage profile records,
    reduced to the fields that [GetDefaultStorageProfileReference]
    reads. *)
Record QueryResultOrgVdcStorageProfileRecordType := mkOrgVdcStorageProfileRecord {
  OrgVdcStorageProfileRecord_HREF : string;
  OrgVdcStorageProfileRecord_Name : string;
  OrgVdcStorageProfileRecord_IsDefaultStorageProfile : bool }.

Record QueryResultRecordsType := mkQueryResultRecords {
  OrgVdcStorageProfileRecord : list QueryResultOrgVdcStorageProfileRecordType }.

Section VdcFunctions.
Context `{Externals}.

(** [types.MimeVApp], a constant of package [types]. *)
Variable MimeVApp : string.

(** getLinkHref returns a link HREF for a wanted combination of rel and
    type *)
Definition Vdc_getLinkHref (rel linkType : string) : M Vdc string :=
  vdc <- Vdc.receiver ;;
  v <- deref (data vdc) ;;
  returned <-
    for_range (types.Vdc_Link v) (fun link =>
      if (types.Link_Rel link =? rel) && (types.Link_Type link =? linkType)
      then Return (types.Link_HREF link)
      else Continue) ;;
  or_after returned (ret "").

(** GetVappList returns the list of vApps for a VDC *)
Definition Vdc_GetVappList : M Vdc (list types.ResourceReference) :=
  vdc <- Vdc.receiver ;;
  v <- deref (data vdc) ;;
  let list : list types.ResourceReference := [] in
  let list :=
    fold_left
      (fun list resourceEntities =>
         fold_left
           (fun list resourceReference =>
              if types.ResourceReference_Type resourceReference =? MimeVApp
              then list ++ [resourceReference]
              else list)
           (types.ResourceEntity resourceEntities) list)
      (types.Vdc_ResourceEntities v) list in
  ret list.

(** Deprecated: use vdc.GetVAppByName instead *)
Definition Vdc_FindVAppByName (vapp : string) : M Vdc (VApp * error) :=
  err <- Vdc.Refresh ;;
  match err with
  | Some e =>
      ret (zero_value KVApp, Some (Errorf "error refreshing vdc: %s" [ArgError e]))
  | None =>
      vdc <- Vdc.receiver ;;
      v <- deref (data vdc) ;;
      returned <-
        Vdc.range_resources v (fun resent =>
          if (types.ResourceReference_Name resent =? vapp)
             && (types.ResourceReference_Type resent
                 =? "application/vnd.vmware.vcloud.vApp+xml")
          then
            let newVapp := NewVApp (client vdc) in
            '(newVapp, err) <-
               ExecuteRequestInto (client vdc) (types.ResourceReference_HREF resent)
                 MethodGet "" "error retrieving vApp: %s" None newVapp ;;
            Return (newVapp, err)
          else Continue) ;;
      or_after returned
        (ret (zero_value KVApp, Some (Errorf "can't find vApp: %s" [ArgString vapp])))
  end.

(** The ID that [FindVAppByID] reads off the HREF of a resource: the
    last piece of the HREF cut after each "/", cut again after each "-",
    without its first piece. *)
Definition href_id {S} (href : string) : M S string :=
  let hrefslice := SplitAfter href "/" in
  last <- at_index hrefslice (List.length hrefslice - 1) ;;
  let hrefslice := SplitAfter last "-" in
  pieces <- slice_list_from hrefslice 1 ;;
  ret (Join pieces "").

(** Deprecated: use vdc.GetVAppById instead.
    Horrible hack to fetch a vapp with its id.
    urn:vcloud:vapp:00000000-0000-0000-0000-000000000000 *)
Definition Vdc_FindVAppByID (vappid : string) : M Vdc (VApp * error) :=
  err <- Vdc.Refresh ;;
  match err with
  | Some e =>
      ret (zero_value KVApp, Some (Errorf "error refreshing vdc: %s" [ArgError e]))
  | None =>
      let urnslice := SplitAfter vappid ":" in
      urnid <- at_index urnslice (List.length urnslice - 1) ;;
      vdc <- Vdc.receiver ;;
      v <- deref (data vdc) ;;
      returned <-
        Vdc.range_resources v (fun resent =>
          res <- href_id (types.ResourceReference_HREF resent) ;;
          if (res =? urnid)
             && (types.ResourceReference_Type resent
                 =? "application/vnd.vmware.vcloud.vApp+xml")
          then
            let newVapp := NewVApp (client vdc) in
            '(newVapp, err) <-
               ExecuteRequestInto (client vdc) (types.ResourceReference_HREF resent)
                 MethodGet "" "error retrieving vApp: %s" None newVapp ;;
            Return (newVapp, err)
          else Continue) ;;
      or_after returned (ret (zero_value KVApp, Some (Errorf "can't find vApp" [])))
  end.

(** Returns the reference of the first record marked as the default
    storage profile.  The VDC is refreshed first; the records are the
    caller's. *)
Definition Vdc_GetDefaultStorageProfileReference
    (storageprofiles : option QueryResultRecordsType)
  : M Vdc (types.Reference * error) :=
  err <- Vdc.Refresh ;;
  match err with
  | Some e =>
      ret (types.mkReference "" "" "" "",
           Some (Errorf "error refreshing vdc: %s" [ArgError e]))
  | None =>
      records <- deref storageprofiles ;;
      returned <-
        for_range (OrgVdcStorageProfileRecord records) (fun spr =>
          if OrgVdcStorageProfileRecord_IsDefaultStorageProfile spr
          then Return (types.mkReference (OrgVdcStorageProfileRecord_HREF spr) "" ""
                         (OrgVdcStorageProfileRecord_Name spr),
                       None)
          else Continue) ;;
      or_after returned
        (ret (types.mkReference "" "" "" "",
              Some (Errorf "can't find Default VDC Storage_profile" [])))
  end.

(** buildNsxvNetworkServiceEndpointURL uses vDC HREF as a base to derive
    NSX-V based "network services" endpoint
    (eg: https://_hostname_or_ip_/network/services + optionalSuffix) *)
Definition Vdc_buildNsxvNetworkServiceEndpointURL (optionalSuffix : string)
  : M Vdc (string * error) :=
  vdc <- Vdc.receiver ;;
  v <- deref (data vdc) ;;
  let '(apiEndpoint, err) := ParseRequestURI (types.Vdc_HREF v) in
  match err with
  | Some e => ret ("", Some (Errorf "unable to process vDC URL: %s" [ArgError e]))
  | None =>
      u <- deref apiEndpoint ;;
      let hostname := (Scheme u ++ "://" ++ Host u ++ "/network/services")%string in
      if negb (optionalSuffix =? "")
      then ret ((hostname ++ optionalSuffix)%string, None)
      else ret (hostname, None)
  end.

End VdcFunctions.

(* ================================================================= *)
(** ** Composing a vApp and creating a standalone VM *)

(** More of package [types]: the structs that the vApp functions of the
    vdc file read and build, with the fields they touch.
    [OrgVDCNetwork] is the struct of that name again, seen with the Type
    field that only [ComposeVApp] reads; [VAppTemplate] is the struct of
    that name seen with its children, and [VAppTemplateVM] one of these
    children (a [types.VAppTemplate] too).  The VMs in the list of
    children are taken to be there: a nil element of that list is not
    modelled. *)
Module vapp_types.

Record OrgVDCNetwork := mkOrgVDCNetwork {
  OrgVDCNetwork_HREF : string; OrgVDCNetwork_Name : string;
  OrgVDCNetwork_Type : string }.

Record NetworkConnection := mkNetworkConnection {
  NetworkConnection_Network : string;
  NetworkConnection_NetworkConnectionIndex : Z;
  NetworkConnection_IsConnected : bool;
  NetworkConnection_IPAddressAllocationMode : string }.

Record NetworkConnectionSection := mkNetworkConnectionSection {
  NetworkConnectionSection_Info : string;
  NetworkConnectionSection_PrimaryNetworkConnectionIndex : Z;
  NetworkConnectionSection_NetworkConnection : list NetworkConnection }.

Record VAppTemplateVM := mkVAppTemplateVM {
  VM_HREF : string; VM_Name : string;
  VM_NetworkConnectionSection : option NetworkConnectionSection }.

Record VAppTemplateChildren := mkVAppTemplateChildren {
  VM : list VAppTemplateVM }.

Record VAppTemplate := mkVAppTemplate {
  VAppTemplate_Children : option VAppTemplateChildren }.

Record NetworkConfiguration := mkNetworkConfiguration {
  NetworkConfiguration_FenceMode : string;
  NetworkConfiguration_ParentNetwork : option types.Reference }.

Record VAppNetworkConfiguration := mkVAppNetworkConfiguration {
  VAppNetworkConfiguration_NetworkName : string;
  VAppNetworkConfiguration_Configuration : option NetworkConfiguration }.

Record NetworkConfigSection := mkNetworkConfigSection {
  NetworkConfigSection_Info : string;
  NetworkConfigSection_NetworkConfig : list VAppNetworkConfiguration }.

Record InstantiationParams := mkInstantiationParams {
  InstantiationParams_NetworkConfigSection : option NetworkConfigSection;
  InstantiationParams_NetworkConnectionSection : option NetworkConnectionSection }.

Record NetworkAssignment := mkNetworkAssignment {
  NetworkAssignment_InnerNetwork : string;
  NetworkAssignment_ContainerNetwork : string }.

Record SourcedCompositionItemParam := mkSourcedCompositionItemParam {
  SourcedItem_Source : option types.Reference;
  SourcedItem_InstantiationParams : option InstantiationParams;
  SourcedItem_NetworkAssignment : list NetworkAssignment;
  SourcedItem_StorageProfile : option types.Reference }.

Record ComposeVAppParams := mkComposeVAppParams {
  ComposeVAppParams_Ovf : string;
  ComposeVAppParams_Xsi : string;
  ComposeVAppParams_Xmlns : string;
  ComposeVAppParams_Deploy : bool;
  ComposeVAppParams_Name : string;
  ComposeVAppParams_PowerOn : bool;
  ComposeVAppParams_Description : string;
  ComposeVAppParams_InstantiationParams : option InstantiationParams;
  ComposeVAppParams_AllEULAsAccepted : bool;
  ComposeVAppParams_SourcedItem : option SourcedCompositionItemParam }.

Record CreateVmParams := mkCreateVmParams {
  CreateVmParams_XmlnsOvf : string; CreateVmParams_Name : string }.

Record SourcedVmTemplateParams := mkSourcedVmTemplateParams {
  SourcedVmTemplateParams_Source : option types.Reference }.

Record InstantiateVmTemplateParams := mkInstantiateVmTemplateParams {
  InstantiateVmTemplateParams_XmlnsOvf : string;
  InstantiateVmTemplateParams_Name : string;
  InstantiateVmTemplateParams_SourcedVmTemplateItem : option SourcedVmTemplateParams }.

End vapp_types.

(** More constants of package [types], and the method of [Client] that
    submits a request whose answer is a task.  It is defined in another
    file and is a parameter here: a computation that receives the client,
    the HREF, the method, the content type, the error message and the
    body. *)
Class TaskExternals : Type := {
  XMLNamespaceOVF : string;
  XMLNamespaceXSI : string;
  MimeComposeVappParams : string;
  MimeCreateVmParams : string;
  MimeInstantiateVmTemplateParams : string;
  FenceModeBridged : string;
  IPAllocationModePool : string;
  (** [client.ExecuteTaskRequest(ctx, href, method, contentType, errorMessage, payload)] *)
  ExecuteTaskRequest :
    forall (S B : Type),
      option Client -> string -> string -> string -> string -> B ->
      M S (Task * error)
}.

(** [for index, x := range l { body }], where the body updates the
    variables [acc] of the enclosing function. *)
Fixpoint for_range_indexed {S A B} (l : list A) (index : nat)
    (body : nat -> A -> B -> M S B) (acc : B) : M S B :=
  match l with
  | [] => ret acc
  | x :: l' =>
      acc' <- body index x acc ;;
      for_range_indexed l' (Datatypes.S index) body acc'
  end.

(** [p == nil] on a pointer. *)
Definition is_nil_pointer {A} (p : option A) : bool :=
  match p with
  | None => true
  | Some _ => false
  end.

Section VAppFunctions.
Context `{Externals} `{TaskExternals}.

(** What the loop of [ComposeVApp] appends for one network: a network
    configuration, a network connection with the index of the network,
    and a network assignment. *)
Definition compose_network (index : nat)
    (orgvdcnetwork : option vapp_types.OrgVDCNetwork)
    (acc : list vapp_types.VAppNetworkConfiguration
           * list vapp_types.NetworkConnection
           * list vapp_types.NetworkAssignment)
  : M Vdc (list vapp_types.VAppNetworkConfiguration
           * list vapp_types.NetworkConnection
           * list vapp_types.NetworkAssignment) :=
  let '(NetworkConfig, NetworkConnection, NetworkAssignment) := acc in
  network <- deref orgvdcnetwork ;;
  ret (NetworkConfig
         ++ [vapp_types.mkVAppNetworkConfiguration
               (vapp_types.OrgVDCNetwork_Name network)
               (Some (vapp_types.mkNetworkConfiguration FenceModeBridged
                        (Some (types.mkReference
                                 (vapp_types.OrgVDCNetwork_HREF network)
                                 (vapp_types.OrgVDCNetwork_Type network) ""
                                 (vapp_types.OrgVDCNetwork_Name network)))))],
       NetworkConnection
         ++ [vapp_types.mkNetworkConnection
               (vapp_types.OrgVDCNetwork_Name network) (Z.of_nat index) true
               IPAllocationModePool],
       NetworkAssignment
         ++ [vapp_types.mkNetworkAssignment
               (vapp_types.OrgVDCNetwork_Name network)
               (vapp_types.OrgVDCNetwork_Name network)]).

(** ComposeVApp creates a vapp with the given template, name, and
    description that uses the storageprofile and networks given.  The
    template is given by the document its wrapper points to.  The three
    lists that the loop over the networks appends to are gathered by the
    loop and put in the parameters afterwards. *)
Definition Vdc_ComposeVApp
    (orgvdcnetworks : slice (option vapp_types.OrgVDCNetwork))
    (vapptemplate : option vapp_types.VAppTemplate)
    (storageprofileref : types.Reference) (name description : string)
    (acceptalleulas : bool) : M Vdc (Task * error) :=
  vdc <- Vdc.receiver ;;
  template <- deref vapptemplate ;;
  if is_nil_pointer (vapp_types.VAppTemplate_Children template)
     || is_nil orgvdcnetworks
  then ret (zero_value KTask,
            Some (Errorf "can't compose a new vApp, objects passed are not valid" []))
  else
    children <- deref (vapp_types.VAppTemplate_Children template) ;;
    primaryNetworkConnectionIndex <-
      (if (0 <? List.length (vapp_types.VM children))%nat
       then vm <- at_index (vapp_types.VM children) 0 ;;
            match vapp_types.VM_NetworkConnectionSection vm with
            | Some section =>
                ret (vapp_types.NetworkConnectionSection_PrimaryNetworkConnectionIndex
                       section)
            | None => ret 0%Z
            end
       else ret 0%Z) ;;
    vm <- at_index (vapp_types.VM children) 0 ;;
    '(NetworkConfig, NetworkConnection, NetworkAssignment) <-
       for_range_indexed (elems orgvdcnetworks) 0 compose_network ([], [], []) ;;
    let vcomp :=
      vapp_types.mkComposeVAppParams
        XMLNamespaceOVF XMLNamespaceXSI XMLNamespaceVCloud false name false description
        (Some (vapp_types.mkInstantiationParams
                 (Some (vapp_types.mkNetworkConfigSection
                          "Configuration parameters for logical networks"
                          NetworkConfig))
                 None))
        acceptalleulas
        (Some (vapp_types.mkSourcedCompositionItemParam
                 (Some (types.mkReference (vapp_types.VM_HREF vm) "" ""
                          (vapp_types.VM_Name vm)))
                 (Some (vapp_types.mkInstantiationParams None
                          (Some (vapp_types.mkNetworkConnectionSection
                                   "Network config for sourced item"
                                   primaryNetworkConnectionIndex
                                   NetworkConnection))))
                 NetworkAssignment
                 (if negb (types.Reference_HREF storageprofileref =? "")
                  then Some storageprofileref else None))) in
    v <- deref (data vdc) ;;
    let '(vdcHref, err) := ParseRequestURI (types.Vdc_HREF v) in
    match err with
    | Some e =>
        ret (zero_value KTask, Some (Errorf "error getting vdc href: %s" [ArgError e]))
    | None =>
        u <- deref vdcHref ;;
        let vdcHref := mkURL (Scheme u) (Host u) (Path u ++ "/action/composeVApp")%string in
        ExecuteTaskRequest (client vdc) (URL_String vdcHref) MethodPost
          MimeComposeVappParams "error instantiating a new vApp: %s" vcomp
    end.

(** The HREF of the first link of the VDC with the given type and rel
    "add", as the two functions below look for it:
    [href := ""; for ... { if ... { href = link.HREF; break } }]. *)
Definition add_link_href (v : types.Vdc) (mime : string) : M Vdc string :=
  returned <-
    for_range (types.Vdc_Link v) (fun link =>
      if (types.Link_Type link =? mime) && (types.Link_Rel link =? "add")
      then Return (types.Link_HREF link)
      else Continue) ;;
  or_after returned (ret "").

(** CreateStandaloneVmAsync starts a standalone VM creation without a
    template, returning a task *)
Definition Vdc_CreateStandaloneVmAsync (params : option vapp_types.CreateVmParams)
  : M Vdc (Task * error) :=
  vdc <- Vdc.receiver ;;
  v <- deref (data vdc) ;;
  if types.Vdc_HREF v =? ""
  then ret (zero_value KTask, Some (Errorf "cannot create VM, Object VDC is empty" []))
  else
    href <- add_link_href v MimeCreateVmParams ;;
    if href =? ""
    then ret (zero_value KTask,
              Some (Errorf "error retrieving VM creation link from VDC %s"
                      [ArgString (types.Vdc_Name v)]))
    else
      match params with
      | None =>
          ret (zero_value KTask,
               Some (Errorf "empty parameters passed to standalone VM creation" []))
      | Some p =>
          let params :=
            vapp_types.mkCreateVmParams XMLNamespaceOVF
              (vapp_types.CreateVmParams_Name p) in
          ExecuteTaskRequest (client vdc) href MethodPost MimeCreateVmParams
            "error creating standalone VM: %s" params
      end.

(** CreateStandaloneVMFromTemplateAsync starts a standalone VM creation
    using a template *)
Definition Vdc_CreateStandaloneVMFromTemplateAsync
    (params : option vapp_types.InstantiateVmTemplateParams)
  : M Vdc (Task * error) :=
  vdc <- Vdc.receiver ;;
  v <- deref (data vdc) ;;
  if types.Vdc_HREF v =? ""
  then ret (zero_value KTask, Some (Errorf "cannot create VM, provided VDC is empty" []))
  else
    href <- add_link_href v MimeInstantiateVmTemplateParams ;;
    if href =? ""
    then ret (zero_value KTask,
              Some (Errorf "error retrieving VM instantiate from template link from VDC %s"
                      [ArgString (types.Vdc_Name v)]))
    else
      p <- deref params ;;
      if vapp_types.InstantiateVmTemplateParams_Name p =? ""
      then ret (zero_value KTask,
                Some (Errorf "[CreateStandaloneVMFromTemplateAsync] missing VM name" []))
      else
      match vapp_types.InstantiateVmTemplateParams_SourcedVmTemplateItem p with
      | None =>
          ret (zero_value KTask,
               Some (Errorf
                       "[CreateStandaloneVMFromTemplateAsync] missing SourcedVmTemplateItem"
                       []))
      | Some item =>
      match vapp_types.SourcedVmTemplateParams_Source item with
      | None =>
          ret (zero_value KTask,
               Some (Errorf
                       "[CreateStandaloneVMFromTemplateAsync] missing vApp template Source"
                       []))
      | Some source =>
          if types.Reference_HREF source =? ""
          then ret (zero_value KTask,
                    Some (Errorf
                            "[CreateStandaloneVMFromTemplateAsync] empty HREF in vApp template Source"
                            []))
          else
            let params :=
              vapp_types.mkInstantiateVmTemplateParams XMLNamespaceOVF
                (vapp_types.InstantiateVmTemplateParams_Name p)
                (vapp_types.InstantiateVmTemplateParams_SourcedVmTemplateItem p) in
            ExecuteTaskRequest (client vdc) href MethodPost
              MimeInstantiateVmTemplateParams
              "error creating standalone VM from template: %s" params
      end end.

End VAppFunctions.

(* ================================================================= *)
(** ** Observations on runs *)

(** Running a method on a receiver, from a given trace. *)
Definition run {S A} (m : M S A) (receiver : S) (tr : Trace) : Res A * World S :=
  m (mkWorld receiver tr).

(** The trace at the end of a run. *)
Definition trace_of {S A} (r : Res A * World S) : Trace := trace (snd r).

(** The calls made through the XML transport: the attempts and polls. *)
Fixpoint requests_in (tr : Trace) : list Request :=
  match tr with
  | [] => []
  | EvRequest r :: tr' => r :: requests_in tr'
  | _ :: tr' => requests_in tr'
  end.

(** The calls made through the versioned OpenAPI transport. *)
Fixpoint openapi_in (tr : Trace) : list OpenApiRequest :=
  match tr with
  | [] => []
  | EvOpenApi r :: tr' => r :: openapi_in tr'
  | _ :: tr' => openapi_in tr'
  end.

(** The sleeps, in milliseconds. *)
Fixpoint sleeps_in (tr : Trace) : list Z :=
  match tr with
  | [] => []
  | EvSleep ms :: tr' => ms :: sleeps_in tr'
  | _ :: tr' => sleeps_in tr'
  end.

(** The endpoints whose compatibility was checked. *)
Fixpoint compat_in (tr : Trace) : list string :=
  match tr with
  | [] => []
  | EvCompat endpoint :: tr' => endpoint :: compat_in tr'
  | _ :: tr' => compat_in tr'
  end.

(** The strategies entered: which one, for which entity kind, with which
    identifier and which refresh flag. *)
Fixpoint lookups_in (tr : Trace) : list (kind * strategy * string * bool) :=
  match tr with
  | [] => []
  | EvLookup k s identifier refresh :: tr' => (k, s, identifier, refresh) :: lookups_in tr'
  | _ :: tr' => lookups_in tr'
  end.

(** The same without the refresh flag: the call counts per strategy. *)
Definition strategies_in (tr : Trace) : list (kind * strategy * string) :=
  map (fun '(k, s, identifier, _) => (k, s, identifier)) (lookups_in tr).

(* ================================================================= *)
(** ** Vocabulary of the statements *)

(** [emits P m]: from any start, [m] appends to the trace only events
    that satisfy [P]. *)
Definition emits {S A} (P : Event -> Prop) (m : M S A) : Prop :=
  forall w, exists evs, trace (snd (m w)) = trace w ++ evs /\ Forall P evs.

Definition not_lookup (ev : Event) : Prop :=
  match ev with
  | EvLookup _ _ _ _ => False
  | _ => True
  end.

(** *** Name-or-ID resolution *)

(** One entry point, run from [w] on [identifier]: exactly one strategy
    is entered, the by-id one when the identifier has the shape of an
    opaque ID and the by-name one otherwise; and when that strategy (called
    with the flag [flag] that the entry point hands down) reports no match,
    the entry point returns the not-found error and no entity. *)
Definition dispatches_by_shape `{Externals} {S T} (k : kind)
    (entry byName byId : string -> bool -> M S (option T * error))
    (identifier : string) (refresh flag : bool) (w : World S) : Prop :=
  let s := if isOpaqueId identifier then ById else ByName in
  let invoked := if isOpaqueId identifier then byId else byName in
  strategies_in (trace_of (entry identifier refresh w))
    = strategies_in (trace w) ++ [(k, s, identifier)]
  /\ (fst (invoked identifier flag w) = Val (None, Some ErrorEntityNotFound) ->
      fst (entry identifier refresh w) = Val (None, Some ErrorEntityNotFound)).

(** The request by which an org refreshes itself, and the listing that a
    lookup on the org searches: the one the org holds or, with refresh,
    the one the server returns. *)
Definition org_refresh_request (o : types.Org) : Event :=
  EvRequest (mkRequest MethodGet (types.Org_HREF o) ""
               "error refreshing organization: %s" [] None).

Definition Org_listing (c : Client) (o : types.Org) (refresh : bool) (tr : Trace)
  : error_value + types.Org :=
  if refresh then answer (Http c) KOrg tr (org_refresh_request o) else inr o.

(** *** Waiting for a task *)

Definition is_success (t : types.Task) : bool :=
  types.Task_Status t =? "success".
Definition is_failure (t : types.Task) : bool :=
  (types.Task_Status t =? "error") || (types.Task_Status t =? "aborted").
Definition is_terminal (t : types.Task) : bool :=
  is_success t || is_failure t.

(** A polling sequence: [polls n] is the snapshot that the n-th poll
    returns, counted from 1, for the polls made after the trace [tr0]. *)
Definition answers_polls (c : Client) (tr0 : Trace) (polls : nat -> types.Task)
  : Prop :=
  forall tr ev,
    answer (Http c) KTask (tr0 ++ tr) ev
    = inr (polls (S (List.length (requests_in tr)))).

(** The invariant of a task seen through one polling sequence: once
    terminal, every later observation shows the same status. *)
Definition monotonic (polls : nat -> types.Task) : Prop :=
  forall i j, (i <= j)%nat -> is_terminal (polls i) = true ->
              types.Task_Status (polls j) = types.Task_Status (polls i).

Definition never_cancelled (ctx : Ctx) : Prop := forall tr, ctx tr = false.

(** What the wait returns on a terminal snapshot. *)
Definition wait_outcome (t : types.Task) : error :=
  if is_success t then None else Some (TaskFailed (Task.message t)).

(** *** The versioned operations *)

Definition uses_version (v : string) (ev : Event) : Prop :=
  match ev with
  | EvOpenApi r => oa_apiVersion r = v
  | EvCompat _ => False
  | _ => True
  end.

(** A computation gated by the compatibility check of [endpoint]: the
    check is the first thing it does; when the check fails with [e] the
    computation returns [failed e] and does nothing else; when the check
    answers version [v], every call through the versioned transport
    carries [v]. *)
Definition gated {S A} (c : Client) (endpoint : string)
    (failed : error_value -> A) (m : M S A) (w : World S) : Prop :=
  match compat c endpoint with
  | (_, Some e) =>
      m w = (Val (failed e), mkWorld (self w) (trace w ++ [EvCompat endpoint]))
  | (v, None) =>
      exists rest, trace (snd (m w)) = trace w ++ EvCompat endpoint :: rest
                   /\ Forall (uses_version v) rest
  end.

Section Endpoints.
Context `{Externals}.

Definition policies_endpoint : string :=
  (OpenApiPathVersion1_0_0 ++ OpenApiEndpointVdcComputePolicies)%string.
Definition assigned_policies_endpoint : string :=
  (OpenApiPathVersion1_0_0 ++ OpenApiEndpointVdcAssignedComputePolicies)%string.
Definition capabilities_endpoint : string :=
  (OpenApiPathVersion1_0_0 ++ OpenApiEndpointVdcCapabilities)%string.
End Endpoints.

(** *** The retried read *)

(** The fetch of the edge gateway at [href]. *)
Definition edge_request (href : string) : Event :=
  EvRequest (mkRequest MethodGet href "" "error retrieving edge gateway: %s" [] None).

(** What has been added to the trace when attempt number [n] (from 0) is
    made: each earlier attempt and the sleep that followed it. *)
Fixpoint attempts_before (href : string) (n : nat) : Trace :=
  match n with
  | O => []
  | S n' => edge_request href :: EvSleep 200 :: attempts_before href n'
  end.

(** The server's answer to attempt number [n] of a read that starts after
    the trace [tr]. *)
Definition edge_attempt (c : Client) (href : string) (tr : Trace) (n : nat)
  : error_value + types.EdgeGateway :=
  answer (Http c) KEdgeGateway (tr ++ attempts_before href n) (edge_request href).

(** The retried read, attempt by attempt. *)
Definition edge_read_outcome (c : Client) (vdc : Vdc) (href : string) (tr : Trace)
  : Res (option EdgeGateway * error) * World Vdc :=
  let ok (n : nat) (d : types.EdgeGateway) :=
    (Val (Some (mkWrapper (k := KEdgeGateway) (Some d) (Some c)), None),
     mkWorld vdc (tr ++ attempts_before href n ++ [edge_request href])) in
  match edge_attempt c href tr 0 with
  | inr d => ok 0%nat d
  | inl _ =>
  match edge_attempt c href tr 1 with
  | inr d => ok 1%nat d
  | inl _ =>
  match edge_attempt c href tr 2 with
  | inr d => ok 2%nat d
  | inl _ =>
  match edge_attempt c href tr 3 with
  | inr d => ok 3%nat d
  | inl e =>
      (Val (None, Some e),
       mkWorld vdc (tr ++ attempts_before href 3 ++ [edge_request href]))
  end end end end.

(** *** Deleting a catalog item *)

(** The URL that [CatalogItem.Delete] calls for an item whose ID is long
    enough: the suffix of the ID from position 23 is appended to the
    path. *)
Definition catalog_item_delete_url (c : Client) (item : types.CatalogItem) : URL :=
  mkURL (Scheme (VCDHREF c)) (Host (VCDHREF c))
    (Path (VCDHREF c) ++ "/catalogItem/"
     ++ substring 23 (String.length (types.CatalogItem_ID item) - 23)
          (types.CatalogItem_ID item))%string.

(* ================================================================= *)
(** ** Fixtures: one concrete environment, used for concrete runs *)

Definition fixture_externals : Externals := {|
  MimeCatalog := "application/vnd.vmware.vcloud.catalog+xml";
  MimeVDC := "application/vnd.vmware.vcloud.vdc+xml";
  MimeAdminCatalog := "application/vnd.vmware.admin.catalog+xml";
  MimeQueryRecords := "application/vnd.vmware.vcloud.query.records+xml";
  XMLNamespaceVCloud := "http://www.vmware.com/vcloud/v1.5";
  OpenApiPathVersion1_0_0 := "1.0.0/";
  OpenApiEndpointVdcComputePolicies := "vdcComputePolicies/";
  OpenApiEndpointVdcAssignedComputePolicies := "vdcs/%s/computePolicies";
  OpenApiEndpointVdcCapabilities := "vdcs/%s/capabilities";
  equalIds := fun wantedId foundId _ => String.eqb wantedId foundId;
  OpenApiBuildEndpoint := fun c parts =>
    (Some (mkURL (Scheme (VCDHREF c)) (Host (VCDHREF c))
                 ("/cloudapi/" ++ String.concat "" parts)%string), None);
  ParseRequestURI := fun s => (Some (mkURL "https" "vcd.example.org" s), None);
  QueryEscape := fun s => s;
  URL_String := fun u => (Scheme u ++ "://" ++ Host u ++ Path u)%string;
  Sprintf := fun format _ => format;
  FormatBool := fun b => if b then "true" else "false";
  isOpaqueId := String.prefix "urn:";
  taskPollInterval := 3000
|}.

Definition fixture_url : URL := mkURL "https" "vcd.example.org" "/api".

Definition edge_href : string := "https://vcd.example.org/api/admin/edgeGateway/7".

Definition fixture_edge : types.EdgeGateway :=
  types.mkEdgeGateway edge_href "urn:vcloud:gateway:7" "edge-7".

(** The VDC document of the fixtures: it links to its edge gateway query. *)
Definition fixture_vdc_doc : types.Vdc :=
  types.mkVdc "https://vcd.example.org/api/vdc/2" "urn:vcloud:vdc:2" "vdc-2"
    [types.mkLink "edgeGateways" "application/vnd.vmware.vcloud.query.records+xml"
       "" "https://vcd.example.org/api/admin/vdc/2/edgeGateways" ""]
    [] [].

Definition fixture_answers (k : kind) : doc k :=
  match k as k0 return doc k0 with
  | KVdc => fixture_vdc_doc
  | KEdgeGateway => fixture_edge
  | KEdgeGatewayRecords =>
      types.mkEdgeGatewayRecords [types.mkEdgeGatewayRecord edge_href "edge-7"]
  | k0 => zero k0
  end.

(** How many fetches of [href] a trace contains. *)
Definition fetches_of (href : string) (tr : Trace) : nat :=
  List.length (filter (fun r => pathURL r =? href) (requests_in tr)).

(** A server on which every exchange fails with [e]. *)
Definition failing_server (e : error_value) : Server :=
  mkServer (fun _ _ => Some e) (fun k _ _ => inl e).

(** A server on which the first [n] fetches of [href] fail with [e] and
    every other exchange is answered from [fixture_answers]. *)
Definition flaky_server (href : string) (n : nat) (e : error_value) : Server :=
  mkServer
    (fun tr ev =>
       match ev with
       | EvRequest r =>
           if (pathURL r =? href) && (fetches_of href tr <? n)%nat
           then Some e else None
       | _ => None
       end)
    (fun k _ _ => inr (fixture_answers k)).

(** A server that answers the n-th poll of a task with [polls n]. *)
Definition polling_server (polls : nat -> types.Task) : Server :=
  mkServer
    (fun _ _ => None)
    (fun k tr _ =>
       match k as k0 return error_value + doc k0 with
       | KTask => inr (polls (S (List.length (requests_in tr))))
       | k0 => inr (fixture_answers k0)
       end).

(** A task that is still running at its first two polls and has succeeded
    at the third. *)
Definition fixture_polls (n : nat) : types.Task :=
  types.mkTask "https://vcd.example.org/api/task/3"
    (if (n <? 3)%nat then "running" else "success") None None.

(** A task that is still running at its first poll and has failed at the
    second. *)
Definition fixture_failing_polls (n : nat) : types.Task :=
  if (n <? 2)%nat
  then types.mkTask "https://vcd.example.org/api/task/4" "running" None None
  else types.mkTask "https://vcd.example.org/api/task/4" "error"
         (Some (types.mkError "disk quota exceeded")) None.

(** A session against a server reporting version 36.0, on which every
    endpoint is supported from version 33.0 on. *)
Definition fixture_client (srv : Server) : Client :=
  mkClient fixture_url false "36.0" srv (fun _ => ("33.0", None)).

(** A session against a server reporting version 30.0, on which no
    endpoint is supported. *)
Definition unsupported_endpoint (endpoint : string) : error_value :=
  Errorf "endpoint '%s' requires version %s, server has %s"
    [ArgString endpoint; ArgString "33.0"; ArgString "30.0"].

Definition fixture_old_client (srv : Server) : Client :=
  mkClient fixture_url false "30.0" srv
    (fun endpoint => ("", Some (unsupported_endpoint endpoint))).

Definition transient_error : error_value := errorString "500 Internal Server Error".

Definition forbidden_error : error_value := errorString "403 Forbidden".

(** The narrow allow-list of the fixtures: only the spurious server
    error is transient. *)
Definition is_transient (e : error_value) : bool :=
  match e with
  | errorString text => text =? "500 Internal Server Error"
  | _ => false
  end.

(** An org that lists nothing. *)
Definition fixture_org (c : Client) : Org :=
  mkWrapper (k := KOrg)
    (Some (types.mkOrg "https://vcd.example.org/api/org/1" "org-1" [])) (Some c).

(** An org that lists one catalog. *)
Definition fixture_org_with_catalog (c : Client) : Org :=
  mkWrapper (k := KOrg)
    (Some (types.mkOrg "https://vcd.example.org/api/org/1" "org-1"
             [types.mkLink "down" "application/vnd.vmware.vcloud.catalog+xml"
                "cat-1" "https://vcd.example.org/api/catalog/5" ""]))
    (Some c).

Definition fixture_vdc (c : Client) : Vdc :=
  mkWrapper (k := KVdc) (Some fixture_vdc_doc) (Some c).

(** A VDC whose ID is not set. *)
Definition fixture_vdc_without_id (c : Client) : Vdc :=
  mkWrapper (k := KVdc)
    (Some (types.mkVdc "https://vcd.example.org/api/vdc/2" "" "vdc-2" [] [] []))
    (Some c).

Definition fixture_catalog_item (id : string) (c : Client) : CatalogItem :=
  mkWrapper (k := KCatalogItem)
    (Some (types.mkCatalogItem "https://vcd.example.org/api/catalogItem/9" id "item-9"
             (Some (types.mkEntity "https://vcd.example.org/api/vAppTemplate/9" "tpl-9"))))
    (Some c).

Definition fixture_task (c : Client) : Task :=
  mkWrapper (k := KTask)
    (Some (types.mkTask "https://vcd.example.org/api/task/3" "queued" None None))
    (Some c).

(* ================================================================= *)
(** ** Vocabulary for the other functions *)


(** All the resources that a VDC document lists, group after group. *)
Definition resources_of (v : types.Vdc) : list types.ResourceReference :=
  flat_map types.ResourceEntity (types.Vdc_ResourceEntities v).

(** A configuration that passes the validation. *)
Definition fixture_configuration : VdcConfiguration :=
  mkVdcConfiguration "vdc-3" "AllocationVApp"
    (Some [Some (mkComputeCapacity (Some (mkCapacityWithUsage "MHz"))
                                   (Some (mkCapacityWithUsage "MB")))])
    (Some [Some (mkVdcStorageProfileConfiguration "MB")])
    (Some (types.mkReference "https://vcd.example.org/api/admin/providervdc/1" "" "" "pvdc-1")).

(** The request by which a VDC refreshes itself. *)
Definition vdc_refresh_request (v : types.Vdc) : Event :=
  EvRequest (mkRequest MethodGet (types.Vdc_HREF v) ""
               "error refreshing vDC: %s" [] None).

(** What a refresh may do to the object [before], from the trace [tr], by
    the request [request d] for the document [d] it holds.  Either it
    succeeds, after that one request, and the object holds the document
    [d'] the server answered, with the same client; or it fails and the
    object is as it was, after no request or after that one request
    failing with the error returned; or it panics before any request. *)
Definition refresh_outcome {k} (request : doc k -> Event) (before : Wrapper k)
    (tr : Trace) (r : Res error * World (Wrapper k)) : Prop :=
  match r with
  | (Val None, w') =>
      exists d c d',
        before = mkWrapper (Some d) (Some c)
        /\ answer (Http c) k tr (request d) = inr d'
        /\ w' = mkWorld (mkWrapper (Some d') (Some c)) (tr ++ [request d])
  | (Val (Some e), w') =>
      w' = mkWorld before tr
      \/ exists d c,
           before = mkWrapper (Some d) (Some c)
           /\ answer (Http c) k tr (request d) = inl e
           /\ w' = mkWorld before (tr ++ [request d])
  | (Panic _, w') => w' = mkWorld before tr
  | (OutOfFuel, _) => False
  end.

Section DeleteRequest.
Context `{Externals}.

(** The request by which a VDC is deleted. *)
Definition vdc_delete_request (u : URL) (force recursive : bool) : Event :=
  EvRequest (mkRequest MethodDelete (URL_String u) "" ""
               [("force", FormatBool force); ("recursive", FormatBool recursive)]
               None).

(** What [Vdc.Delete] may do on the VDC [vdc], from the trace [tr]:
    return a task that is not in status error, decoded from the answer
    to the one request made, and no error; or an error and the zero
    task, after at most that one request; or panic before any request.
    The VDC itself is never changed. *)
Definition delete_outcome (vdc : Vdc) (force recursive : bool) (tr : Trace)
    (r : Res (Task * error) * World Vdc) : Prop :=
  match r with
  | (Val (task, None), w') =>
      exists c u t,
        client vdc = Some c
        /\ task = mkWrapper (k := KTask) (Some t) (Some c)
        /\ types.Task_Status t <> "error"
        /\ answer (Http c) KTask tr (vdc_delete_request u force recursive) = inr t
        /\ w' = mkWorld vdc (tr ++ [vdc_delete_request u force recursive])
  | (Val (task, Some _), w') =>
      task = zero_value KTask
      /\ (w' = mkWorld vdc tr
          \/ exists u, w' = mkWorld vdc (tr ++ [vdc_delete_request u force recursive]))
  | (Panic _, w') => w' = mkWorld vdc tr
  | (OutOfFuel, _) => False
  end.

End DeleteRequest.

(** The fetches of a catalog and of a vApp by HREF. *)
Definition catalog_request (href : string) : Event :=
  EvRequest (mkRequest MethodGet href "" "error retrieving catalog: %s" [] None).

Definition vapp_request (href : string) : Event :=
  EvRequest (mkRequest MethodGet href "" "error retrieving vApp: %s" [] None).

(** The listing that a lookup on a VDC searches: the one the VDC holds
    or, with refresh, the one the server returns. *)
Definition Vdc_listing (c : Client) (v : types.Vdc) (refresh : bool) (tr : Trace)
  : error_value + types.Vdc :=
  if refresh
  then if types.Vdc_HREF v =? ""
       then inl (Errorf "cannot refresh, Object is empty" [])
       else answer (Http c) KVdc tr (vdc_refresh_request v)
  else inr v.

(** The test of [GetVAppByName] on one resource. *)
Definition is_vapp_named (name : string) (r : types.ResourceReference) : bool :=
  (types.ResourceReference_Name r =? name)
  && (types.ResourceReference_Type r =? "application/vnd.vmware.vcloud.vApp+xml").

(** An org that lists two catalogs of the same name. *)
Definition fixture_org_with_twins (c : Client) : Org :=
  mkWrapper (k := KOrg)
    (Some (types.mkOrg "https://vcd.example.org/api/org/1" "org-1"
             [types.mkLink "down" "application/vnd.vmware.vcloud.vdc+xml"
                "vdc-2" "https://vcd.example.org/api/vdc/2" "";
              types.mkLink "down" "application/vnd.vmware.vcloud.catalog+xml"
                "cat-1" "https://vcd.example.org/api/catalog/5" "";
              types.mkLink "down" "application/vnd.vmware.vcloud.catalog+xml"
                "cat-1" "https://vcd.example.org/api/catalog/6" ""]))
    (Some c).

(** A VDC document that lists, in two groups, a media item and two vApps
    of the same name. *)
Definition fixture_vdc_doc_with_vapps : types.Vdc :=
  types.mkVdc "https://vcd.example.org/api/vdc/2" "urn:vcloud:vdc:2" "vdc-2" [] []
    [types.mkResourceEntities
       [types.mkResourceReference "https://vcd.example.org/api/media/3"
          "application/vnd.vmware.vcloud.media+xml" "urn:vcloud:media:3" "app-1"];
     types.mkResourceEntities
       [types.mkResourceReference
          "https://vcd.example.org/api/vApp/vapp-7c9b5d34-0000-4000-8000-000000000001"
          "application/vnd.vmware.vcloud.vApp+xml"
          "urn:vcloud:vapp:7c9b5d34-0000-4000-8000-000000000001" "app-1";
        types.mkResourceReference
          "https://vcd.example.org/api/vApp/vapp-7c9b5d34-0000-4000-8000-000000000002"
          "application/vnd.vmware.vcloud.vApp+xml"
          "urn:vcloud:vapp:7c9b5d34-0000-4000-8000-000000000002" "app-1"]].

(** The query for the edge gateways of a VDC. *)
Definition edge_query_request (href : string) : Event :=
  EvRequest (mkRequest MethodGet href "" "error querying edge gateways: %s" [] None).

Section EdgeQuery.
Context `{Externals}.

(** The test by which a VDC link is taken for its edge gateway query. *)
Definition is_edge_query_link (l : types.Link) : bool :=
  (types.Link_Rel l =? "edgeGateways") && (types.Link_Type l =? MimeQueryRecords).

End EdgeQuery.

(** The outcome [old] of a deprecated finder, which returns a value and
    an error, agrees with the outcome [new] of the lookup that replaces
    it, which returns a pointer and an error: the end state is the same,
    and either both return the same entity and no error, or both return
    an error, or both panic alike. *)
Definition agree {S k} (old : Res (Wrapper k * error) * World S)
    (new : Res (option (Wrapper k) * error) * World S) : Prop :=
  snd old = snd new
  /\ match fst new with
     | Val (Some x, None) => fst old = Val (x, None)
     | Val (_, Some _) => exists x e, fst old = Val (x, Some e)
     | Val (None, None) => False
     | Panic reason => fst old = Panic reason
     | OutOfFuel => fst old = OutOfFuel
     end.

(** The same for one run of the loops of the two: both fall through, or
    both return and agree. *)
Definition agree_in_loop {S k} (old : Res (option (Wrapper k * error)) * World S)
    (new : Res (option (option (Wrapper k) * error)) * World S) : Prop :=
  snd old = snd new
  /\ match fst new with
     | Val None => fst old = Val None
     | Val (Some (Some x, None)) => fst old = Val (Some (x, None))
     | Val (Some (_, Some _)) => exists x e, fst old = Val (Some (x, Some e))
     | Val (Some (None, None)) => False
     | Panic reason => fst old = Panic reason
     | OutOfFuel => fst old = OutOfFuel
     end.

(** What a read may do to the outside world: requests with method GET
    and no body, sleeps, and (as ghost events) the entry of a lookup. *)
Definition reads_only (ev : Event) : Prop :=
  match ev with
  | EvRequest r => requestType r = MethodGet /\ payload r = None
  | EvSleep _ => True
  | EvLookup _ _ _ _ => True
  | EvOpenApi _ => False
  | EvCompat _ => False
  end.

Section CreateCatalogRequest.
Context `{Externals}.

(** The test by which a link is taken for the one that creates catalogs. *)
Definition is_add_catalog_link (l : types.Link) : bool :=
  (types.Link_Rel l =? "add") && (types.Link_Type l =? MimeAdminCatalog).

(** The request that creates a catalog. *)
Definition create_catalog_request (href Name Description : string)
    (storageProfiles : option types.CatalogStorageProfiles) : Event :=
  EvRequest
    (mkRequest MethodPost href "application/vnd.vmware.admin.catalog+xml"
       "error creating catalog: %s" []
       (Some (existT doc KAdminCatalog
                (types.mkAdminCatalog XMLNamespaceVCloud
                   (types.mkCatalog "" "" Name Description) storageProfiles)))).

End CreateCatalogRequest.


(** A server that answers every exchange, and every listing with the
    given VDC document and edge gateway records. *)
Definition listing_server (v : types.Vdc)
    (records : list types.QueryResultEdgeGatewayRecordType) : Server :=
  mkServer
    (fun _ _ => None)
    (fun k _ _ =>
       match k as k0 return error_value + doc k0 with
       | KVdc => inr v
       | KEdgeGatewayRecords => inr (types.mkEdgeGatewayRecords records)
       | k0 => inr (fixture_answers k0)
       end).

(** Two edge gateway records of the same name. *)
Definition fixture_twin_records : list types.QueryResultEdgeGatewayRecordType :=
  [types.mkEdgeGatewayRecord "https://vcd.example.org/api/admin/edgeGateway/7" "edge-7";
   types.mkEdgeGatewayRecord "https://vcd.example.org/api/admin/edgeGateway/8" "edge-7"].

(** All the networks that a VDC document lists, group after group. *)
Definition networks_of (v : types.Vdc) : list types.Reference :=
  flat_map types.Network (types.Vdc_AvailableNetworks v).

(** An org that links twice to the creation of catalogs. *)
Definition fixture_org_with_add_links (c : Client) : Org :=
  mkWrapper (k := KOrg)
    (Some (types.mkOrg "https://vcd.example.org/api/org/1" "org-1"
             [types.mkLink "add" "application/vnd.vmware.admin.catalog+xml"
                "" "https://vcd.example.org/api/admin/org/1/catalogs" "";
              types.mkLink "add" "application/vnd.vmware.admin.catalog+xml"
                "" "https://vcd.example.org/api/admin/org/1/catalogs-v2" ""]))
    (Some c).

(** An org whose links carry IDs: a VDC and a catalog. *)
Definition fixture_org_with_ids (c : Client) : Org :=
  mkWrapper (k := KOrg)
    (Some (types.mkOrg "https://vcd.example.org/api/org/1" "org-1"
             [types.mkLink "down" "application/vnd.vmware.vcloud.vdc+xml"
                "vdc-2" "https://vcd.example.org/api/vdc/2" "urn:vcloud:vdc:2";
              types.mkLink "down" "application/vnd.vmware.vcloud.catalog+xml"
                "cat-1" "https://vcd.example.org/api/catalog/5" "urn:vcloud:catalog:5"]))
    (Some c).

(** [at_most n m]: from any start, [m] makes at most [n] requests
    through the XML transport. *)
Definition at_most {S A} (n : nat) (m : M S A) : Prop :=
  forall w,
    (List.length (requests_in (trace (snd (m w))))
     <= List.length (requests_in (trace w)) + n)%nat.

(** [returns_within n m], for one iteration or one loop: either it falls
    through and has done nothing, or it does not fall through (it
    returns, or panics) and has made at most [n] requests. *)
Definition returns_within {S R} (n : nat) (m : M S (option R)) : Prop :=
  forall w,
    m w = (Val None, w)
    \/ (fst (m w) <> Val None
        /\ (List.length (requests_in (trace (snd (m w))))
            <= List.length (requests_in (trace w)) + n)%nat).

(** [final_within n m], for the part of an iteration that follows its
    test: it does not fall through, and makes at most [n] requests. *)
Definition final_within {S R} (n : nat) (m : M S (option R)) : Prop :=
  forall w,
    fst (m w) <> Val None
    /\ (List.length (requests_in (trace (snd (m w))))
        <= List.length (requests_in (trace w)) + n)%nat.

(** [keeps_self m]: from any start, [m] leaves the object it is called
    on as it was. *)
Definition keeps_self {S A} (m : M S A) : Prop :=
  forall w, self (snd (m w)) = self w.

(* ----------------------------------------------------------------- *)
(** *** Composing a vApp and creating a standalone VM *)

(** The parts of the parameters that [ComposeVApp] submits, read through
    the pointers that hold them. *)
Definition network_configs_of (vcomp : vapp_types.ComposeVAppParams)
  : list vapp_types.VAppNetworkConfiguration :=
  match vapp_types.ComposeVAppParams_InstantiationParams vcomp with
  | Some instantiation =>
      match vapp_types.InstantiationParams_NetworkConfigSection instantiation with
      | Some section => vapp_types.NetworkConfigSection_NetworkConfig section
      | None => []
      end
  | None => []
  end.

Definition connection_section_of (vcomp : vapp_types.ComposeVAppParams)
  : option vapp_types.NetworkConnectionSection :=
  match vapp_types.ComposeVAppParams_SourcedItem vcomp with
  | Some item =>
      match vapp_types.SourcedItem_InstantiationParams item with
      | Some instantiation =>
          vapp_types.InstantiationParams_NetworkConnectionSection instantiation
      | None => None
      end
  | None => None
  end.

Definition network_connections_of (vcomp : vapp_types.ComposeVAppParams)
  : list vapp_types.NetworkConnection :=
  match connection_section_of vcomp with
  | Some section => vapp_types.NetworkConnectionSection_NetworkConnection section
  | None => []
  end.

Definition primary_index_of (vcomp : vapp_types.ComposeVAppParams) : option Z :=
  option_map vapp_types.NetworkConnectionSection_PrimaryNetworkConnectionIndex
    (connection_section_of vcomp).

Definition network_assignments_of (vcomp : vapp_types.ComposeVAppParams)
  : list vapp_types.NetworkAssignment :=
  match vapp_types.ComposeVAppParams_SourcedItem vcomp with
  | Some item => vapp_types.SourcedItem_NetworkAssignment item
  | None => []
  end.

Definition source_of (vcomp : vapp_types.ComposeVAppParams) : option types.Reference :=
  match vapp_types.ComposeVAppParams_SourcedItem vcomp with
  | Some item => vapp_types.SourcedItem_Source item
  | None => None
  end.

Definition storage_profile_of (vcomp : vapp_types.ComposeVAppParams)
  : option types.Reference :=
  match vapp_types.ComposeVAppParams_SourcedItem vcomp with
  | Some item => vapp_types.SourcedItem_StorageProfile item
  | None => None
  end.

(** The primary network connection index of a VM of a template: the one
    of its network connection section, and 0 when it has none. *)
Definition primary_index_for (vm : vapp_types.VAppTemplateVM) : Z :=
  match vapp_types.VM_NetworkConnectionSection vm with
  | Some section =>
      vapp_types.NetworkConnectionSection_PrimaryNetworkConnectionIndex section
  | None => 0%Z
  end.

(** A link with rel "add" and the given type, and the HREF of the first
    one among the links of a VDC (the empty string when there is none). *)
Definition is_add_link_of (mime : string) (link : types.Link) : bool :=
  (types.Link_Type link =? mime) && (types.Link_Rel link =? "add").

Definition first_add_link_href (v : types.Vdc) (mime : string) : string :=
  match find (is_add_link_of mime) (types.Vdc_Link v) with
  | Some link => types.Link_HREF link
  | None => ""
  end.

(** Parameters that name the VM and a template with an HREF. *)
Definition names_a_template (p : vapp_types.InstantiateVmTemplateParams) : bool :=
  negb (vapp_types.InstantiateVmTemplateParams_Name p =? "")
  && match vapp_types.InstantiateVmTemplateParams_SourcedVmTemplateItem p with
     | Some item =>
         match vapp_types.SourcedVmTemplateParams_Source item with
         | Some source => negb (types.Reference_HREF source =? "")
         | None => false
         end
     | None => false
     end.

(** A task request of the fixtures: it sends the request and answers
    with a new task. *)
Definition fixture_task_externals : TaskExternals := {|
  XMLNamespaceOVF := "http://schemas.dmtf.org/ovf/envelope/1";
  XMLNamespaceXSI := "http://www.w3.org/2001/XMLSchema-instance";
  MimeComposeVappParams := "application/vnd.vmware.vcloud.composeVAppParams+xml";
  MimeCreateVmParams := "application/vnd.vmware.vcloud.CreateVmParams+xml";
  MimeInstantiateVmTemplateParams :=
    "application/vnd.vmware.vcloud.instantiateVmTemplateParams+xml";
  FenceModeBridged := "bridged";
  IPAllocationModePool := "POOL";
  ExecuteTaskRequest := fun S B cli href method content message _ =>
    emit (EvRequest (mkRequest method href content message [] None)) ;;
    ret (NewTask cli, None)
|}.

Definition fixture_networks : slice (option vapp_types.OrgVDCNetwork) :=
  Some [Some (vapp_types.mkOrgVDCNetwork "https://vcd.example.org/api/network/1"
                "net-1" "application/vnd.vmware.vcloud.network+xml");
        Some (vapp_types.mkOrgVDCNetwork "https://vcd.example.org/api/network/2"
                "net-2" "application/vnd.vmware.vcloud.network+xml")].

Definition fixture_template_vm : vapp_types.VAppTemplateVM :=
  vapp_types.mkVAppTemplateVM "https://vcd.example.org/api/vAppTemplate/vm-1" "vm-1"
    (Some (vapp_types.mkNetworkConnectionSection "" 1 [])).

Definition fixture_vdc_doc_with_vm_links : types.Vdc :=
  types.mkVdc "https://vcd.example.org/api/vdc/2" "urn:vcloud:vdc:2" "vdc-2"
    [types.mkLink "add" "application/vnd.vmware.vcloud.CreateVmParams+xml" ""
       "https://vcd.example.org/api/vdc/2/action/createVm" "";
     types.mkLink "add"
       "application/vnd.vmware.vcloud.instantiateVmTemplateParams+xml" ""
       "https://vcd.example.org/api/vdc/2/action/instantiateVmFromTemplate" ""]
    [] [].

(* ================================================================= *)
(** ** Reasoning about runs *)

(** Unfolds the monad and the transport down to the server's answers. *)
Ltac go := cbv beta iota zeta delta
  [run bind ret panic out_of_fuel deref get_self put_self get_trace emit Sleep
   or_after Return Continue call_on self trace data client fst snd trace_of
   ExecuteRequest ExecuteRequestInto ExecuteRequestWithoutResponse
   New NewOrg NewCatalog NewAdminCatalog NewVdc NewOrgVDCNetwork NewEdgeGateway
   NewVApp NewVAppTemplate NewCatalogItem NewTask zero_value is_zero_value].

Lemma requests_in_app a b : requests_in (a ++ b) = requests_in a ++ requests_in b.
Proof.
  induction a as [| ev a IH]; [reflexivity|].
  destruct ev; cbn; rewrite ?IH; reflexivity.
Qed.

Lemma sleeps_in_app a b : sleeps_in (a ++ b) = sleeps_in a ++ sleeps_in b.
Proof.
  induction a as [| ev a IH]; [reflexivity|].
  destruct ev; cbn; rewrite ?IH; reflexivity.
Qed.

Lemma lookups_in_app a b : lookups_in (a ++ b) = lookups_in a ++ lookups_in b.
Proof.
  induction a as [| ev a IH]; [reflexivity|].
  destruct ev; cbn; rewrite ?IH; reflexivity.
Qed.

Lemma lookups_in_quiet evs : Forall not_lookup evs -> lookups_in evs = [].
Proof.
  induction 1 as [| ev evs Hev _ IH]; [reflexivity|].
  destruct ev; cbn in *; [exact IH .. | contradiction].
Qed.

(** A loop none of whose iterations returns falls through, leaving the
    state as it was. *)
Lemma for_range_none S A R (l : list A) (body : A -> M S (option R)) w :
  (forall x, In x l -> body x w = (Val None, w)) ->
  for_range l body w = (Val None, w).
Proof.
  induction l as [| x l IH]; intros Hb; cbn [for_range]; [reflexivity|].
  unfold bind. rewrite (Hb x (or_introl eq_refl)). apply IH.
  intros y Hy. apply Hb. right. exact Hy.
Qed.

Section Emits.
Context {S : Type} (P : Event -> Prop).

Lemma emits_ret A (a : A) : emits P (ret a : M S A).
Proof. intros w. exists []. rewrite app_nil_r. split; [reflexivity | constructor]. Qed.

Lemma emits_panic A r : emits P (panic r : M S A).
Proof. intros w. exists []. rewrite app_nil_r. split; [reflexivity | constructor]. Qed.

Lemma emits_out_of_fuel A : emits P (out_of_fuel : M S A).
Proof. intros w. exists []. rewrite app_nil_r. split; [reflexivity | constructor]. Qed.

Lemma emits_deref A (p : option A) : emits P (deref p : M S A).
Proof. destruct p; [apply emits_ret | apply emits_panic]. Qed.

Lemma emits_get_self : emits P (get_self : M S S).
Proof. intros w. exists []. rewrite app_nil_r. split; [reflexivity | constructor]. Qed.

Lemma emits_put_self s : emits P (put_self s : M S unit).
Proof.
  intros w. exists []. cbn. rewrite app_nil_r. split; [reflexivity | constructor].
Qed.

Lemma emits_get_trace : emits P (get_trace : M S Trace).
Proof. intros w. exists []. rewrite app_nil_r. split; [reflexivity | constructor]. Qed.

Lemma emits_emit ev : P ev -> emits P (emit ev : M S unit).
Proof.
  intros Hev w. exists [ev]. split; [reflexivity | repeat constructor; exact Hev].
Qed.

Lemma emits_bind A B (m : M S A) (k : A -> M S B) :
  emits P m -> (forall a, emits P (k a)) -> emits P (bind m k).
Proof.
  intros Hm Hk w. unfold bind. destruct (Hm w) as [evs [Ht Hf]].
  destruct (m w) as [[a | r |] w1]; cbn in *.
  - destruct (Hk a w1) as [evs' [Ht' Hf']].
    exists (evs ++ evs'). rewrite Ht', Ht, app_assoc. split; [reflexivity|].
    apply Forall_app; split; assumption.
  - exists evs. split; assumption.
  - exists evs. split; assumption.
Qed.

Lemma emits_for_range A R (l : list A) (body : A -> M S (option R)) :
  (forall x, emits P (body x)) -> emits P (for_range l body).
Proof.
  intros Hb. induction l as [| x l IH]; cbn [for_range].
  - apply emits_ret.
  - apply emits_bind; [apply Hb|]. intros [v|]; [apply emits_ret | exact IH].
Qed.
End Emits.

Create HintDb emits.

(** Decomposes a goal [emits P m] along the structure of [m]. *)
Ltac emits_step :=
  first [ solve [auto with emits nocore] |
  match goal with
  | |- emits _ (bind _ _) => apply emits_bind
  | |- emits _ (ret _) => apply emits_ret
  | |- emits _ (Return _) => apply emits_ret
  | |- emits _ Continue => apply emits_ret
  | |- emits _ (panic _) => apply emits_panic
  | |- emits _ out_of_fuel => apply emits_out_of_fuel
  | |- emits _ (deref _) => apply emits_deref
  | |- emits _ get_self => apply emits_get_self
  | |- emits _ (put_self _) => apply emits_put_self
  | |- emits _ get_trace => apply emits_get_trace
  | |- emits _ (for_range _ _) => apply emits_for_range
  | |- emits _ (or_after ?r _) => unfold or_after
  | |- emits _ (Sleep _) => apply emits_emit
  | |- emits _ (emit _) => apply emits_emit
  | |- emits _ (match ?x with _ => _ end) => destruct x
  | |- forall _, _ => intro
  end ].

Ltac emits_auto := repeat emits_step; auto.

Lemma not_lookup_request r : not_lookup (EvRequest r).
Proof. exact I. Qed.

Lemma not_lookup_sleep ms : not_lookup (EvSleep ms).
Proof. exact I. Qed.

#[export] Hint Resolve not_lookup_request not_lookup_sleep : emits.

(** The helpers that the strategies call only make requests and sleep. *)
Section Quiet.
Context `{Externals} (P : Event -> Prop).
Hypothesis P_request : forall r, P (EvRequest r).
Hypothesis P_sleep : forall ms, P (EvSleep ms).

Lemma emits_ExecuteRequest S cli a b c' d pl k out :
  emits P (@ExecuteRequest S cli a b c' d pl k out).
Proof. unfold ExecuteRequest. emits_auto. Qed.
#[local] Hint Resolve emits_ExecuteRequest : emits.

Lemma emits_ExecuteRequestInto S k cli a b c' d pl (x : Wrapper k) :
  emits P (@ExecuteRequestInto S k cli a b c' d pl x).
Proof. unfold ExecuteRequestInto. emits_auto. Qed.
#[local] Hint Resolve emits_ExecuteRequestInto : emits.

Lemma emits_Org_Refresh : emits P Org.Refresh.
Proof. unfold Org.Refresh, Org.receiver. emits_auto. Qed.

Lemma emits_Org_GetCatalogByHref href : emits P (Org.GetCatalogByHref href).
Proof. unfold Org.GetCatalogByHref, Org.receiver. emits_auto. Qed.

Lemma emits_Org_GetVDCByHref href : emits P (Org.GetVDCByHref href).
Proof. unfold Org.GetVDCByHref, Org.receiver. emits_auto. Qed.

Lemma emits_Vdc_Refresh : emits P Vdc.Refresh.
Proof. unfold Vdc.Refresh, Vdc.receiver. emits_auto. Qed.
#[local] Hint Resolve emits_Vdc_Refresh : emits.

Lemma emits_Vdc_GetOrgVdcNetworkByHref href :
  emits P (Vdc.GetOrgVdcNetworkByHref href).
Proof. unfold Vdc.GetOrgVdcNetworkByHref, Vdc.receiver. emits_auto. Qed.

Lemma emits_Vdc_GetVAppByHref href : emits P (Vdc.GetVAppByHref href).
Proof. unfold Vdc.GetVAppByHref, Vdc.receiver. emits_auto. Qed.

Lemma emits_Vdc_retry_edge_gateway steps : forall i href edge err,
  emits P (Vdc.retry_edge_gateway steps i href edge err).
Proof.
  induction steps as [| steps IH]; intros; cbn [Vdc.retry_edge_gateway];
    unfold Vdc.receiver; emits_auto.
Qed.
#[local] Hint Resolve emits_Vdc_retry_edge_gateway : emits.

Lemma emits_Vdc_GetEdgeGatewayByHref href :
  emits P (Vdc.GetEdgeGatewayByHref href).
Proof. unfold Vdc.GetEdgeGatewayByHref, Vdc.receiver. emits_auto. Qed.

Lemma emits_Vdc_GetEdgeGatewayRecordsType refresh :
  emits P (Vdc.GetEdgeGatewayRecordsType refresh).
Proof. unfold Vdc.GetEdgeGatewayRecordsType, Vdc.receiver. emits_auto. Qed.
End Quiet.

#[export] Hint Resolve emits_Org_Refresh emits_Org_GetCatalogByHref
  emits_Org_GetVDCByHref emits_Vdc_Refresh emits_Vdc_GetOrgVdcNetworkByHref
  emits_Vdc_GetVAppByHref emits_Vdc_GetEdgeGatewayByHref
  emits_Vdc_GetEdgeGatewayRecordsType : emits.

(* ================================================================= *)
(** ** Name-or-ID resolution *)

(** A strategy records its entry and nothing else that is a lookup. *)
Lemma lookup_then_quiet S A k s identifier refresh (rest : M S A) w :
  emits not_lookup rest ->
  lookups_in (trace_of ((emit (EvLookup k s identifier refresh) ;; rest) w))
    = lookups_in (trace w) ++ [(k, s, identifier, refresh)].
Proof.
  intros Hq. unfold trace_of, bind, emit.
  destruct (Hq (mkWorld (self w) (trace w ++ [EvLookup k s identifier refresh])))
    as [evs [Ht Hf]].
  destruct (rest _) as [[a | r |] w1]; cbn in *;
    rewrite Ht, !lookups_in_app, (lookups_in_quiet Hf), app_nil_r; reflexivity.
Qed.

Lemma strategies_in_snoc tr tr' k s identifier flag :
  lookups_in tr' = lookups_in tr ++ [(k, s, identifier, flag)] ->
  strategies_in tr' = strategies_in tr ++ [(k, s, identifier)].
Proof. intros E. unfold strategies_in. rewrite E, map_app. reflexivity. Qed.

(** Boxing a strategy's pointer in an interface and asserting its type
    back gives the strategy's own outcome. *)
Lemma boxed_round_trip S k (m : M S (option (Wrapper k) * error)) w :
  ('(entity, err) <- ('(p, err) <- m ;; ret (boxed k p, err)) ;;
   match entity with
   | nil_interface => ret (None, err)
   | _ => p <- type_assert k entity ;; ret (p, err)
   end) w = m w.
Proof.
  unfold bind, ret. destruct (m w) as [[[p err] | r |] w1]; try reflexivity.
  unfold type_assert, ret.
  destruct (kind_eq_dec k k) as [e | ne]; [| contradiction].
  rewrite (Eqdep_dec.UIP_dec kind_eq_dec e eq_refl). reflexivity.
Qed.

Section Strategies.
Context `{Externals}.

Ltac strategy_entry := intros; apply lookup_then_quiet; emits_auto.

Lemma Org_GetCatalogByName_entry name refresh w :
  lookups_in (trace_of (Org.GetCatalogByName name refresh w))
    = lookups_in (trace w) ++ [(KCatalog, ByName, name, refresh)].
Proof. unfold Org.GetCatalogByName, Org.receiver. strategy_entry. Qed.

Lemma Org_GetCatalogById_entry id refresh w :
  lookups_in (trace_of (Org.GetCatalogById id refresh w))
    = lookups_in (trace w) ++ [(KCatalog, ById, id, refresh)].
Proof. unfold Org.GetCatalogById, Org.receiver. strategy_entry. Qed.

Lemma Org_GetVDCByName_entry name refresh w :
  lookups_in (trace_of (Org.GetVDCByName name refresh w))
    = lookups_in (trace w) ++ [(KVdc, ByName, name, refresh)].
Proof. unfold Org.GetVDCByName, Org.receiver. strategy_entry. Qed.

Lemma Org_GetVDCById_entry id refresh w :
  lookups_in (trace_of (Org.GetVDCById id refresh w))
    = lookups_in (trace w) ++ [(KVdc, ById, id, refresh)].
Proof. unfold Org.GetVDCById, Org.receiver. strategy_entry. Qed.

Lemma Vdc_GetOrgVdcNetworkByName_entry name refresh w :
  lookups_in (trace_of (Vdc.GetOrgVdcNetworkByName name refresh w))
    = lookups_in (trace w) ++ [(KOrgVDCNetwork, ByName, name, refresh)].
Proof.
  unfold Vdc.GetOrgVdcNetworkByName, Vdc.range_networks, Vdc.receiver.
  strategy_entry.
Qed.

Lemma Vdc_GetOrgVdcNetworkById_entry id refresh w :
  lookups_in (trace_of (Vdc.GetOrgVdcNetworkById id refresh w))
    = lookups_in (trace w) ++ [(KOrgVDCNetwork, ById, id, refresh)].
Proof.
  unfold Vdc.GetOrgVdcNetworkById, Vdc.range_networks, Vdc.receiver.
  strategy_entry.
Qed.

Lemma Vdc_GetEdgeGatewayByName_entry name refresh w :
  lookups_in (trace_of (Vdc.GetEdgeGatewayByName name refresh w))
    = lookups_in (trace w) ++ [(KEdgeGateway, ByName, name, refresh)].
Proof. unfold Vdc.GetEdgeGatewayByName, Vdc.receiver. strategy_entry. Qed.

Lemma Vdc_GetEdgeGatewayById_entry id refresh w :
  lookups_in (trace_of (Vdc.GetEdgeGatewayById id refresh w))
    = lookups_in (trace w) ++ [(KEdgeGateway, ById, id, refresh)].
Proof. unfold Vdc.GetEdgeGatewayById, Vdc.receiver. strategy_entry. Qed.

Lemma Vdc_GetVAppByName_entry name refresh w :
  lookups_in (trace_of (Vdc.GetVAppByName name refresh w))
    = lookups_in (trace w) ++ [(KVApp, ByName, name, refresh)].
Proof.
  unfold Vdc.GetVAppByName, Vdc.range_resources, Vdc.receiver. strategy_entry.
Qed.

Lemma Vdc_GetVAppById_entry id refresh w :
  lookups_in (trace_of (Vdc.GetVAppById id refresh w))
    = lookups_in (trace w) ++ [(KVApp, ById, id, refresh)].
Proof.
  unfold Vdc.GetVAppById, Vdc.range_resources, Vdc.receiver. strategy_entry.
Qed.

(** Each entry point is its by-id strategy on opaque IDs and its by-name
    strategy on anything else.  The org entry points hand their refresh
    flag down; the vdc entry points hand down [false]. *)
Lemma Org_GetCatalogByNameOrId_eq identifier refresh w :
  Org.GetCatalogByNameOrId identifier refresh w =
  (if isOpaqueId identifier then Org.GetCatalogById identifier refresh w
   else Org.GetCatalogByName identifier refresh w).
Proof.
  unfold Org.GetCatalogByNameOrId, getEntityByNameOrId.
  destruct (isOpaqueId identifier); apply boxed_round_trip.
Qed.

Lemma Org_GetVDCByNameOrId_eq identifier refresh w :
  Org.GetVDCByNameOrId identifier refresh w =
  (if isOpaqueId identifier then Org.GetVDCById identifier refresh w
   else Org.GetVDCByName identifier refresh w).
Proof.
  unfold Org.GetVDCByNameOrId, getEntityByNameOrId.
  destruct (isOpaqueId identifier); apply boxed_round_trip.
Qed.

Lemma Vdc_GetOrgVdcNetworkByNameOrId_eq identifier refresh w :
  Vdc.GetOrgVdcNetworkByNameOrId identifier refresh w =
  (if isOpaqueId identifier then Vdc.GetOrgVdcNetworkById identifier false w
   else Vdc.GetOrgVdcNetworkByName identifier false w).
Proof.
  unfold Vdc.GetOrgVdcNetworkByNameOrId, getEntityByNameOrId.
  destruct (isOpaqueId identifier); apply boxed_round_trip.
Qed.

Lemma Vdc_GetEdgeGatewayByNameOrId_eq identifier refresh w :
  Vdc.GetEdgeGatewayByNameOrId identifier refresh w =
  (if isOpaqueId identifier then Vdc.GetEdgeGatewayById identifier false w
   else Vdc.GetEdgeGatewayByName identifier false w).
Proof.
  unfold Vdc.GetEdgeGatewayByNameOrId, getEntityByNameOrId.
  destruct (isOpaqueId identifier); apply boxed_round_trip.
Qed.

Lemma Vdc_GetVAppByNameOrId_eq identifier refresh w :
  Vdc.GetVAppByNameOrId identifier refresh w =
  (if isOpaqueId identifier then Vdc.GetVAppById identifier false w
   else Vdc.GetVAppByName identifier false w).
Proof.
  unfold Vdc.GetVAppByNameOrId, getEntityByNameOrId.
  destruct (isOpaqueId identifier); apply boxed_round_trip.
Qed.

Lemma dispatches_by_shape_intro S T k
    (entry byName byId : string -> bool -> M S (option T * error))
    identifier refresh flag w :
  entry identifier refresh w =
    (if isOpaqueId identifier then byId identifier flag w
     else byName identifier flag w) ->
  lookups_in (trace_of (byName identifier flag w))
    = lookups_in (trace w) ++ [(k, ByName, identifier, flag)] ->
  lookups_in (trace_of (byId identifier flag w))
    = lookups_in (trace w) ++ [(k, ById, identifier, flag)] ->
  dispatches_by_shape k entry byName byId identifier refresh flag w.
Proof.
  intros Heq Hn Hi. unfold dispatches_by_shape. rewrite Heq.
  destruct (isOpaqueId identifier); split;
    solve [ eapply strategies_in_snoc; eassumption | intros E; exact E ].
Qed.

(** C1.  Each of the five name-or-ID entry points, called with a
    non-empty identifier, enters exactly one strategy: the by-id one
    when the identifier has the shape of an opaque ID, the by-name one
    otherwise; the other strategy is never called.  When the strategy
    it enters reports no match, the entry point returns the not-found
    error and no entity. *)
Theorem name_or_id_dispatches_by_shape
    (identifier : string) (refresh : bool) (org : World Org) (vdc : World Vdc) :
  identifier <> "" ->
  dispatches_by_shape KCatalog Org.GetCatalogByNameOrId
    Org.GetCatalogByName Org.GetCatalogById identifier refresh refresh org
  /\ dispatches_by_shape KVdc Org.GetVDCByNameOrId
    Org.GetVDCByName Org.GetVDCById identifier refresh refresh org
  /\ dispatches_by_shape KVApp Vdc.GetVAppByNameOrId
    Vdc.GetVAppByName Vdc.GetVAppById identifier refresh false vdc
  /\ dispatches_by_shape KOrgVDCNetwork Vdc.GetOrgVdcNetworkByNameOrId
    Vdc.GetOrgVdcNetworkByName Vdc.GetOrgVdcNetworkById identifier refresh false vdc
  /\ dispatches_by_shape KEdgeGateway Vdc.GetEdgeGatewayByNameOrId
    Vdc.GetEdgeGatewayByName Vdc.GetEdgeGatewayById identifier refresh false vdc.
Proof.
  intros _.
  split; [| split; [| split; [| split]]]; apply dispatches_by_shape_intro.
  - apply Org_GetCatalogByNameOrId_eq.
  - apply Org_GetCatalogByName_entry.
  - apply Org_GetCatalogById_entry.
  - apply Org_GetVDCByNameOrId_eq.
  - apply Org_GetVDCByName_entry.
  - apply Org_GetVDCById_entry.
  - apply Vdc_GetVAppByNameOrId_eq.
  - apply Vdc_GetVAppByName_entry.
  - apply Vdc_GetVAppById_entry.
  - apply Vdc_GetOrgVdcNetworkByNameOrId_eq.
  - apply Vdc_GetOrgVdcNetworkByName_entry.
  - apply Vdc_GetOrgVdcNetworkById_entry.
  - apply Vdc_GetEdgeGatewayByNameOrId_eq.
  - apply Vdc_GetEdgeGatewayByName_entry.
  - apply Vdc_GetEdgeGatewayById_entry.
Qed.

(** C6.  A caller that passes [refresh = true] to a vdc entry point
    (vApp, org VDC network, edge gateway) has its flag dropped: the
    strategy is entered with [false], and the run is the same as with
    [refresh = false].  The two org entry points (catalog, VDC) hand
    [true] down to their strategy. *)
Theorem vdc_entry_points_drop_refresh
    (identifier : string) (vdc : World Vdc) (org : World Org) :
  let s := if isOpaqueId identifier then ById else ByName in
  lookups_in (trace_of (Vdc.GetVAppByNameOrId identifier true vdc))
    = lookups_in (trace vdc) ++ [(KVApp, s, identifier, false)]
  /\ lookups_in (trace_of (Vdc.GetOrgVdcNetworkByNameOrId identifier true vdc))
    = lookups_in (trace vdc) ++ [(KOrgVDCNetwork, s, identifier, false)]
  /\ lookups_in (trace_of (Vdc.GetEdgeGatewayByNameOrId identifier true vdc))
    = lookups_in (trace vdc) ++ [(KEdgeGateway, s, identifier, false)]
  /\ Vdc.GetVAppByNameOrId identifier true vdc
     = Vdc.GetVAppByNameOrId identifier false vdc
  /\ Vdc.GetOrgVdcNetworkByNameOrId identifier true vdc
     = Vdc.GetOrgVdcNetworkByNameOrId identifier false vdc
  /\ Vdc.GetEdgeGatewayByNameOrId identifier true vdc
     = Vdc.GetEdgeGatewayByNameOrId identifier false vdc
  /\ lookups_in (trace_of (Org.GetCatalogByNameOrId identifier true org))
    = lookups_in (trace org) ++ [(KCatalog, s, identifier, true)]
  /\ lookups_in (trace_of (Org.GetVDCByNameOrId identifier true org))
    = lookups_in (trace org) ++ [(KVdc, s, identifier, true)].
Proof.
  cbv zeta.
  split; [| split; [| split; [| split; [| split; [| split; [| split]]]]]].
  - rewrite Vdc_GetVAppByNameOrId_eq. destruct (isOpaqueId identifier);
      [apply Vdc_GetVAppById_entry | apply Vdc_GetVAppByName_entry].
  - rewrite Vdc_GetOrgVdcNetworkByNameOrId_eq. destruct (isOpaqueId identifier);
      [apply Vdc_GetOrgVdcNetworkById_entry | apply Vdc_GetOrgVdcNetworkByName_entry].
  - rewrite Vdc_GetEdgeGatewayByNameOrId_eq. destruct (isOpaqueId identifier);
      [apply Vdc_GetEdgeGatewayById_entry | apply Vdc_GetEdgeGatewayByName_entry].
  - (* the body does not mention the caller's flag *)
    reflexivity.
  - reflexivity.
  - reflexivity.
  - rewrite Org_GetCatalogByNameOrId_eq. destruct (isOpaqueId identifier);
      [apply Org_GetCatalogById_entry | apply Org_GetCatalogByName_entry].
  - rewrite Org_GetVDCByNameOrId_eq. destruct (isOpaqueId identifier);
      [apply Org_GetVDCById_entry | apply Org_GetVDCByName_entry].
Qed.
End Strategies.

(** A lookup by name on the fixtures: one strategy entered, by name. *)
Lemma name_or_id_dispatches_by_shape_witness :
  "my-catalog" <> ""
  /\ dispatches_by_shape (H := fixture_externals) KCatalog
       (Org.GetCatalogByNameOrId (H := fixture_externals))
       (Org.GetCatalogByName (H := fixture_externals))
       (Org.GetCatalogById (H := fixture_externals))
       "my-catalog" true true
       (mkWorld (fixture_org (fixture_client (failing_server forbidden_error))) []).
Proof.
  assert (Hne : "my-catalog" <> "") by discriminate.
  split; [exact Hne|].
  exact (proj1 (name_or_id_dispatches_by_shape (H := fixture_externals) true
                  (mkWorld (fixture_org (fixture_client (failing_server forbidden_error))) [])
                  (mkWorld (fixture_vdc (fixture_client (failing_server forbidden_error))) [])
                  Hne)).
Defined.

(** The same call on a vdc, on an opaque ID, asking for a refresh: the
    by-id strategy is entered with the flag off and nothing is fetched. *)
Example GetVAppByNameOrId_refresh_is_not_forwarded :
  trace_of (run (Vdc.GetVAppByNameOrId (H := fixture_externals) "urn:vcloud:vapp:1" true)
              (fixture_vdc (fixture_client (failing_server forbidden_error))) [])
  = [EvLookup KVApp ById "urn:vcloud:vapp:1" false].
Proof. reflexivity. Qed.

Example GetCatalogByNameOrId_refresh_is_forwarded :
  trace_of (run (Org.GetCatalogByNameOrId (H := fixture_externals) "my-catalog" true)
              (fixture_org (fixture_client (failing_server forbidden_error))) [])
  = [EvLookup KCatalog ByName "my-catalog" true;
     org_refresh_request (types.mkOrg "https://vcd.example.org/api/org/1" "org-1" [])].
Proof. reflexivity. Qed.

(* ================================================================= *)
(** ** Waiting for a task *)

Section Wait.
Context `{Externals}.
Variables (c : Client) (ctx : Ctx) (tr0 : Trace) (polls : nat -> types.Task).
Hypothesis Hctx : never_cancelled ctx.
Hypothesis Hans : answers_polls c tr0 polls.

(** With [m] non-terminal polls still ahead and fuel for them, the wait
    returns on the terminal poll that follows, having polled [m + 1]
    more times. *)
Lemma wait_until_first_terminal (m : nat) : forall fuel tr (t : doc KTask),
  (m < fuel)%nat ->
  (forall j, (List.length (requests_in tr) < j <= List.length (requests_in tr) + m)%nat ->
             is_terminal (polls j) = false) ->
  is_terminal (polls (List.length (requests_in tr) + S m)) = true ->
  exists w',
    run (Task.WaitTaskCompletion fuel ctx)
        (mkWrapper (k := KTask) (Some t) (Some c)) (tr0 ++ tr)
    = (Val (wait_outcome (polls (List.length (requests_in tr) + S m))), w')
    /\ List.length (requests_in (trace w'))
       = (List.length (requests_in tr0) + List.length (requests_in tr) + S m)%nat.
Proof.
  induction m as [| m IH]; intros fuel tr t Hfuel Hbefore Hterm.
  - destruct fuel as [| fuel]; [lia|].
    cbn [Task.WaitTaskCompletion]. unfold Task.receiver. go.
    rewrite Hctx, Hans.
    replace (List.length (requests_in tr) + 1)%nat
      with (S (List.length (requests_in tr))) in * by lia.
    set (t' := polls (S (List.length (requests_in tr)))) in *.
    unfold is_terminal, is_success, is_failure in Hterm.
    unfold wait_outcome, is_success.
    destruct (types.Task_Status t' =? "success") eqn:Es.
    + eexists; split; [reflexivity|]. cbn.
      rewrite !requests_in_app, !length_app. cbn. lia.
    + cbn in Hterm. rewrite Hterm.
      eexists; split; [reflexivity|]. cbn.
      rewrite !requests_in_app, !length_app. cbn. lia.
  - destruct fuel as [| fuel]; [lia|].
    cbn [Task.WaitTaskCompletion]. unfold Task.receiver. go.
    rewrite Hctx, Hans.
    assert (Hnt : is_terminal (polls (S (List.length (requests_in tr)))) = false)
      by (apply Hbefore; lia).
    set (t' := polls (S (List.length (requests_in tr)))) in *.
    unfold is_terminal, is_success, is_failure in Hnt.
    apply orb_false_elim in Hnt. destruct Hnt as [Hs Hf]. rewrite Hs, Hf.
    rewrite Hctx.
    rewrite <- !app_assoc.
    set (tr1 := tr ++ [_] ++ [_]).
    assert (Hlen : List.length (requests_in tr1) = S (List.length (requests_in tr))).
    { unfold tr1. rewrite requests_in_app, length_app. cbn. lia. }
    destruct (IH fuel tr1 t') as [w' [Hrun Hcount]].
    + lia.
    + intros j Hj. apply Hbefore. lia.
    + rewrite Hlen. replace (S (List.length (requests_in tr)) + S m)%nat
        with (List.length (requests_in tr) + S (S m))%nat by lia. exact Hterm.
    + exists w'. split.
      * unfold run in Hrun. rewrite Hrun. rewrite Hlen.
        replace (S (List.length (requests_in tr)) + S m)%nat
          with (List.length (requests_in tr) + S (S m))%nat by lia. reflexivity.
      * etransitivity; [exact Hcount | rewrite Hlen; lia].
Qed.

(** The same, from the start of the wait: when the n-th poll is the
    first terminal one, the wait returns its outcome after [n] polls. *)
Lemma wait_first_terminal (t0 : types.Task) (n fuel : nat) :
  (1 <= n <= fuel)%nat ->
  (forall j, (1 <= j < n)%nat -> is_terminal (polls j) = false) ->
  is_terminal (polls n) = true ->
  let r := run (Task.WaitTaskCompletion fuel ctx)
             (mkWrapper (k := KTask) (Some t0) (Some c)) tr0 in
  fst r = Val (wait_outcome (polls n))
  /\ List.length (requests_in (trace_of r))
     = (List.length (requests_in tr0) + n)%nat.
Proof.
  intros Hn Hbefore Hterm r.
  destruct n as [| m]; [lia|].
  destruct (@wait_until_first_terminal m fuel [] t0) as [w' [Hrun Hcount]].
  - lia.
  - intros j Hj. cbn in Hj. apply Hbefore. lia.
  - exact Hterm.
  - rewrite app_nil_r in Hrun.
    assert (E : r = (Val (wait_outcome (polls (S m))), w')) by exact Hrun.
    clearbody r. subst r. split; [reflexivity|].
    etransitivity; [exact Hcount | cbn; lia].
Qed.

(** C2.  In a polling sequence that respects the task invariant and is
    not cancelled, if the n-th poll is the first to return status
    success, the wait returns success after exactly [n] polls; if the
    n-th poll is the first to return status error or aborted, the wait
    fails with [TaskFailed] carrying the message of that snapshot, also
    after exactly [n] polls.  In both cases no poll follows: the count
    is that of the whole run. *)
Theorem wait_task_completion_stops_at_first_terminal_poll
    (t0 : types.Task) (n fuel : nat) :
  monotonic polls ->
  (1 <= n <= fuel)%nat ->
  let r := run (Task.WaitTaskCompletion fuel ctx)
             (mkWrapper (k := KTask) (Some t0) (Some c)) tr0 in
  (is_success (polls n) = true ->
   (forall j, (1 <= j < n)%nat -> is_success (polls j) = false) ->
   fst r = Val None
   /\ List.length (requests_in (trace_of r))
      = (List.length (requests_in tr0) + n)%nat)
  /\ (is_failure (polls n) = true ->
      (forall j, (1 <= j < n)%nat -> is_failure (polls j) = false) ->
      fst r = Val (Some (TaskFailed (Task.message (polls n))))
      /\ List.length (requests_in (trace_of r))
         = (List.length (requests_in tr0) + n)%nat).
Proof.
  intros Hmono Hn r. split.
  - intros Hs Hfirst.
    assert (Hout : wait_outcome (polls n) = None)
      by (unfold wait_outcome; rewrite Hs; reflexivity).
    rewrite <- Hout. apply wait_first_terminal; [exact Hn | | ].
    + intros j Hj. destruct (is_terminal (polls j)) eqn:Et; [| reflexivity].
      exfalso. assert (Hst := Hmono j n ltac:(lia) Et).
      specialize (Hfirst j Hj). unfold is_success in *.
      rewrite Hst in Hs. congruence.
    + unfold is_terminal. rewrite Hs. reflexivity.
  - intros Hf Hfirst.
    assert (Hns : is_success (polls n) = false).
    { unfold is_success, is_failure in *.
      destruct (String.eqb_spec (types.Task_Status (polls n)) "success") as [E | _];
        [| reflexivity].
      rewrite E in Hf. discriminate Hf. }
    assert (Hout : wait_outcome (polls n) = Some (TaskFailed (Task.message (polls n))))
      by (unfold wait_outcome; rewrite Hns; reflexivity).
    rewrite <- Hout. apply wait_first_terminal; [exact Hn | | ].
    + intros j Hj. destruct (is_terminal (polls j)) eqn:Et; [| reflexivity].
      exfalso. assert (Hst := Hmono j n ltac:(lia) Et).
      specialize (Hfirst j Hj). unfold is_terminal in Et.
      rewrite Hfirst, orb_false_r in Et. unfold is_success, is_failure in *.
      rewrite Hst in Hns. congruence.
    + unfold is_terminal. rewrite Hf. apply orb_true_r.
Qed.
End Wait.

Lemma polling_server_answers_polls polls :
  answers_polls (fixture_client (polling_server polls)) [] polls.
Proof. intros tr ev. reflexivity. Qed.

Lemma fixture_polls_monotonic : monotonic fixture_polls.
Proof.
  intros i j Hij. unfold is_terminal, is_success, is_failure, fixture_polls.
  cbn [types.Task_Status].
  destruct (Nat.ltb_spec i 3); intros Ht; [discriminate Ht|].
  destruct (Nat.ltb_spec j 3); [lia | reflexivity].
Qed.

Lemma fixture_polls_first_success j : (1 <= j < 3)%nat -> is_success (fixture_polls j) = false.
Proof.
  intros Hj. unfold is_success, fixture_polls. cbn [types.Task_Status].
  destruct (Nat.ltb_spec j 3); [reflexivity | lia].
Qed.

(** A task that succeeds at its third poll: the wait returns success and
    has polled three times. *)
Lemma wait_task_completion_witness :
  let r := run (Task.WaitTaskCompletion (H := fixture_externals) 5 Background)
             (fixture_task (fixture_client (polling_server fixture_polls))) [] in
  fst r = Val None /\ List.length (requests_in (trace_of r)) = 3%nat.
Proof.
  exact (proj1 (wait_task_completion_stops_at_first_terminal_poll
                  (H := fixture_externals) (ctx := Background)
                  (fun _ => eq_refl) (polling_server_answers_polls fixture_polls)
                  (types.mkTask "https://vcd.example.org/api/task/3" "queued" None None)
                  fixture_polls_monotonic
                  (conj (le_S _ _ (le_S _ _ (le_n 1))) (le_S _ _ (le_S _ _ (le_n 3)))))
               eq_refl fixture_polls_first_success).
Defined.

(** The whole run on that task: three polls, a sleep after each of the
    first two. *)
Example wait_three_polls_trace :
  map (fun ev => match ev with EvSleep ms => Some ms | _ => None end)
      (trace_of (run (Task.WaitTaskCompletion (H := fixture_externals) 5 Background)
                   (fixture_task (fixture_client (polling_server fixture_polls))) []))
  = [None; Some 3000%Z; None; Some 3000%Z; None].
Proof. reflexivity. Qed.

(** A task that fails at its second poll: the wait stops there and
    reports the server's message. *)
Example wait_failed_task :
  let r := run (Task.WaitTaskCompletion (H := fixture_externals) 5 Background)
             (fixture_task (fixture_client (polling_server fixture_failing_polls))) [] in
  fst r = Val (Some (TaskFailed "disk quota exceeded"))
  /\ List.length (requests_in (trace_of r)) = 2%nat.
Proof. split; reflexivity. Qed.

(** With too little fuel the model says so instead of inventing a
    result. *)
Example wait_out_of_fuel :
  fst (run (Task.WaitTaskCompletion (H := fixture_externals) 2 Background)
         (fixture_task (fixture_client (polling_server fixture_polls))) [])
  = OutOfFuel.
Proof. reflexivity. Qed.

(** A cancelled context ends the wait before any poll. *)
Example wait_cancelled :
  run (Task.WaitTaskCompletion (H := fixture_externals) 5 (fun _ => true))
    (fixture_task (fixture_client (polling_server fixture_polls))) []
  = (Val (Some Cancelled),
     mkWorld (fixture_task (fixture_client (polling_server fixture_polls))) []).
Proof. reflexivity. Qed.

Lemma carries_refl e : carries e e.
Proof. destruct e; left; reflexivity. Qed.

Section DeleteWait.
Context `{Externals}.

(** [DeleteWait] hands back the failure of the wait, wrapped once. *)
Lemma DeleteWait_carries_task_failure fuel ctx force recursive
    (w w1 : World Vdc) (task task' : Task) (tr2 : Trace) (e : error_value) :
  Vdc.Delete force recursive w = (Val (task, None), w1) ->
  Task.WaitTaskCompletion fuel ctx (mkWorld task (trace w1))
    = (Val (Some e), mkWorld task' tr2) ->
  exists e', fst (Vdc.DeleteWait fuel ctx force recursive w) = Val (Some e')
             /\ carries e' e.
Proof.
  intros Hd Hw. unfold Vdc.DeleteWait, bind, call_on. rewrite Hd, Hw. cbn.
  eexists; split; [reflexivity|]. right. apply carries_refl.
Qed.
End DeleteWait.

(* ================================================================= *)
(** ** The versioned operations and the compatibility check *)

(** Unfolds the versioned transport down to the server's answers. *)
Ltac openapi_go := cbv beta iota zeta delta
  [run bind ret panic out_of_fuel deref get_self put_self get_trace emit
   self trace data client fst snd trace_of
   checkOpenApiEndpointCompatibility OpenApiCall OpenApiGetItem OpenApiGetAllItems
   OpenApiPostItem OpenApiPutItem OpenApiDeleteItem
   VdcComputePolicy_client VdcComputePolicy_VdcComputePolicy].

(** Case analysis on every test the code makes, innermost first. *)
Ltac gated_cases :=
  repeat match goal with
    | |- context [match ?x with _ => _ end] =>
        lazymatch x with
        | context [match _ with _ => _ end] => fail
        | _ => destruct x eqn:?
        end
    end.

Ltac gated_leaf :=
  cbn [snd trace]; rewrite <- ?app_assoc; cbn [app];
  eexists; split; [reflexivity | repeat constructor].

Section Gate.
Context `{Externals}.

Lemma getVdcComputePolicyById_gated S (c : Client) id (w : World S) :
  gated c policies_endpoint (fun e => (None, Some e))
    (govcd.getVdcComputePolicyById (Some c) id) w.
Proof.
  unfold gated, govcd.getVdcComputePolicyById. fold policies_endpoint.
  destruct w as [s tr].
  destruct (compat c policies_endpoint) as [v [e |]] eqn:Hc; openapi_go; rewrite Hc.
  - reflexivity.
  - gated_cases; gated_leaf.
Qed.

Lemma getAllVdcComputePolicies_gated S (c : Client) queryParameters (w : World S) :
  gated c policies_endpoint (fun e => ([], Some e))
    (govcd.getAllVdcComputePolicies (Some c) queryParameters) w.
Proof.
  unfold gated, govcd.getAllVdcComputePolicies. fold policies_endpoint.
  destruct w as [s tr].
  destruct (compat c policies_endpoint) as [v [e |]] eqn:Hc; openapi_go; rewrite Hc.
  - reflexivity.
  - gated_cases; gated_leaf.
Qed.

Lemma CreateVdcComputePolicy_gated (c : Client) d newVdcComputePolicy tr :
  gated c policies_endpoint (fun e => (None, Some e))
    (AdminOrg.CreateVdcComputePolicy newVdcComputePolicy)
    (mkWorld (mkWrapper (k := KAdminOrg) d (Some c)) tr).
Proof.
  unfold gated, AdminOrg.CreateVdcComputePolicy, AdminOrg.receiver.
  fold policies_endpoint.
  destruct (compat c policies_endpoint) as [v [e |]] eqn:Hc; openapi_go; rewrite Hc.
  - reflexivity.
  - gated_cases; gated_leaf.
Qed.

Lemma Update_gated (c : Client) p href tr :
  gated c policies_endpoint (fun e => (None, Some e))
    VdcComputePolicy.Update
    (mkWorld (mkVdcComputePolicy p href (Some c)) tr).
Proof.
  unfold gated, VdcComputePolicy.Update, VdcComputePolicy.receiver.
  fold policies_endpoint.
  destruct (compat c policies_endpoint) as [v [e |]] eqn:Hc; openapi_go; rewrite Hc.
  - reflexivity.
  - gated_cases; gated_leaf.
Qed.

Lemma Delete_gated (c : Client) p href tr :
  gated c policies_endpoint (fun e => Some e)
    VdcComputePolicy.Delete
    (mkWorld (mkVdcComputePolicy p href (Some c)) tr).
Proof.
  unfold gated, VdcComputePolicy.Delete, VdcComputePolicy.receiver.
  fold policies_endpoint.
  destruct (compat c policies_endpoint) as [v [e |]] eqn:Hc; openapi_go; rewrite Hc.
  - reflexivity.
  - gated_cases; gated_leaf.
Qed.

Lemma GetAllAssignedVdcComputePolicies_gated (c : Client) d queryParameters tr :
  gated c assigned_policies_endpoint (fun e => ([], Some e))
    (AdminVdc.GetAllAssignedVdcComputePolicies queryParameters)
    (mkWorld (mkWrapper (k := KAdminVdc) d (Some c)) tr).
Proof.
  unfold gated, AdminVdc.GetAllAssignedVdcComputePolicies, AdminVdc.receiver.
  fold assigned_policies_endpoint.
  destruct (compat c assigned_policies_endpoint) as [v [e |]] eqn:Hc;
    openapi_go; rewrite Hc.
  - reflexivity.
  - gated_cases; gated_leaf.
Qed.

Lemma GetCapabilities_gated (c : Client) (v : types.Vdc) tr :
  types.Vdc_ID v <> "" ->
  gated c capabilities_endpoint (fun e => ([], Some e))
    Vdc.GetCapabilities
    (mkWorld (mkWrapper (k := KVdc) (Some v) (Some c)) tr).
Proof.
  intros Hid.
  unfold gated, Vdc.GetCapabilities, Vdc.receiver.
  fold capabilities_endpoint.
  apply String.eqb_neq in Hid.
  destruct (compat c capabilities_endpoint) as [ver [e |]] eqn:Hc;
    openapi_go; rewrite Hid, Hc.
  - reflexivity.
  - gated_cases; gated_leaf.
Qed.

Lemma GetCapabilities_guard (c : option Client) (v : types.Vdc) tr :
  types.Vdc_ID v = "" ->
  run Vdc.GetCapabilities (mkWrapper (k := KVdc) (Some v) c) tr
  = (Val ([], Some (Errorf "VDC ID must be set to get capabilities" [])),
     mkWorld (mkWrapper (k := KVdc) (Some v) c) tr).
Proof.
  intros Hid. unfold Vdc.GetCapabilities, Vdc.receiver. go. rewrite Hid. reflexivity.
Qed.

(** C3, as the code has it.  Every versioned operation of the compute
    policy file consults the compatibility check before anything else;
    if the check fails the operation returns the check's error and
    issues no request; if it succeeds, every call through the versioned
    transport carries the version the check returned, whatever version
    the server itself reports.  [GetCapabilities] does the same once
    the VDC has an ID; a VDC without an ID is rejected before the check
    is consulted. *)
Theorem versioned_operations_are_gated
    S (c : Client) (w : World S) (tr : Trace)
    (id : string) (queryParameters : list (string * string))
    (adminOrg : option types.AdminOrg) (adminVdc : option types.AdminVdc)
    (newVdcComputePolicy policy : option types.VdcComputePolicy) (href : string)
    (v : types.Vdc) :
  gated c policies_endpoint (fun e => (None, Some e))
    (govcd.getVdcComputePolicyById (Some c) id) w
  /\ gated c policies_endpoint (fun e => ([], Some e))
    (govcd.getAllVdcComputePolicies (Some c) queryParameters) w
  /\ gated c policies_endpoint (fun e => (None, Some e))
    (AdminOrg.CreateVdcComputePolicy newVdcComputePolicy)
    (mkWorld (mkWrapper (k := KAdminOrg) adminOrg (Some c)) tr)
  /\ gated c policies_endpoint (fun e => (None, Some e))
    VdcComputePolicy.Update (mkWorld (mkVdcComputePolicy policy href (Some c)) tr)
  /\ gated c policies_endpoint (fun e => Some e)
    VdcComputePolicy.Delete (mkWorld (mkVdcComputePolicy policy href (Some c)) tr)
  /\ gated c assigned_policies_endpoint (fun e => ([], Some e))
    (AdminVdc.GetAllAssignedVdcComputePolicies queryParameters)
    (mkWorld (mkWrapper (k := KAdminVdc) adminVdc (Some c)) tr)
  /\ (types.Vdc_ID v <> "" ->
      gated c capabilities_endpoint (fun e => ([], Some e))
        Vdc.GetCapabilities (mkWorld (mkWrapper (k := KVdc) (Some v) (Some c)) tr))
  /\ (types.Vdc_ID v = "" ->
      run Vdc.GetCapabilities (mkWrapper (k := KVdc) (Some v) (Some c)) tr
      = (Val ([], Some (Errorf "VDC ID must be set to get capabilities" [])),
         mkWorld (mkWrapper (k := KVdc) (Some v) (Some c)) tr)).
Proof.
  repeat apply conj.
  - apply getVdcComputePolicyById_gated.
  - apply getAllVdcComputePolicies_gated.
  - apply CreateVdcComputePolicy_gated.
  - apply Update_gated.
  - apply Delete_gated.
  - apply GetAllAssignedVdcComputePolicies_gated.
  - apply GetCapabilities_gated.
  - apply GetCapabilities_guard.
Qed.
End Gate.

(** C3 as stated fails on [GetCapabilities]: on a VDC without an ID, in a
    session whose check would fail, the check is not consulted and the
    error returned is not the check's. *)
Lemma GetCapabilities_without_id_skips_the_check :
  let c := fixture_old_client (failing_server forbidden_error) in
  let endpoint := capabilities_endpoint (H := fixture_externals) in
  let r := run (Vdc.GetCapabilities (H := fixture_externals))
             (fixture_vdc_without_id c) [] in
  snd (compat c endpoint) = Some (unsupported_endpoint endpoint)
  /\ fst r = Val ([], Some (Errorf "VDC ID must be set to get capabilities" []))
  /\ compat_in (trace_of r) = []
  /\ ~ gated c endpoint (fun e => ([], Some e))
         (Vdc.GetCapabilities (H := fixture_externals))
         (mkWorld (fixture_vdc_without_id c) []).
Proof.
  cbv zeta. repeat apply conj; try reflexivity.
  unfold gated. cbn [compat fixture_old_client].
  intros Hg. apply (f_equal fst) in Hg. vm_compute in Hg. discriminate Hg.
Qed.

(** On a VDC with an ID, in a session on a server reporting 36.0 whose
    check answers 33.0, the capabilities are asked for with 33.0. *)
Lemma versioned_operations_are_gated_witness :
  types.Vdc_ID fixture_vdc_doc <> ""
  /\ gated (fixture_client (flaky_server edge_href 0 transient_error))
       (capabilities_endpoint (H := fixture_externals)) (fun e => ([], Some e))
       (Vdc.GetCapabilities (H := fixture_externals))
       (mkWorld (fixture_vdc (fixture_client (flaky_server edge_href 0 transient_error)))
          []).
Proof.
  assert (Hid : types.Vdc_ID fixture_vdc_doc <> "") by discriminate.
  split; [exact Hid|].
  exact (proj1 (proj2 (proj2 (proj2 (proj2 (proj2 (proj2
           (versioned_operations_are_gated (H := fixture_externals)
              (fixture_client (flaky_server edge_href 0 transient_error))
              (mkWorld tt []) [] "" [] None None None None ""
              fixture_vdc_doc))))))) Hid).
Defined.

Example GetCapabilities_uses_the_negotiated_version :
  let c := fixture_client (flaky_server edge_href 0 transient_error) in
  APIVersion c = "36.0"
  /\ map oa_apiVersion
       (openapi_in (trace_of (run (Vdc.GetCapabilities (H := fixture_externals))
                                (fixture_vdc c) [])))
     = ["33.0"].
Proof. split; reflexivity. Qed.

Example getVdcComputePolicyById_unsupported :
  let c := fixture_old_client (flaky_server edge_href 0 transient_error) in
  run (S := unit) (govcd.getVdcComputePolicyById (H := fixture_externals) (Some c) "urn:vcloud:vdcComputePolicy:1") tt []
  = (Val (None, Some (unsupported_endpoint "1.0.0/vdcComputePolicies/")),
     mkWorld tt [EvCompat "1.0.0/vdcComputePolicies/"]).
Proof. reflexivity. Qed.

(* ================================================================= *)
(** ** The retried read of an edge gateway *)

Section Retry.
Context `{Externals}.

(** One iteration of the retry loop: sleep, fetch again, go on. *)
Lemma retry_step steps i href edge e (vdc : Vdc) tr :
  (i <? 4)%Z = true ->
  Vdc.retry_edge_gateway (S steps) i href edge (Some e) (mkWorld vdc tr) =
  match data edge with
  | None => (Panic "invalid memory address or nil pointer dereference",
             mkWorld vdc (tr ++ [EvSleep 200]))
  | Some out =>
    match client vdc with
    | None => (Panic "invalid memory address or nil pointer dereference",
               mkWorld vdc (tr ++ [EvSleep 200]))
    | Some c =>
      match answer (Http c) KEdgeGateway (tr ++ [EvSleep 200]) (edge_request href) with
      | inl e' =>
          Vdc.retry_edge_gateway steps (i + 1)%Z href
            (mkWrapper (Some out) (client edge)) (Some e')
            (mkWorld vdc ((tr ++ [EvSleep 200]) ++ [edge_request href]))
      | inr d =>
          Vdc.retry_edge_gateway steps (i + 1)%Z href
            (mkWrapper (k := KEdgeGateway) (Some d) (client edge)) None
            (mkWorld vdc ((tr ++ [EvSleep 200]) ++ [edge_request href]))
      end
    end
  end.
Proof.
  intros Hi. cbn [Vdc.retry_edge_gateway]. rewrite Hi. cbn [is_error andb].
  destruct edge as [[out |] ce]; destruct vdc as [dv [c |]];
    unfold Vdc.receiver; go; fold (edge_request href); try reflexivity.
  destruct (answer _ _ _ _); reflexivity.
Qed.

(** The loop ends as soon as a fetch has succeeded ... *)
Lemma retry_done steps i href edge (w : World Vdc) :
  Vdc.retry_edge_gateway steps i href edge None w = (Val (edge, None), w).
Proof.
  destruct steps; cbn [Vdc.retry_edge_gateway is_error];
    rewrite andb_false_r; reflexivity.
Qed.

(** ... and when the counter has reached its bound. *)
Lemma retry_bound steps i href edge err (w : World Vdc) :
  (i <? 4)%Z = false ->
  Vdc.retry_edge_gateway steps i href edge err w = (Val (edge, err), w).
Proof.
  intros Hi. destruct steps; cbn [Vdc.retry_edge_gateway]; rewrite Hi; reflexivity.
Qed.

(** The whole read, attempt by attempt. *)
Lemma GetEdgeGatewayByHref_run (c : Client) v href tr :
  href <> "" ->
  run (Vdc.GetEdgeGatewayByHref href) (mkWrapper (k := KVdc) v (Some c)) tr
  = edge_read_outcome c (mkWrapper (k := KVdc) v (Some c)) href tr.
Proof.
  intros Hh. unfold Vdc.GetEdgeGatewayByHref.
  destruct (String.eqb_spec href "") as [-> | _]; [contradiction|].
  unfold edge_read_outcome, edge_attempt, Vdc.receiver. go.
  fold (edge_request href).
  cbn [attempts_before]. rewrite !app_nil_r.
  destruct (answer (Http c) KEdgeGateway tr (edge_request href)) as [e0 | d0];
    [| reflexivity].
  change (Z.to_nat (4 - 1)) with 3%nat.
  rewrite retry_step by reflexivity. cbn [data client].
  replace (tr ++ [edge_request href; EvSleep 200])
    with ((tr ++ [edge_request href]) ++ [EvSleep 200])
    by (rewrite <- app_assoc; reflexivity).
  destruct (answer (Http c) KEdgeGateway _ (edge_request href)) as [e1 | d1].
  2:{ rewrite retry_done. rewrite <- !app_assoc. reflexivity. }
  rewrite retry_step by reflexivity. cbn [data client].
  replace (tr ++ [edge_request href; EvSleep 200; edge_request href; EvSleep 200])
    with ((((tr ++ [edge_request href]) ++ [EvSleep 200]) ++ [edge_request href])
            ++ [EvSleep 200])
    by (rewrite <- !app_assoc; reflexivity).
  destruct (answer (Http c) KEdgeGateway _ (edge_request href)) as [e2 | d2].
  2:{ rewrite retry_done. rewrite <- !app_assoc. reflexivity. }
  rewrite retry_step by reflexivity. cbn [data client].
  replace (tr ++ [edge_request href; EvSleep 200; edge_request href; EvSleep 200;
                  edge_request href; EvSleep 200])
    with ((((((tr ++ [edge_request href]) ++ [EvSleep 200]) ++ [edge_request href])
             ++ [EvSleep 200]) ++ [edge_request href]) ++ [EvSleep 200])
    by (rewrite <- !app_assoc; reflexivity).
  destruct (answer (Http c) KEdgeGateway _ (edge_request href)) as [e3 | d3].
  2:{ rewrite retry_done. rewrite <- !app_assoc. reflexivity. }
  rewrite retry_bound by reflexivity. go. rewrite <- !app_assoc. reflexivity.
Qed.

(** Without an HREF nothing is fetched. *)
Lemma GetEdgeGatewayByHref_empty_href (w : World Vdc) :
  Vdc.GetEdgeGatewayByHref "" w
  = (Val (None, Some (Errorf "empty edge gateway HREF" [])), w).
Proof. reflexivity. Qed.

Lemma requests_in_attempts href n :
  List.length (requests_in (attempts_before href n ++ [edge_request href])) = S n.
Proof.
  induction n as [| n IH]; [reflexivity|].
  cbn [attempts_before app requests_in edge_request List.length] in *.
  rewrite IH. reflexivity.
Qed.

(** C4.  The read of an edge gateway by HREF: when the first two
    attempts fail and the third succeeds, the gateway fetched by the
    third attempt is returned after exactly three attempts, with a
    200 ms sleep before each retry; whatever the server does, at most
    four attempts are made; and when all four fail, the error of the
    last one is returned. *)
Theorem edge_gateway_read_is_retried_three_times
    (c : Client) (v : option types.Vdc) (href : string) (tr : Trace) :
  href <> "" ->
  let vdc : Vdc := mkWrapper (k := KVdc) v (Some c) in
  let r := run (Vdc.GetEdgeGatewayByHref href) vdc tr in
  (forall e0 e1 d,
      edge_attempt c href tr 0 = inl e0 ->
      edge_attempt c href tr 1 = inl e1 ->
      edge_attempt c href tr 2 = inr d ->
      r = (Val (Some (mkWrapper (k := KEdgeGateway) (Some d) (Some c)), None),
           mkWorld vdc
             (tr ++ [edge_request href; EvSleep 200;
                     edge_request href; EvSleep 200;
                     edge_request href])))
  /\ (List.length (requests_in (trace_of r))
      <= List.length (requests_in tr) + 4)%nat
  /\ (forall e0 e1 e2 e3,
      edge_attempt c href tr 0 = inl e0 ->
      edge_attempt c href tr 1 = inl e1 ->
      edge_attempt c href tr 2 = inl e2 ->
      edge_attempt c href tr 3 = inl e3 ->
      r = (Val (None, Some e3),
           mkWorld vdc
             (tr ++ [edge_request href; EvSleep 200;
                     edge_request href; EvSleep 200;
                     edge_request href; EvSleep 200;
                     edge_request href]))).
Proof.
  intros Hh vdc r. subst r vdc. rewrite (GetEdgeGatewayByHref_run c v tr Hh).
  unfold edge_read_outcome. repeat apply conj.
  - intros e0 e1 d H0 H1 H2. rewrite H0, H1, H2. reflexivity.
  - destruct (edge_attempt c href tr 0); [| ].
    2:{ unfold trace_of. cbn [snd trace].
        rewrite requests_in_app, length_app, requests_in_attempts. lia. }
    destruct (edge_attempt c href tr 1).
    2:{ unfold trace_of. cbn [snd trace].
        rewrite requests_in_app, length_app, requests_in_attempts. lia. }
    destruct (edge_attempt c href tr 2).
    2:{ unfold trace_of. cbn [snd trace].
        rewrite requests_in_app, length_app, requests_in_attempts. lia. }
    destruct (edge_attempt c href tr 3);
      unfold trace_of; cbn [snd trace];
      rewrite requests_in_app, length_app, requests_in_attempts; lia.
  - intros e0 e1 e2 e3 H0 H1 H2 H3. rewrite H0, H1, H2, H3. reflexivity.
Qed.

(** C5, as the code has it.  The wrapper does not classify errors: a
    read whose four attempts all fail with [e], whatever [e] is, is
    attempted four times, with a 200 ms sleep before each retry, and
    [e] is returned. *)
Theorem every_failure_is_retried
    (c : Client) (v : option types.Vdc) (href : string) (tr : Trace)
    (e : error_value) :
  href <> "" ->
  (forall n, (n < 4)%nat -> edge_attempt c href tr n = inl e) ->
  let vdc : Vdc := mkWrapper (k := KVdc) v (Some c) in
  let r := run (Vdc.GetEdgeGatewayByHref href) vdc tr in
  r = (Val (None, Some e),
       mkWorld vdc
         (tr ++ [edge_request href; EvSleep 200;
                 edge_request href; EvSleep 200;
                 edge_request href; EvSleep 200;
                 edge_request href]))
  /\ List.length (requests_in (trace_of r))
     = (List.length (requests_in tr) + 4)%nat
  /\ sleeps_in (trace_of r) = sleeps_in tr ++ [200; 200; 200]%Z.
Proof.
  intros Hh Hfail vdc r.
  assert (Hr : r = (Val (None, Some e),
                    mkWorld vdc
                      (tr ++ [edge_request href; EvSleep 200;
                              edge_request href; EvSleep 200;
                              edge_request href; EvSleep 200;
                              edge_request href]))).
  { subst r vdc. rewrite (GetEdgeGatewayByHref_run c v tr Hh).
    unfold edge_read_outcome.
    rewrite !Hfail by lia. reflexivity. }
  rewrite Hr. repeat apply conj; [reflexivity | |].
  - unfold trace_of. cbn [snd trace]. rewrite requests_in_app, length_app.
    reflexivity.
  - unfold trace_of. cbn [snd trace]. rewrite sleeps_in_app. reflexivity.
Qed.
End Retry.

Lemma flaky_edge_attempts :
  let c := fixture_client (flaky_server edge_href 2 transient_error) in
  edge_attempt c edge_href [] 0 = inl transient_error
  /\ edge_attempt c edge_href [] 1 = inl transient_error
  /\ edge_attempt c edge_href [] 2 = inr fixture_edge.
Proof. repeat split; reflexivity. Qed.

(** Two spurious failures, then the gateway: three attempts, two sleeps
    of 200 ms. *)
Lemma edge_gateway_read_is_retried_witness :
  edge_href <> ""
  /\ run (Vdc.GetEdgeGatewayByHref edge_href)
       (fixture_vdc (fixture_client (flaky_server edge_href 2 transient_error))) []
     = (Val (Some (mkWrapper (k := KEdgeGateway) (Some fixture_edge)
                     (Some (fixture_client (flaky_server edge_href 2 transient_error)))),
             None),
        mkWorld (fixture_vdc (fixture_client (flaky_server edge_href 2 transient_error)))
          [edge_request edge_href; EvSleep 200;
           edge_request edge_href; EvSleep 200;
           edge_request edge_href]).
Proof.
  assert (Hh : edge_href <> "") by discriminate.
  split; [exact Hh|].
  exact (proj1 (edge_gateway_read_is_retried_three_times
                  (fixture_client (flaky_server edge_href 2 transient_error))
                  (Some fixture_vdc_doc) (href := edge_href) [] Hh)
           transient_error transient_error fixture_edge
           (proj1 flaky_edge_attempts)
           (proj1 (proj2 flaky_edge_attempts))
           (proj2 (proj2 flaky_edge_attempts))).
Defined.

(** The deprecated [FindEdgeGateway] has the same loop after its two
    listing requests. *)
Example FindEdgeGateway_retries :
  let c := fixture_client (flaky_server edge_href 2 transient_error) in
  let r := run (Vdc.FindEdgeGateway (H := fixture_externals) "edge-7") (fixture_vdc c) [] in
  fst r = Val (mkWrapper (k := KEdgeGateway) (Some fixture_edge) (Some c), None)
  /\ fetches_of edge_href (trace_of r) = 3%nat
  /\ sleeps_in (trace_of r) = [200; 200]%Z.
Proof. repeat split; reflexivity. Qed.

Example FindEdgeGateway_gives_up_after_four_attempts :
  let c := fixture_client (flaky_server edge_href 9 transient_error) in
  let r := run (Vdc.FindEdgeGateway (H := fixture_externals) "edge-7") (fixture_vdc c) [] in
  fst r = Val (NewEdgeGateway (Some c), Some transient_error)
  /\ fetches_of edge_href (trace_of r) = 4%nat
  /\ sleeps_in (trace_of r) = [200; 200; 200]%Z.
Proof. repeat split; reflexivity. Qed.

(** C5 as stated fails: an error outside the allow-list is retried like
    any other, so the read makes four attempts and sleeps three times
    before returning it, not one attempt and no sleep. *)
Lemma forbidden_error_is_retried :
  let c := fixture_client (failing_server forbidden_error) in
  let r := run (Vdc.GetEdgeGatewayByHref edge_href) (fixture_vdc c) [] in
  is_transient forbidden_error = false
  /\ (forall n, edge_attempt c edge_href [] n = inl forbidden_error)
  /\ fst r = Val (None, Some forbidden_error)
  /\ List.length (requests_in (trace_of r)) = 4%nat
  /\ sleeps_in (trace_of r) = [200; 200; 200]%Z
  /\ ~ (List.length (requests_in (trace_of r)) = 1%nat /\ sleeps_in (trace_of r) = []).
Proof.
  cbv zeta. repeat apply conj; try reflexivity.
  intros [Hone _]. vm_compute in Hone. discriminate Hone.
Qed.

Lemma every_failure_is_retried_witness :
  edge_href <> ""
  /\ List.length
       (requests_in
          (trace_of (run (Vdc.GetEdgeGatewayByHref edge_href)
                       (fixture_vdc (fixture_client (failing_server forbidden_error)))
                       [])))
     = 4%nat.
Proof.
  assert (Hh : edge_href <> "") by discriminate.
  split; [exact Hh|].
  exact (proj1 (proj2 (every_failure_is_retried
                         (fixture_client (failing_server forbidden_error))
                         (Some fixture_vdc_doc) (href := edge_href) []
                         (e := forbidden_error) Hh (fun n _ => eq_refl)))).
Defined.

(* ================================================================= *)
(** ** Errors and entities handed back to the caller *)

Section Propagation.
Context `{Externals}.

(** Whatever makes [CreateCatalogWithStorageProfile] fail, the
    package-level [CreateCatalog] answers with an empty catalog and a
    [nil] error. *)
Lemma CreateCatalog_drops_any_error S cli links Name Description
    (w w' : World S) a e :
  govcd.CreateCatalogWithStorageProfile cli links Name Description None w
    = (Val (a, Some e), w') ->
  govcd.CreateCatalog cli links Name Description w
    = (Val (zero_value KAdminCatalog, None), w').
Proof. intros Hc. unfold govcd.CreateCatalog, bind. rewrite Hc. reflexivity. Qed.

(** C7.  Without a link to create catalogs,
    [CreateCatalogWithStorageProfile] fails; the package-level
    [CreateCatalog] then returns the empty admin catalog and a [nil]
    error, where the method [Org.CreateCatalog], written the same way,
    returns the error. *)
Theorem CreateCatalog_swallows_the_error
    S (cli : option Client) (Name Description : string) (w : World S)
    (c : Client) (orgHref orgName : string) (tr : Trace) :
  govcd.CreateCatalogWithStorageProfile cli [] Name Description None w
    = (Val (None, Some (Errorf "creating catalog failed to find url" [])), w)
  /\ govcd.CreateCatalog cli [] Name Description w
    = (Val (zero_value KAdminCatalog, None), w)
  /\ fst (run (Org.CreateCatalog Name Description)
            (mkWrapper (k := KOrg) (Some (types.mkOrg orgHref orgName [])) (Some c))
            tr)
    = Val (zero_value KCatalog,
           Some (Errorf "creating catalog failed to find url" [])).
Proof. repeat apply conj; reflexivity. Qed.

(** A by-name lookup of a catalog that finds no match in the listing it
    searches returns not-found. *)
Lemma GetCatalogByName_zero_matches (c : Client) o name refresh tr listing :
  Org_listing c o refresh (tr ++ [EvLookup KCatalog ByName name refresh])
    = inr listing ->
  (forall link, In link (types.Org_Link listing) ->
     (types.Link_Name link =? name) && (types.Link_Type link =? MimeCatalog) = false) ->
  fst (run (Org.GetCatalogByName name refresh)
         (mkWrapper (k := KOrg) (Some o) (Some c)) tr)
  = Val (None, Some ErrorEntityNotFound).
Proof.
  intros Hl Hnone.
  unfold Org.GetCatalogByName, Org.Refresh, Org.receiver, Org_listing in *.
  destruct refresh; go.
  - fold (org_refresh_request o). rewrite Hl. go.
    rewrite for_range_none; [reflexivity|].
    intros link Hin. rewrite (Hnone link Hin). reflexivity.
  - injection Hl as <-.
    rewrite for_range_none; [reflexivity|].
    intros link Hin. rewrite (Hnone link Hin). reflexivity.
Qed.

Lemma GetVDCByName_zero_matches (c : Client) o name refresh tr listing :
  Org_listing c o refresh (tr ++ [EvLookup KVdc ByName name refresh])
    = inr listing ->
  (forall link, In link (types.Org_Link listing) ->
     (types.Link_Name link =? name) && (types.Link_Type link =? MimeVDC) = false) ->
  fst (run (Org.GetVDCByName name refresh)
         (mkWrapper (k := KOrg) (Some o) (Some c)) tr)
  = Val (None, Some ErrorEntityNotFound).
Proof.
  intros Hl Hnone.
  unfold Org.GetVDCByName, Org.Refresh, Org.receiver, Org_listing in *.
  destruct refresh; go.
  - fold (org_refresh_request o). rewrite Hl. go.
    rewrite for_range_none; [reflexivity|].
    intros link Hin. rewrite (Hnone link Hin). reflexivity.
  - injection Hl as <-.
    rewrite for_range_none; [reflexivity|].
    intros link Hin. rewrite (Hnone link Hin). reflexivity.
Qed.

(** The deprecated lookup falls through to its last line. *)
Lemma FindCatalog_zero_matches (c : Client) o name tr :
  (forall link, In link (types.Org_Link o) ->
     (types.Link_Rel link =? "down")
     && (types.Link_Type link =? "application/vnd.vmware.vcloud.catalog+xml")
     && (types.Link_Name link =? name) = false) ->
  run (Org.FindCatalog name) (mkWrapper (k := KOrg) (Some o) (Some c)) tr
  = (Val (zero_value KCatalog, None),
     mkWorld (mkWrapper (k := KOrg) (Some o) (Some c)) tr).
Proof.
  intros Hnone. unfold Org.FindCatalog, Org.receiver. go.
  rewrite for_range_none; [reflexivity|].
  intros link Hin. rewrite (Hnone link Hin). reflexivity.
Qed.

(** C8, as the code has it.  [GetCatalogByName] and [GetVDCByName]
    return the not-found error and no entity when the listing they
    search (the org's own or, with refresh, the one just fetched) has no
    link of the wanted name and type.  The deprecated [FindCatalog]
    returns an empty catalog and a [nil] error in that case, as its
    comment says. *)
Theorem by_name_lookup_with_zero_matches
    (c : Client) (o : types.Org) (name : string) (refresh : bool) (tr : Trace)
    (listing : types.Org) :
  (Org_listing c o refresh (tr ++ [EvLookup KCatalog ByName name refresh])
     = inr listing ->
   (forall link, In link (types.Org_Link listing) ->
      (types.Link_Name link =? name) && (types.Link_Type link =? MimeCatalog) = false) ->
   fst (run (Org.GetCatalogByName name refresh)
          (mkWrapper (k := KOrg) (Some o) (Some c)) tr)
   = Val (None, Some ErrorEntityNotFound))
  /\ (Org_listing c o refresh (tr ++ [EvLookup KVdc ByName name refresh])
        = inr listing ->
      (forall link, In link (types.Org_Link listing) ->
         (types.Link_Name link =? name) && (types.Link_Type link =? MimeVDC) = false) ->
      fst (run (Org.GetVDCByName name refresh)
             (mkWrapper (k := KOrg) (Some o) (Some c)) tr)
      = Val (None, Some ErrorEntityNotFound))
  /\ ((forall link, In link (types.Org_Link o) ->
         (types.Link_Rel link =? "down")
         && (types.Link_Type link =? "application/vnd.vmware.vcloud.catalog+xml")
         && (types.Link_Name link =? name) = false) ->
      run (Org.FindCatalog name) (mkWrapper (k := KOrg) (Some o) (Some c)) tr
      = (Val (zero_value KCatalog, None),
         mkWorld (mkWrapper (k := KOrg) (Some o) (Some c)) tr)).
Proof.
  repeat apply conj.
  - apply GetCatalogByName_zero_matches.
  - apply GetVDCByName_zero_matches.
  - apply FindCatalog_zero_matches.
Qed.

(** A fetch that fails leaves the freshly built wrapper as it was, and
    these functions return it next to the error. *)
Lemma GetVAppTemplate_on_failure (c : Client) item entity tr e :
  types.CatalogItem_Entity item = Some entity ->
  answer (Http c) KVAppTemplate tr
    (EvRequest (mkRequest MethodGet (types.Entity_HREF entity) ""
                  "error retrieving vApp template: %s" [] None)) = inl e ->
  fst (run CatalogItem.GetVAppTemplate
         (mkWrapper (k := KCatalogItem) (Some item) (Some c)) tr)
  = Val (NewVAppTemplate (Some c), Some e).
Proof.
  intros He Ha. unfold CatalogItem.GetVAppTemplate, CatalogItem.receiver. go.
  rewrite He, Ha. reflexivity.
Qed.

Lemma GetOrgVdcNetworkByHref_on_failure (c : Client) v href tr e :
  answer (Http c) KOrgVDCNetwork tr
    (EvRequest (mkRequest MethodGet href ""
                  "error retrieving org vdc network: %s" [] None)) = inl e ->
  fst (run (Vdc.GetOrgVdcNetworkByHref href) (mkWrapper (k := KVdc) v (Some c)) tr)
  = Val (Some (NewOrgVDCNetwork (Some c)), Some e).
Proof.
  intros Ha. unfold Vdc.GetOrgVdcNetworkByHref, Vdc.receiver. go.
  rewrite Ha. reflexivity.
Qed.

(** The lookups of the org file that go through [GetCatalogByHref] and
    [GetVDCByHref] do keep entity and error apart. *)
Lemma GetCatalogByHref_entity_xor_error href (w : World Org) p err :
  fst (Org.GetCatalogByHref href w) = Val (p, err) ->
  (p = None /\ err <> None) \/ (p <> None /\ err = None).
Proof.
  unfold Org.GetCatalogByHref, Org.receiver. destruct w as [[d cl] tr]. go.
  destruct cl as [cl |]; [| discriminate].
  destruct (answer _ _ _ _); intros E; injection E as <- <-;
    [left | right]; split; solve [reflexivity | discriminate].
Qed.
End Propagation.

(** C8 as stated fails on [FindCatalog]: on an org that lists nothing it
    returns the zero-value catalog and a [nil] error, not the not-found
    error. *)
Lemma FindCatalog_without_match_returns_empty_catalog :
  let r := fst (run (Org.FindCatalog "missing")
                  (fixture_org (fixture_client (failing_server forbidden_error))) []) in
  r = Val (zero_value KCatalog, None)
  /\ r <> Val (zero_value KCatalog, Some ErrorEntityNotFound)
  /\ r <> Val (NewCatalog None, Some ErrorEntityNotFound).
Proof.
  cbv zeta. repeat apply conj; [reflexivity | |]; intros E; vm_compute in E; discriminate E.
Qed.

(** On an org that lists nothing, with or without a refresh that brings
    back an empty listing. *)
Lemma by_name_lookup_with_zero_matches_witness :
  fst (run (Org.GetCatalogByName (H := fixture_externals) "missing" false)
         (fixture_org (fixture_client (failing_server forbidden_error))) [])
  = Val (None, Some ErrorEntityNotFound).
Proof.
  exact (proj1 (by_name_lookup_with_zero_matches (H := fixture_externals)
                  (fixture_client (failing_server forbidden_error))
                  (types.mkOrg "https://vcd.example.org/api/org/1" "org-1" [])
                  "missing" false []
                  (types.mkOrg "https://vcd.example.org/api/org/1" "org-1" []))
           eq_refl (fun link (Hin : In link []) => match Hin with end)).
Defined.

(** C9 fails on the functions that return what they built whatever the
    fetch did.  When the fetch fails, [CatalogItem.GetVAppTemplate] and
    [Org.FindCatalog] return a wrapper that is not the zero value, and
    [Vdc.GetOrgVdcNetworkByHref] a pointer that is not [nil], each next to
    a non-[nil] error. *)
Theorem failed_fetch_returns_entity_and_error (e : error_value) :
  let c := fixture_client (failing_server e) in
  fst (run CatalogItem.GetVAppTemplate
         (fixture_catalog_item "urn:vcloud:catalogitem:9" c) [])
    = Val (NewVAppTemplate (Some c), Some e)
  /\ is_zero_value (NewVAppTemplate (Some c)) = false
  /\ fst (run (Org.FindCatalog "cat-1") (fixture_org_with_catalog c) [])
    = Val (NewCatalog (Some c), Some e)
  /\ is_zero_value (NewCatalog (Some c)) = false
  /\ fst (run (Vdc.GetOrgVdcNetworkByHref "https://vcd.example.org/api/network/4")
            (fixture_vdc c) [])
    = Val (Some (NewOrgVDCNetwork (Some c)), Some e).
Proof. cbv zeta. repeat apply conj; reflexivity. Qed.

(* ================================================================= *)
(** ** Deleting a catalog item *)

Section CatalogItemDelete.
Context `{Externals}.

(** C10.  [CatalogItem.Delete] slices the item's ID from position 23
    without looking at its length: for an item whose ID is shorter than
    23 characters the slice is out of range and the call panics, before
    any request is made. *)
Theorem CatalogItem_Delete_panics_on_short_id
    (c : Client) (item : types.CatalogItem) (tr : Trace) :
  (String.length (types.CatalogItem_ID item) < 23)%nat ->
  run CatalogItem.Delete (mkWrapper (k := KCatalogItem) (Some item) (Some c)) tr
  = (Panic "slice bounds out of range",
     mkWorld (mkWrapper (k := KCatalogItem) (Some item) (Some c)) tr).
Proof.
  intros Hlen. unfold CatalogItem.Delete, CatalogItem.receiver, slice_from. go.
  destruct (Nat.leb_spec 23 (String.length (types.CatalogItem_ID item))); [lia|].
  reflexivity.
Qed.

(** With 23 characters or more the suffix from position 23 is appended
    to the path and the item is deleted at that URL. *)
Lemma CatalogItem_Delete_on_long_id (c : Client) (item : types.CatalogItem) tr :
  (23 <= String.length (types.CatalogItem_ID item))%nat ->
  let ev :=
    EvRequest (mkRequest MethodDelete (URL_String (catalog_item_delete_url c item))
                 "" "error deleting Catalog item: %s" [] None) in
  run CatalogItem.Delete (mkWrapper (k := KCatalogItem) (Some item) (Some c)) tr
  = (Val (status (Http c) tr ev),
     mkWorld (mkWrapper (k := KCatalogItem) (Some item) (Some c)) (tr ++ [ev])).
Proof.
  intros Hlen. unfold CatalogItem.Delete, CatalogItem.receiver, slice_from. go.
  destruct (Nat.leb_spec 23 (String.length (types.CatalogItem_ID item))); [| lia].
  reflexivity.
Qed.
End CatalogItemDelete.

Lemma CatalogItem_Delete_panics_on_short_id_witness :
  (String.length "urn:vcloud:item:9" < 23)%nat
  /\ fst (run (CatalogItem.Delete (H := fixture_externals))
            (fixture_catalog_item "urn:vcloud:item:9"
               (fixture_client (failing_server forbidden_error))) [])
     = Panic "slice bounds out of range".
Proof.
  assert (Hlen : (String.length "urn:vcloud:item:9" < 23)%nat) by (cbn; lia).
  split; [exact Hlen|].
  exact (f_equal fst
           (CatalogItem_Delete_panics_on_short_id (H := fixture_externals)
              (fixture_client (failing_server forbidden_error))
              (types.mkCatalogItem "https://vcd.example.org/api/catalogItem/9"
                 "urn:vcloud:item:9" "item-9"
                 (Some (types.mkEntity "https://vcd.example.org/api/vAppTemplate/9" "tpl-9")))
              [] Hlen)).
Defined.

Example CatalogItem_Delete_builds_the_url_from_the_suffix :
  requests_in
    (trace_of (run (CatalogItem.Delete (H := fixture_externals))
                 (fixture_catalog_item
                    "urn:vcloud:catalogitem:7c9b5d34-0000-4000-8000-000000000009"
                    (fixture_client (flaky_server edge_href 0 transient_error))) []))
  = [mkRequest "DELETE"
       "https://vcd.example.org/api/catalogItem/7c9b5d34-0000-4000-8000-000000000009"
       "" "error deleting Catalog item: %s" [] None].
Proof. reflexivity. Qed.

(* ================================================================= *)
(** ** Loops *)

(** A loop over two lists in a row runs the second one only when the
    first has fallen through. *)
Lemma for_range_app S A R (l1 l2 : list A) (body : A -> M S (option R)) : forall w,
  for_range (l1 ++ l2) body w =
  match for_range l1 body w with
  | (Val None, w') => for_range l2 body w'
  | r => r
  end.
Proof.
  induction l1 as [| x l1 IH]; intros w; cbn [for_range app]; [reflexivity|].
  unfold bind. destruct (body x w) as [[[v |] | r |] w1]; try reflexivity.
  apply IH.
Qed.

(** The first element on which the body does not fall through decides. *)
Lemma for_range_first S A R (pre post : list A) (x : A)
    (body : A -> M S (option R)) w :
  (forall y, In y pre -> body y w = (Val None, w)) ->
  for_range (pre ++ x :: post) body w =
  match body x w with
  | (Val None, w') => for_range post body w'
  | (Val (Some v), w') => (Val (Some v), w')
  | r => r
  end.
Proof.
  intros Hpre. rewrite for_range_app, (for_range_none _ _ Hpre).
  cbn [for_range]. unfold bind.
  destruct (body x w) as [[[v |] | r |] w1]; reflexivity.
Qed.

(** Two nested loops are one loop over the concatenation. *)
Lemma for_range_flat_map S A B R (f : A -> list B) (l : list A)
    (body : B -> M S (option R)) : forall w,
  for_range l (fun a => for_range (f a) body) w = for_range (flat_map f l) body w.
Proof.
  induction l as [| a l IH]; intros w; cbn [for_range flat_map]; [reflexivity|].
  rewrite for_range_app. unfold bind.
  destruct (for_range (f a) body w) as [[[v |] | r |] w1]; try reflexivity.
  apply IH.
Qed.

(** When the iterations of two loops over the same list agree, on every
    state with the receiver [s], and leave that receiver in place, the
    loops agree. *)
Lemma for_range_agree S A k (s : S)
    (body_old : A -> M S (option (Wrapper k * error)))
    (body_new : A -> M S (option (option (Wrapper k) * error))) (l : list A) :
  (forall x w, self w = s ->
     agree_in_loop (body_old x w) (body_new x w) /\ self (snd (body_new x w)) = s) ->
  forall w, self w = s ->
    agree_in_loop (for_range l body_old w) (for_range l body_new w)
    /\ self (snd (for_range l body_new w)) = s.
Proof.
  intros Hb. induction l as [| x l IH]; intros w Hw; cbn [for_range].
  - repeat split. exact Hw.
  - unfold bind. specialize (Hb x w Hw). unfold agree_in_loop in Hb.
    destruct (body_old x w) as [ro wo], (body_new x w) as [rn wn].
    cbn [fst snd] in Hb. destruct Hb as [[-> Hres] Hs].
    destruct rn as [[[[y |] [e |]] |] | reason |]; cbn in Hres.
    + destruct Hres as (x' & e' & ->). repeat split; [| exact Hs].
      exists x', e'. reflexivity.
    + rewrite Hres. repeat split. exact Hs.
    + destruct Hres as (x' & e' & ->). repeat split; [| exact Hs].
      exists x', e'. reflexivity.
    + contradiction.
    + rewrite Hres. apply IH. exact Hs.
    + rewrite Hres. repeat split. exact Hs.
    + rewrite Hres. repeat split. exact Hs.
Qed.

(* ================================================================= *)
(** ** Validating a VDC configuration *)



Example validateVdcConfiguration_on_the_fixture :
  run (S := unit) (validateVdcConfiguration fixture_configuration) tt []
  = (Val None, mkWorld tt []).
Proof. reflexivity. Qed.

(** Only the first storage profile is looked at, and two compute
    capacities are one too many. *)
Example validateVdcConfiguration_edge_cases :
  let with_profiles profiles :=
    mkVdcConfiguration "vdc-3" "AllocationVApp"
      (VdcConfiguration_ComputeCapacity fixture_configuration) profiles
      (VdcConfiguration_ProviderVdcReference fixture_configuration) in
  let with_capacities capacities :=
    mkVdcConfiguration "vdc-3" "AllocationVApp" capacities
      (VdcConfiguration_VdcStorageProfile fixture_configuration)
      (VdcConfiguration_ProviderVdcReference fixture_configuration) in
  fst (run (S := unit)
         (validateVdcConfiguration
            (with_profiles (Some [Some (mkVdcStorageProfileConfiguration "MB");
                                  Some (mkVdcStorageProfileConfiguration "")])))
         tt [])
    = Val None
  /\ fst (run (S := unit)
            (validateVdcConfiguration (with_profiles (Some [None]))) tt [])
    = Panic "invalid memory address or nil pointer dereference"
  /\ fst (run (S := unit)
            (validateVdcConfiguration
               (with_capacities
                  (Some (elems (VdcConfiguration_ComputeCapacity fixture_configuration)
                         ++ elems (VdcConfiguration_ComputeCapacity fixture_configuration)))))
            tt [])
    = Val (errors_New
             "VdcConfiguration invalid field: ComputeCapacity must only have one element")
  /\ fst (run (S := unit)
            (validateVdcConfiguration (with_capacities (Some []))) tt [])
    = Val (errors_New
             "VdcConfiguration invalid field: ComputeCapacity must only have one element").
Proof. repeat split; reflexivity. Qed.

(* ================================================================= *)
(** ** The listings of a VDC *)

Lemma fold_left_append_if A (p : A -> bool) (l : list A) : forall acc,
  fold_left (fun acc x => if p x then acc ++ [x] else acc) l acc = acc ++ filter p l.
Proof.
  induction l as [| x l IH]; intros acc; cbn [fold_left filter].
  - rewrite app_nil_r. reflexivity.
  - rewrite IH. destruct (p x); [rewrite <- app_assoc |]; reflexivity.
Qed.

Lemma fold_left_nested_append_if A B (f : A -> list B) (p : B -> bool) (l : list A) :
  forall acc,
  fold_left (fun acc a => fold_left (fun acc x => if p x then acc ++ [x] else acc)
                            (f a) acc) l acc
  = acc ++ filter p (flat_map f l).
Proof.
  induction l as [| a l IH]; intros acc; cbn [fold_left flat_map].
  - rewrite app_nil_r. reflexivity.
  - rewrite IH, fold_left_append_if, filter_app, app_assoc. reflexivity.
Qed.

(** X2.  [GetVappList] returns the resources of the VDC whose type is
    the vApp type, all of them and no other, in the order in which the
    VDC lists them, group after group.  It makes no request and leaves
    the VDC as it is. *)
Theorem GetVappList_keeps_the_vapps_in_order
    (MimeVApp : string) (v : types.Vdc) (cl : option Client) (tr : Trace) :
  run (Vdc_GetVappList MimeVApp) (mkWrapper (k := KVdc) (Some v) cl) tr
  = (Val (filter (fun r => types.ResourceReference_Type r =? MimeVApp)
            (resources_of v)),
     mkWorld (mkWrapper (k := KVdc) (Some v) cl) tr).
Proof.
  unfold Vdc_GetVappList, Vdc.receiver, resources_of. go.
  rewrite (fold_left_nested_append_if types.ResourceEntity
             (fun r => types.ResourceReference_Type r =? MimeVApp)).
  reflexivity.
Qed.

(** X3.  [getLinkHref] returns the HREF of the first link of the VDC
    that has the wanted rel and type, and the empty string when there is
    none.  It makes no request and leaves the VDC as it is. *)
Theorem getLinkHref_returns_the_first_matching_link
    (rel linkType : string) (v : types.Vdc) (cl : option Client) (tr : Trace) :
  run (Vdc_getLinkHref rel linkType) (mkWrapper (k := KVdc) (Some v) cl) tr
  = (Val (match find (fun link => (types.Link_Rel link =? rel)
                                  && (types.Link_Type link =? linkType))
                     (types.Vdc_Link v) with
          | Some link => types.Link_HREF link
          | None => ""
          end),
     mkWorld (mkWrapper (k := KVdc) (Some v) cl) tr).
Proof.
  unfold Vdc_getLinkHref, Vdc.receiver. go.
  induction (types.Vdc_Link v) as [| link links IH]; cbn [for_range find];
    [reflexivity|].
  go. destruct ((types.Link_Rel link =? rel) && (types.Link_Type link =? linkType));
    [reflexivity | exact IH].
Qed.

(* ================================================================= *)
(** ** Refreshing and deleting *)

Section RefreshAndDelete.
Context `{Externals}.

(** X4.  A refresh of an org or of a VDC is all or nothing.  When it
    returns [nil] it has made exactly one request, a GET of the HREF the
    object held, and the object now holds the document the server
    answered, with the same client.  When it returns an error the object
    is exactly as it was: either no request was made, or that one request
    failed with the error returned.  A panic happens before any
    request. *)
Theorem Refresh_is_all_or_nothing (org : Org) (vdc : Vdc) (tr : Trace) :
  refresh_outcome (k := KOrg) org_refresh_request org tr (run Org.Refresh org tr)
  /\ refresh_outcome (k := KVdc) vdc_refresh_request vdc tr (run Vdc.Refresh vdc tr).
Proof.
  split.
  - destruct org as [[o |] [c |]]; unfold Org.Refresh, Org.receiver; go;
      try reflexivity; [| left; reflexivity].
    fold (org_refresh_request o). unfold refresh_outcome.
    destruct (answer (Http c) KOrg tr (org_refresh_request o)) as [e | o'] eqn:Ha.
    + right. exists o, c. repeat split; assumption.
    + exists o, c, o'. repeat split; assumption.
  - destruct vdc as [[v |] [c |]]; unfold Vdc.Refresh, Vdc.receiver; go;
      try reflexivity;
      (destruct (types.Vdc_HREF v =? ""); [left; reflexivity |]);
      [| reflexivity].
    fold (vdc_refresh_request v). unfold refresh_outcome.
    destruct (answer (Http c) KVdc tr (vdc_refresh_request v)) as [e | v'] eqn:Ha.
    + right. exists v, c. repeat split; assumption.
    + exists v, c, v'. repeat split; assumption.
Qed.

(** X5.  [Vdc.Delete] returns either a task and no error, or the zero
    task and an error, never both.  A task it returns was decoded from
    the answer to the one DELETE request it made, carries the client of
    the VDC and is not in status error.  It makes at most that one
    request, with the force and recursive flags as parameters, never
    changes the VDC, and can only panic before the request. *)
Theorem Vdc_Delete_returns_a_task_or_an_error
    (vdc : Vdc) (force recursive : bool) (tr : Trace) :
  delete_outcome vdc force recursive tr (run (Vdc.Delete force recursive) vdc tr).
Proof.
  destruct vdc as [[v |] cl]; unfold Vdc.Delete, Vdc.receiver; go; [| reflexivity].
  destruct (types.Vdc_HREF v =? ""); [split; [reflexivity | left; reflexivity]|].
  destruct (ParseRequestURI (types.Vdc_HREF v)) as [vdcUrl [e |]];
    [split; [reflexivity | left; reflexivity]|].
  destruct cl as [c |]; [| reflexivity].
  destruct vdcUrl as [u |]; [| reflexivity].
  go. fold (vdc_delete_request u force recursive).
  unfold delete_outcome, answer.
  destruct (status (Http c) tr (vdc_delete_request u force recursive)) as [e |] eqn:Hs.
  { split; [reflexivity | right; exists u; reflexivity]. }
  destruct (body (Http c) KTask tr (vdc_delete_request u force recursive))
    as [e | t] eqn:Hb.
  { split; [reflexivity | right; exists u; reflexivity]. }
  destruct (String.eqb_spec (types.Task_Status t) "error") as [Et | Et].
  { split; [reflexivity | right; exists u; reflexivity]. }
  exists c, u, t. rewrite Hs, Hb. repeat split; try reflexivity. exact Et.
Qed.
End RefreshAndDelete.

Section DefaultStorageProfile.

(** X6.  [GetDefaultStorageProfileReference] refreshes the VDC and then
    answers from the records it was given alone: the HREF and name of
    the first record marked as default (ID and type left empty), or an
    error when no record is.  A failed refresh is returned wrapped, and
    the document fetched by the refresh is not consulted. *)
Theorem GetDefaultStorageProfileReference_takes_the_first_default
    (records : QueryResultRecordsType) (vdc : Vdc) (tr : Trace) :
  run (Vdc_GetDefaultStorageProfileReference (Some records)) vdc tr
  = match run Vdc.Refresh vdc tr with
    | (Val None, w) =>
        (Val (match find OrgVdcStorageProfileRecord_IsDefaultStorageProfile
                         (OrgVdcStorageProfileRecord records) with
              | Some spr =>
                  (types.mkReference (OrgVdcStorageProfileRecord_HREF spr) "" ""
                     (OrgVdcStorageProfileRecord_Name spr), None)
              | None =>
                  (types.mkReference "" "" "" "",
                   Some (Errorf "can't find Default VDC Storage_profile" []))
              end), w)
    | (Val (Some e), w) =>
        (Val (types.mkReference "" "" "" "",
              Some (Errorf "error refreshing vdc: %s" [ArgError e])), w)
    | (Panic reason, w) => (Panic reason, w)
    | (OutOfFuel, w) => (OutOfFuel, w)
    end.
Proof.
  unfold Vdc_GetDefaultStorageProfileReference, run, bind at 1.
  destruct (Vdc.Refresh _) as [[[e |] | reason |] w]; try reflexivity.
  cbn [deref]. unfold bind at 1, ret at 1. unfold bind.
  induction (OrgVdcStorageProfileRecord records) as [| spr sprs IH];
    cbn [for_range find]; [reflexivity|].
  unfold bind.
  destruct (OrgVdcStorageProfileRecord_IsDefaultStorageProfile spr);
    [reflexivity | exact IH].
Qed.
End DefaultStorageProfile.

(* ================================================================= *)
(** ** The first match wins *)

Section FirstMatch.
Context `{Externals}.

(** X7.  [GetCatalogByName] fetches the first link of the listing (the
    org's own or, with refresh, the one just fetched) that has the wanted
    name and the catalog type, and returns the outcome of that fetch:
    the catalog, or the error of the fetch and no catalog.  The links
    after it are not looked at, so a second catalog of the same name is
    silently ignored. *)
Theorem GetCatalogByName_takes_the_first_match
    (c : Client) (o listing : types.Org) (name : string) (refresh : bool)
    (tr : Trace) (pre post : list types.Link) (link : types.Link) :
  let tr1 := tr ++ [EvLookup KCatalog ByName name refresh] in
  let tr2 := tr1 ++ (if refresh then [org_refresh_request o] else []) in
  Org_listing c o refresh tr1 = inr listing ->
  types.Org_Link listing = pre ++ link :: post ->
  (forall l, In l pre ->
     (types.Link_Name l =? name) && (types.Link_Type l =? MimeCatalog) = false) ->
  (types.Link_Name link =? name) && (types.Link_Type link =? MimeCatalog) = true ->
  run (Org.GetCatalogByName name refresh) (mkWrapper (k := KOrg) (Some o) (Some c)) tr
  = (match answer (Http c) KCatalog tr2 (catalog_request (types.Link_HREF link)) with
     | inl e => Val (None, Some e)
     | inr d => Val (Some (mkWrapper (k := KCatalog) (Some d) (Some c)), None)
     end,
     mkWorld (mkWrapper (k := KOrg) (Some listing) (Some c))
       (tr2 ++ [catalog_request (types.Link_HREF link)])).
Proof.
  intros tr1 tr2 Hl Hlinks Hpre Hlink. subst tr1 tr2.
  unfold Org.GetCatalogByName, Org.Refresh, Org.receiver, Org_listing in *.
  destruct refresh; go.
  - fold (org_refresh_request o). rewrite Hl. go.
    rewrite Hlinks, for_range_first.
    2:{ intros l Hin. rewrite (Hpre l Hin). reflexivity. }
    rewrite Hlink. unfold Org.GetCatalogByHref, Org.receiver. go.
    fold (catalog_request (types.Link_HREF link)).
    rewrite <- !app_assoc. cbn [app].
    destruct (answer (Http c) KCatalog _ _); reflexivity.
  - injection Hl as <-.
    rewrite Hlinks, for_range_first.
    2:{ intros l Hin. rewrite (Hpre l Hin). reflexivity. }
    rewrite Hlink. unfold Org.GetCatalogByHref, Org.receiver. go.
    fold (catalog_request (types.Link_HREF link)).
    rewrite app_nil_r.
    destruct (answer (Http c) KCatalog _ _); reflexivity.
Qed.

(** X8.  [GetVAppByName] goes through the resources of the VDC group
    after group and fetches the first one that has the wanted name and
    the vApp type; a resource of that name and another type is skipped,
    and the resources after the first match are not looked at. *)
Theorem GetVAppByName_takes_the_first_vapp_of_that_name
    (c : Client) (v listing : types.Vdc) (name : string) (refresh : bool)
    (tr : Trace) (pre post : list types.ResourceReference)
    (r : types.ResourceReference) :
  let tr1 := tr ++ [EvLookup KVApp ByName name refresh] in
  let tr2 := tr1 ++ (if refresh then [vdc_refresh_request v] else []) in
  Vdc_listing c v refresh tr1 = inr listing ->
  resources_of listing = pre ++ r :: post ->
  (forall x, In x pre -> is_vapp_named name x = false) ->
  is_vapp_named name r = true ->
  run (Vdc.GetVAppByName name refresh) (mkWrapper (k := KVdc) (Some v) (Some c)) tr
  = (match answer (Http c) KVApp tr2
             (vapp_request (types.ResourceReference_HREF r)) with
     | inl e => Val (None, Some e)
     | inr d => Val (Some (mkWrapper (k := KVApp) (Some d) (Some c)), None)
     end,
     mkWorld (mkWrapper (k := KVdc) (Some listing) (Some c))
       (tr2 ++ [vapp_request (types.ResourceReference_HREF r)])).
Proof.
  intros tr1 tr2 Hl Hres Hpre Hr. subst tr1 tr2.
  unfold Vdc.GetVAppByName, Vdc.Refresh, Vdc.receiver, Vdc.range_resources,
    Vdc_listing, resources_of, is_vapp_named in *.
  destruct refresh; go.
  - destruct (types.Vdc_HREF v =? ""); [discriminate Hl|].
    fold (vdc_refresh_request v). rewrite Hl. go.
    rewrite for_range_flat_map, Hres, for_range_first.
    2:{ intros x Hin. rewrite (Hpre x Hin). reflexivity. }
    rewrite Hr. unfold Vdc.GetVAppByHref, Vdc.receiver. go.
    fold (vapp_request (types.ResourceReference_HREF r)).
    rewrite <- !app_assoc. cbn [app].
    destruct (answer (Http c) KVApp _ _); reflexivity.
  - injection Hl as <-.
    rewrite for_range_flat_map, Hres, for_range_first.
    2:{ intros x Hin. rewrite (Hpre x Hin). reflexivity. }
    rewrite Hr. unfold Vdc.GetVAppByHref, Vdc.receiver. go.
    fold (vapp_request (types.ResourceReference_HREF r)).
    rewrite app_nil_r.
    destruct (answer (Http c) KVApp _ _); reflexivity.
Qed.
End FirstMatch.

(** On an org that lists a VDC and then two catalogs called cat-1, the
    first of the two is fetched. *)
Lemma GetCatalogByName_takes_the_first_match_witness :
  let c := fixture_client (flaky_server edge_href 0 transient_error) in
  run (Org.GetCatalogByName (H := fixture_externals) "cat-1" false)
      (fixture_org_with_twins c) []
  = (Val (Some (mkWrapper (k := KCatalog) (Some (zero KCatalog)) (Some c)), None),
     mkWorld (fixture_org_with_twins c)
       [EvLookup KCatalog ByName "cat-1" false;
        catalog_request "https://vcd.example.org/api/catalog/5"]).
Proof.
  pose (vdc_link := types.mkLink "down" "application/vnd.vmware.vcloud.vdc+xml"
                      "vdc-2" "https://vcd.example.org/api/vdc/2" "").
  assert (Hpre : forall l, In l [vdc_link] ->
            (types.Link_Name l =? "cat-1")
            && (types.Link_Type l =? MimeCatalog (Externals := fixture_externals)) = false)
    by (intros l [<- | []]; reflexivity).
  exact (@GetCatalogByName_takes_the_first_match fixture_externals
           (fixture_client (flaky_server edge_href 0 transient_error))
           (types.mkOrg "https://vcd.example.org/api/org/1" "org-1"
              [vdc_link;
               types.mkLink "down" "application/vnd.vmware.vcloud.catalog+xml"
                 "cat-1" "https://vcd.example.org/api/catalog/5" "";
               types.mkLink "down" "application/vnd.vmware.vcloud.catalog+xml"
                 "cat-1" "https://vcd.example.org/api/catalog/6" ""])
           _ "cat-1" false [] [vdc_link]
           [types.mkLink "down" "application/vnd.vmware.vcloud.catalog+xml"
              "cat-1" "https://vcd.example.org/api/catalog/6" ""]
           _ eq_refl eq_refl Hpre eq_refl).
Defined.

(** On a VDC that lists a media item and then two vApps, all called
    app-1, the first vApp is fetched. *)
Lemma GetVAppByName_takes_the_first_vapp_of_that_name_witness :
  let c := fixture_client (flaky_server edge_href 0 transient_error) in
  let vdc : Vdc := mkWrapper (k := KVdc) (Some fixture_vdc_doc_with_vapps) (Some c) in
  run (Vdc.GetVAppByName "app-1" false) vdc []
  = (Val (Some (mkWrapper (k := KVApp) (Some (zero KVApp)) (Some c)), None),
     mkWorld vdc
       [EvLookup KVApp ByName "app-1" false;
        vapp_request
          "https://vcd.example.org/api/vApp/vapp-7c9b5d34-0000-4000-8000-000000000001"]).
Proof.
  pose (media := types.mkResourceReference "https://vcd.example.org/api/media/3"
                   "application/vnd.vmware.vcloud.media+xml" "urn:vcloud:media:3" "app-1").
  assert (Hpre : forall x, In x [media] -> is_vapp_named "app-1" x = false)
    by (intros x [<- | []]; reflexivity).
  exact (@GetVAppByName_takes_the_first_vapp_of_that_name
           (fixture_client (flaky_server edge_href 0 transient_error))
           fixture_vdc_doc_with_vapps fixture_vdc_doc_with_vapps
           "app-1" false [] [media]
           [types.mkResourceReference
              "https://vcd.example.org/api/vApp/vapp-7c9b5d34-0000-4000-8000-000000000002"
              "application/vnd.vmware.vcloud.vApp+xml"
              "urn:vcloud:vapp:7c9b5d34-0000-4000-8000-000000000002" "app-1"]
           _ eq_refl eq_refl Hpre eq_refl).
Defined.

Section ById.
Context `{Externals}.

(** X9.  [GetCatalogById] fetches, as a catalog, the first link of the
    listing whose ID is the wanted one (as judged by [equalIds] on the ID
    and the HREF of the link).  Neither the type nor the name of the link
    is looked at, so the ID of a VDC or of any other entity that the org
    links to is accepted, and the links after the first match are not
    looked at. *)
Theorem GetCatalogById_takes_the_first_link_with_that_id
    (c : Client) (o listing : types.Org) (id : string) (refresh : bool)
    (tr : Trace) (pre post : list types.Link) (link : types.Link) :
  let tr1 := tr ++ [EvLookup KCatalog ById id refresh] in
  let tr2 := tr1 ++ (if refresh then [org_refresh_request o] else []) in
  Org_listing c o refresh tr1 = inr listing ->
  types.Org_Link listing = pre ++ link :: post ->
  (forall l, In l pre -> equalIds id (types.Link_ID l) (types.Link_HREF l) = false) ->
  equalIds id (types.Link_ID link) (types.Link_HREF link) = true ->
  run (Org.GetCatalogById id refresh) (mkWrapper (k := KOrg) (Some o) (Some c)) tr
  = (match answer (Http c) KCatalog tr2 (catalog_request (types.Link_HREF link)) with
     | inl e => Val (None, Some e)
     | inr d => Val (Some (mkWrapper (k := KCatalog) (Some d) (Some c)), None)
     end,
     mkWorld (mkWrapper (k := KOrg) (Some listing) (Some c))
       (tr2 ++ [catalog_request (types.Link_HREF link)])).
Proof.
  intros tr1 tr2 Hl Hlinks Hpre Hlink. subst tr1 tr2.
  unfold Org.GetCatalogById, Org.Refresh, Org.receiver, Org_listing in *.
  destruct refresh; go.
  - fold (org_refresh_request o). rewrite Hl. go.
    rewrite Hlinks, for_range_first.
    2:{ intros l Hin. rewrite (Hpre l Hin). reflexivity. }
    rewrite Hlink. unfold Org.GetCatalogByHref, Org.receiver. go.
    fold (catalog_request (types.Link_HREF link)).
    rewrite <- !app_assoc. cbn [app].
    destruct (answer (Http c) KCatalog _ _); reflexivity.
  - injection Hl as <-.
    rewrite Hlinks, for_range_first.
    2:{ intros l Hin. rewrite (Hpre l Hin). reflexivity. }
    rewrite Hlink. unfold Org.GetCatalogByHref, Org.receiver. go.
    fold (catalog_request (types.Link_HREF link)).
    rewrite app_nil_r.
    destruct (answer (Http c) KCatalog _ _); reflexivity.
Qed.
End ById.

(** Asked for a catalog by the ID of a VDC that the org lists, the
    lookup fetches the VDC as a catalog. *)
Lemma GetCatalogById_takes_the_first_link_with_that_id_witness :
  let c := fixture_client (flaky_server edge_href 0 transient_error) in
  requests_in
    (trace_of (run (Org.GetCatalogById (H := fixture_externals) "urn:vcloud:vdc:2" false)
                 (fixture_org_with_ids c) []))
  = [mkRequest "GET" "https://vcd.example.org/api/vdc/2" ""
       "error retrieving catalog: %s" [] None].
Proof.
  exact (f_equal (fun r => requests_in (trace_of r))
           (@GetCatalogById_takes_the_first_link_with_that_id fixture_externals
              (fixture_client (flaky_server edge_href 0 transient_error))
              (types.mkOrg "https://vcd.example.org/api/org/1" "org-1"
                 [types.mkLink "down" "application/vnd.vmware.vcloud.vdc+xml"
                    "vdc-2" "https://vcd.example.org/api/vdc/2" "urn:vcloud:vdc:2";
                  types.mkLink "down" "application/vnd.vmware.vcloud.catalog+xml"
                    "cat-1" "https://vcd.example.org/api/catalog/5"
                    "urn:vcloud:catalog:5"])
              _ "urn:vcloud:vdc:2" false [] []
              [types.mkLink "down" "application/vnd.vmware.vcloud.catalog+xml"
                 "cat-1" "https://vcd.example.org/api/catalog/5" "urn:vcloud:catalog:5"]
              _ eq_refl eq_refl (fun l (Hin : In l []) => match Hin with end) eq_refl)).
Defined.

(* ================================================================= *)
(** ** Which edge gateway record is read *)

Section EdgeGatewayRecords.
Context `{Externals}.

(** The loop without a break keeps the last match. *)
Lemma last_record_named name (pre post : list types.QueryResultEdgeGatewayRecordType)
    (r : types.QueryResultEdgeGatewayRecordType) :
  (types.EdgeGatewayRecord_Name r =? name) = true ->
  (forall x, In x post -> (types.EdgeGatewayRecord_Name x =? name) = false) ->
  forall href,
  fold_left (fun href edge =>
               if types.EdgeGatewayRecord_Name edge =? name
               then types.EdgeGatewayRecord_HREF edge else href)
            (pre ++ r :: post) href
  = types.EdgeGatewayRecord_HREF r.
Proof.
  intros Hr Hpost href. rewrite fold_left_app. cbn [fold_left]. rewrite Hr.
  generalize (types.EdgeGatewayRecord_HREF r). clear Hr.
  induction post as [| x post IH]; intros h; [reflexivity|].
  cbn [fold_left]. rewrite (Hpost x (or_introl eq_refl)).
  apply IH. intros y Hy. apply Hpost. right. exact Hy.
Qed.

(** X10.  [GetEdgeGatewayByName], once the records of the VDC are
    there, is the retried read of the first record that has the wanted
    name: same result, same requests and sleeps. *)
Theorem GetEdgeGatewayByName_reads_the_first_record_of_that_name
    (name : string) (refresh : bool) (w w1 : World Vdc)
    (records : types.QueryResultEdgeGatewayRecordsType)
    (pre post : list types.QueryResultEdgeGatewayRecordType)
    (r : types.QueryResultEdgeGatewayRecordType) :
  Vdc.GetEdgeGatewayRecordsType refresh
    (mkWorld (self w) (trace w ++ [EvLookup KEdgeGateway ByName name refresh]))
    = (Val (Some records, None), w1) ->
  types.EdgeGatewayRecord records = pre ++ r :: post ->
  (forall x, In x pre -> (types.EdgeGatewayRecord_Name x =? name) = false) ->
  (types.EdgeGatewayRecord_Name r =? name) = true ->
  Vdc.GetEdgeGatewayByName name refresh w
  = Vdc.GetEdgeGatewayByHref (types.EdgeGatewayRecord_HREF r) w1.
Proof.
  intros Hq Hrec Hpre Hr.
  unfold Vdc.GetEdgeGatewayByName, bind at 1. unfold emit at 1.
  unfold bind at 1. rewrite Hq. cbn [deref]. unfold bind at 1, ret at 1.
  unfold bind at 1. rewrite Hrec, for_range_first.
  2:{ intros x Hin. rewrite (Hpre x Hin). reflexivity. }
  rewrite Hr. unfold bind, Return, or_after, ret.
  destruct (Vdc.GetEdgeGatewayByHref (types.EdgeGatewayRecord_HREF r) w1)
    as [[x | reason |] w2]; reflexivity.
Qed.

(** X11.  The deprecated [FindEdgeGateway] refreshes the VDC, queries
    the first edge gateway link and then reads the last record that has
    the wanted name (its loop over the records has no break), where
    [GetEdgeGatewayByName] reads the first.  From there on it agrees
    with the retried read of that record. *)
Theorem FindEdgeGateway_reads_the_last_record_of_that_name
    (c : Client) (v v1 : types.Vdc) (name : string) (tr : Trace)
    (lpre lpost : list types.Link) (av : types.Link)
    (records : types.QueryResultEdgeGatewayRecordsType)
    (pre post : list types.QueryResultEdgeGatewayRecordType)
    (r : types.QueryResultEdgeGatewayRecordType) :
  let tr1 := tr ++ [vdc_refresh_request v] in
  let tr2 := tr1 ++ [edge_query_request (types.Link_HREF av)] in
  Vdc_listing c v true tr = inr v1 ->
  types.Vdc_Link v1 = lpre ++ av :: lpost ->
  (forall l, In l lpre -> is_edge_query_link l = false) ->
  is_edge_query_link av = true ->
  answer (Http c) KEdgeGatewayRecords tr1 (edge_query_request (types.Link_HREF av))
    = inr records ->
  types.EdgeGatewayRecord records = pre ++ r :: post ->
  (types.EdgeGatewayRecord_Name r =? name) = true ->
  (forall x, In x post -> (types.EdgeGatewayRecord_Name x =? name) = false) ->
  types.EdgeGatewayRecord_HREF r <> "" ->
  agree (run (Vdc.FindEdgeGateway name) (mkWrapper (k := KVdc) (Some v) (Some c)) tr)
        (run (Vdc.GetEdgeGatewayByHref (types.EdgeGatewayRecord_HREF r))
             (mkWrapper (k := KVdc) (Some v1) (Some c)) tr2).
Proof.
  intros tr1 tr2 Hl Hlinks Hlpre Hav Hq Hrec Hr Hpost Hh. subst tr1 tr2.
  unfold Vdc_listing, is_edge_query_link in *.
  unfold Vdc.FindEdgeGateway, Vdc.GetEdgeGatewayByHref, Vdc.Refresh, Vdc.receiver.
  destruct (String.eqb_spec (types.EdgeGatewayRecord_HREF r) "") as [E | _];
    [contradiction|].
  go.
  destruct (types.Vdc_HREF v =? ""); [discriminate Hl|].
  fold (vdc_refresh_request v). rewrite Hl. go.
  rewrite Hlinks, for_range_first.
  2:{ intros l Hin. rewrite (Hlpre l Hin). reflexivity. }
  rewrite Hav. go. fold (edge_query_request (types.Link_HREF av)).
  rewrite Hq. rewrite Hrec, (@last_record_named name pre post r Hr Hpost).
  destruct (String.eqb_spec (types.EdgeGatewayRecord_HREF r) "") as [E | _];
    [contradiction|].
  set (href := types.EdgeGatewayRecord_HREF r).
  fold (edge_request href).
  destruct (answer (Http c) KEdgeGateway
              ((tr ++ [vdc_refresh_request v]) ++ [edge_query_request (types.Link_HREF av)])
              (edge_request href)) as [e | d].
  2:{ split; reflexivity. }
  match goal with
  | |- context [Vdc.retry_edge_gateway ?n ?i ?h ?edge ?err ?w] =>
      set (X := Vdc.retry_edge_gateway n i h edge err w)
  end.
  try match goal with
  | |- context [Vdc.retry_edge_gateway ?n ?i ?h ?edge ?err ?w] =>
      change (Vdc.retry_edge_gateway n i h edge err w) with X
  end.
  clearbody X. destruct X as [[[edge' [e' |]] | reason |] w']; split; try reflexivity.
  exists edge', e'. reflexivity.
Qed.
End EdgeGatewayRecords.

(** On two records called edge-7, the lookup by name reads the first. *)
Lemma GetEdgeGatewayByName_reads_the_first_record_of_that_name_witness :
  let c := fixture_client (listing_server fixture_vdc_doc fixture_twin_records) in
  let query := "https://vcd.example.org/api/admin/vdc/2/edgeGateways" in
  Vdc.GetEdgeGatewayByName (H := fixture_externals) "edge-7" false
    (mkWorld (fixture_vdc c) [])
  = Vdc.GetEdgeGatewayByHref "https://vcd.example.org/api/admin/edgeGateway/7"
      (mkWorld (fixture_vdc c)
         [EvLookup KEdgeGateway ByName "edge-7" false; edge_query_request query]).
Proof.
  exact (@GetEdgeGatewayByName_reads_the_first_record_of_that_name
           fixture_externals "edge-7" false
           (mkWorld (fixture_vdc (fixture_client
                       (listing_server fixture_vdc_doc fixture_twin_records))) [])
           _ (types.mkEdgeGatewayRecords fixture_twin_records) []
           [types.mkEdgeGatewayRecord
              "https://vcd.example.org/api/admin/edgeGateway/8" "edge-7"]
           (types.mkEdgeGatewayRecord
              "https://vcd.example.org/api/admin/edgeGateway/7" "edge-7")
           eq_refl eq_refl (fun x (Hin : In x []) => match Hin with end) eq_refl).
Defined.

(** On the same two records, the deprecated finder reads the second. *)
Lemma FindEdgeGateway_reads_the_last_record_of_that_name_witness :
  let c := fixture_client (listing_server fixture_vdc_doc fixture_twin_records) in
  let query := "https://vcd.example.org/api/admin/vdc/2/edgeGateways" in
  agree (run (Vdc.FindEdgeGateway (H := fixture_externals) "edge-7") (fixture_vdc c) [])
        (run (Vdc.GetEdgeGatewayByHref "https://vcd.example.org/api/admin/edgeGateway/8")
             (fixture_vdc c)
             [vdc_refresh_request fixture_vdc_doc; edge_query_request query]).
Proof.
  assert (Hh : "https://vcd.example.org/api/admin/edgeGateway/8" <> "")
    by discriminate.
  exact (@FindEdgeGateway_reads_the_last_record_of_that_name
           fixture_externals
           (fixture_client (listing_server fixture_vdc_doc fixture_twin_records))
           fixture_vdc_doc fixture_vdc_doc "edge-7" [] [] []
           (types.mkLink "edgeGateways" "application/vnd.vmware.vcloud.query.records+xml"
              "" "https://vcd.example.org/api/admin/vdc/2/edgeGateways" "")
           (types.mkEdgeGatewayRecords fixture_twin_records)
           [types.mkEdgeGatewayRecord
              "https://vcd.example.org/api/admin/edgeGateway/7" "edge-7"]
           []
           (types.mkEdgeGatewayRecord
              "https://vcd.example.org/api/admin/edgeGateway/8" "edge-7")
           eq_refl eq_refl (fun l (Hin : In l []) => match Hin with end) eq_refl
           eq_refl eq_refl eq_refl
           (fun x (Hin : In x []) => match Hin with end) Hh).
Defined.

(** The two on the same records: the lookup returns gateway 7's read,
    the finder gateway 8's. *)
Example twin_edge_gateway_records :
  let c := fixture_client (listing_server fixture_vdc_doc fixture_twin_records) in
  fetches_of "https://vcd.example.org/api/admin/edgeGateway/7"
    (trace_of (run (Vdc.GetEdgeGatewayByName (H := fixture_externals) "edge-7" true)
                 (fixture_vdc c) [])) = 1%nat
  /\ fetches_of "https://vcd.example.org/api/admin/edgeGateway/8"
       (trace_of (run (Vdc.GetEdgeGatewayByName (H := fixture_externals) "edge-7" true)
                    (fixture_vdc c) [])) = 0%nat
  /\ fetches_of "https://vcd.example.org/api/admin/edgeGateway/7"
       (trace_of (run (Vdc.FindEdgeGateway (H := fixture_externals) "edge-7")
                    (fixture_vdc c) [])) = 0%nat
  /\ fetches_of "https://vcd.example.org/api/admin/edgeGateway/8"
       (trace_of (run (Vdc.FindEdgeGateway (H := fixture_externals) "edge-7")
                    (fixture_vdc c) [])) = 1%nat.
Proof. repeat split; reflexivity. Qed.

(* ================================================================= *)
(** ** The deprecated finders *)

Section Deprecated.
Context `{Externals}.

(** After the refresh both functions run their loop; when the
    iterations agree, so do the functions. *)
Ltac after_refresh v cl tr1 :=
  cbv beta iota zeta delta [run bind ret emit get_self Vdc.receiver self trace];
  destruct (Vdc.Refresh _) as [[[e |] | reason |] [[d cl] tr1]];
    try solve [split; [reflexivity | cbn; eauto]];
  destruct d as [v |]; [| split; reflexivity];
  cbv beta iota zeta delta [deref ret data client].

Ltac loops_agree x trx :=
  match goal with
  | |- agree (let (r, w') := for_range ?l ?bo ?w1 in _)
             (let (r', w'') := for_range ?l ?bn ?w1 in _) =>
      let Hloop := fresh "Hloop" in
      assert (Hloop : agree_in_loop (for_range l bo w1) (for_range l bn w1)
                      /\ self (snd (for_range l bn w1)) = self w1);
      [ apply for_range_agree; [| reflexivity];
        intros g w0 Hw0; apply for_range_agree; [| exact Hw0];
        clear; intros x [s trx] Hs; cbn [self] in Hs; subst s
      | destruct Hloop as [Hloop _]; unfold agree_in_loop in Hloop;
        destruct (for_range l bo w1) as [ro wo], (for_range l bn w1) as [rn wn];
        cbn [fst snd] in Hloop; destruct Hloop as [-> Hres];
        destruct rn as [[[[y |] [e |]] |] | reason |]; cbn in Hres;
        try contradiction;
        try (destruct Hres as (x' & e' & ->); split; [reflexivity | cbn; eauto]);
        try (rewrite Hres; split; [reflexivity | cbn; eauto]) ]
  end.

(** X12.  The deprecated [FindVAppByName] and [FindVDCNetwork] agree
    with [GetVAppByName] and [GetOrgVdcNetworkByName] called with
    refresh, on every VDC and whatever the server answers: they make the
    same requests and leave the VDC in the same state, they return the
    same entity when the lookup succeeds, and an error when the lookup
    returns one.  (The lookup records its entry first; the finder is run
    from the trace that has this entry.) *)
Theorem deprecated_finders_agree_with_the_lookups_by_name
    (name : string) (vdc : Vdc) (tr : Trace) :
  agree (run (Vdc_FindVAppByName name) vdc (tr ++ [EvLookup KVApp ByName name true]))
        (run (Vdc.GetVAppByName name true) vdc tr)
  /\ agree (run (Vdc.FindVDCNetwork name) vdc
              (tr ++ [EvLookup KOrgVDCNetwork ByName name true]))
           (run (Vdc.GetOrgVdcNetworkByName name true) vdc tr).
Proof.
  split.
  - unfold Vdc_FindVAppByName, Vdc.GetVAppByName, Vdc.range_resources.
    after_refresh v cl tr1. loops_agree x trx.
    unfold Vdc.GetVAppByHref, Vdc.receiver. go.
    destruct ((types.ResourceReference_Name x =? name) && _);
      [| repeat split].
    destruct cl as [c |]; [| repeat split].
    destruct (answer _ _ _ _); repeat split. cbn. eauto.
  - unfold Vdc.FindVDCNetwork, Vdc.GetOrgVdcNetworkByName, Vdc.range_networks.
    after_refresh v cl tr1. loops_agree x trx.
    unfold Vdc.GetOrgVdcNetworkByHref, Vdc.receiver. go.
    destruct (types.Reference_Name x =? name); [| repeat split].
    destruct cl as [c |]; [| repeat split].
    destruct (answer _ _ _ _); repeat split. cbn. eauto.
Qed.
End Deprecated.

Section NotFound.
Context `{Externals}.

(** X13.  When the refreshed VDC lists no vApp (no network) of the
    wanted name, [GetVAppByName] and [GetOrgVdcNetworkByName] return the
    not-found error [ErrorEntityNotFound] and no entity, while the
    deprecated [FindVAppByName] and [FindVDCNetwork] return an error of
    their own, which is not that one, and an empty entity.  In all four
    the refresh is the only request. *)
Theorem missing_entity_is_not_found_only_for_the_lookups
    (c : Client) (v listing : types.Vdc) (name : string) (tr : Trace) :
  let vdc : Vdc := mkWrapper (k := KVdc) (Some v) (Some c) in
  let after (tr1 : Trace) : World Vdc :=
    mkWorld (mkWrapper (k := KVdc) (Some listing) (Some c))
      (tr1 ++ [vdc_refresh_request v]) in
  (forall tr1, Vdc_listing c v true tr1 = inr listing) ->
  ((forall x, In x (resources_of listing) -> is_vapp_named name x = false) ->
   let tr1 := tr ++ [EvLookup KVApp ByName name true] in
   run (Vdc.GetVAppByName name true) vdc tr
     = (Val (None, Some ErrorEntityNotFound), after tr1)
   /\ run (Vdc_FindVAppByName name) vdc tr
     = (Val (zero_value KVApp, Some (Errorf "can't find vApp: %s" [ArgString name])),
        after tr))
  /\ ((forall x, In x (networks_of listing) -> (types.Reference_Name x =? name) = false) ->
      let tr1 := tr ++ [EvLookup KOrgVDCNetwork ByName name true] in
      run (Vdc.GetOrgVdcNetworkByName name true) vdc tr
        = (Val (None, Some ErrorEntityNotFound), after tr1)
      /\ run (Vdc.FindVDCNetwork name) vdc tr
        = (Val (zero_value KOrgVDCNetwork,
                Some (Errorf "can't find VDC Network: %s" [ArgString name])),
           after tr)).
Proof.
  intros vdc after Hl. subst vdc after.
  unfold Vdc_listing, resources_of, networks_of, is_vapp_named in *.
  destruct (types.Vdc_HREF v =? "") eqn:Hh; [discriminate (Hl [])|].
  unfold Vdc.GetVAppByName, Vdc_FindVAppByName, Vdc.GetOrgVdcNetworkByName,
    Vdc.FindVDCNetwork, Vdc.Refresh, Vdc.receiver, Vdc.range_resources,
    Vdc.range_networks.
  split; intros Hnone; cbv zeta; split; go; rewrite Hh;
    fold (vdc_refresh_request v); rewrite Hl; go;
    rewrite for_range_flat_map, for_range_none; try reflexivity;
    intros x Hin; rewrite (Hnone x Hin); reflexivity.
Qed.
End NotFound.

(** A VDC that lists nothing: the lookup answers not-found, the finder
    something else. *)
Lemma missing_entity_is_not_found_only_for_the_lookups_witness :
  let c := fixture_client (listing_server fixture_vdc_doc []) in
  fst (run (Vdc.GetVAppByName "app-1" true) (fixture_vdc c) [])
    = Val (None, Some ErrorEntityNotFound)
  /\ fst (run (Vdc_FindVAppByName "app-1") (fixture_vdc c) [])
    = Val (zero_value KVApp, Some (Errorf "can't find vApp: %s" [ArgString "app-1"])).
Proof.
  pose (c := fixture_client (listing_server fixture_vdc_doc [])).
  pose proof (proj1 (@missing_entity_is_not_found_only_for_the_lookups
                       c fixture_vdc_doc fixture_vdc_doc "app-1" []
                       (fun _ => eq_refl))
                (fun x (Hin : In x []) => match Hin with end)) as [Hget Hfind].
  split; [exact (f_equal fst Hget) | exact (f_equal fst Hfind)].
Defined.

(* ================================================================= *)
(** ** A vApp by its ID *)

Example SplitAfter_examples :
  SplitAfter "urn:vcloud:vapp:7" ":" = ["urn:"; "vcloud:"; "vapp:"; "7"]
  /\ SplitAfter "a," "," = ["a,"; ""]
  /\ SplitAfter "" "," = [""]
  /\ SplitAfter "abc" "," = ["abc"]
  /\ SplitAfter "a--b--c" "--" = ["a--"; "b--"; "c"]
  /\ SplitAfter "aaa" "aa" = ["aa"; "a"]
  /\ SplitAfter "--" "-" = ["-"; "-"; ""].
Proof. repeat split; reflexivity. Qed.

(** [strings.SplitAfter] on a separator of one byte, one byte at a time. *)
Lemma SplitAfter_step (a c : Ascii.ascii) (s : string) :
  SplitAfter (String a s) (String c "") =
  if Ascii.eqb a c
  then String a "" :: SplitAfter s (String c "")
  else match SplitAfter s (String c "") with
       | piece :: pieces => String a piece :: pieces
       | [] => [String a ""]
       end.
Proof.
  unfold SplitAfter. cbn [split_after Nat.eqb andb String.prefix String.length].
  destruct (Ascii.ascii_dec c a) as [-> | Hne].
  - rewrite Ascii.eqb_refl. destruct s; reflexivity.
  - destruct (Ascii.eqb_spec a c) as [-> | _]; [contradiction Hne; reflexivity|].
    reflexivity.
Qed.

Lemma SplitAfter_not_nil (s : string) (c : Ascii.ascii) :
  SplitAfter s (String c "") <> [].
Proof.
  destruct s as [| a s]; [discriminate|].
  rewrite SplitAfter_step. destruct (Ascii.eqb a c); [discriminate|].
  destruct (SplitAfter s (String c "")); discriminate.
Qed.

Lemma string_app_nil_r (s : string) : (s ++ "")%string = s.
Proof. induction s as [| a s IH]; cbn; [| rewrite IH]; reflexivity. Qed.






(** Reading the ID off an HREF always gives an answer. *)
Lemma href_id_total S (href : string) (w : World S) :
  exists id, href_id href w = (Val id, w).
Proof.
  unfold href_id, at_index, slice_list_from.
  destruct (nth_error (SplitAfter href "/") _) as [last |] eqn:El.
  - go.
    match goal with
    | |- context [SplitAfter last (String ?c "")] =>
        pose proof (SplitAfter_not_nil last c) as Hne
    end.
    destruct (SplitAfter last "-") as [| p ps]; [contradiction|].
    cbn [List.length Nat.leb skipn]. eexists. reflexivity.
  - exfalso. apply nth_error_None in El.
    match type of El with
    | (List.length (SplitAfter href (String ?c "")) <= _)%nat =>
        pose proof (SplitAfter_not_nil href c) as Hne
    end.
    destruct (SplitAfter href "/"); [contradiction | cbn in El; lia].
Qed.

Section FindVAppByID.
Context `{Externals}.

End FindVAppByID.


(** An ID that ends in ":" is taken for the ID of any vApp whose HREF has
    no "-" in its last segment. *)
Example FindVAppByID_without_uuid :
  let legacy :=
    types.mkVdc "https://vcd.example.org/api/vdc/2" "urn:vcloud:vdc:2" "vdc-2" [] []
      [types.mkResourceEntities
         [types.mkResourceReference "https://vcd.example.org/api/vApp/legacy"
            "application/vnd.vmware.vcloud.vApp+xml" "urn:vcloud:vapp:9" "app-9"]] in
  let c := fixture_client (listing_server legacy []) in
  requests_in (trace_of (run (Vdc_FindVAppByID "urn:vcloud:vapp:") (fixture_vdc c) []))
  = [mkRequest "GET" "https://vcd.example.org/api/vdc/2" "" "error refreshing vDC: %s"
       [] None;
     mkRequest "GET" "https://vcd.example.org/api/vApp/legacy" ""
       "error retrieving vApp: %s" [] None].
Proof. reflexivity. Qed.

(* ================================================================= *)
(** ** Lookups only read *)

Lemma reads_only_lookup k s identifier refresh :
  reads_only (EvLookup k s identifier refresh).
Proof. exact I. Qed.

Lemma reads_only_sleep ms : reads_only (EvSleep ms).
Proof. exact I. Qed.

Section ReadsOnly.
Context `{Externals}.

Lemma reads_only_ExecuteRequest S cli a c' d k out :
  emits reads_only (@ExecuteRequest S cli a MethodGet c' d None k out).
Proof.
  unfold ExecuteRequest. emits_auto. split; reflexivity.
Qed.
#[local] Hint Resolve reads_only_ExecuteRequest reads_only_lookup reads_only_sleep : emits.

Lemma reads_only_ExecuteRequestInto S k cli a c' d (x : Wrapper k) :
  emits reads_only (@ExecuteRequestInto S k cli a MethodGet c' d None x).
Proof. unfold ExecuteRequestInto. emits_auto. Qed.
#[local] Hint Resolve reads_only_ExecuteRequestInto : emits.

Lemma reads_only_Org_Refresh : emits reads_only Org.Refresh.
Proof. unfold Org.Refresh, Org.receiver. emits_auto. Qed.

Lemma reads_only_Vdc_Refresh : emits reads_only Vdc.Refresh.
Proof. unfold Vdc.Refresh, Vdc.receiver. emits_auto. Qed.
#[local] Hint Resolve reads_only_Org_Refresh reads_only_Vdc_Refresh : emits.

Lemma reads_only_retry_edge_gateway steps : forall i href edge err,
  emits reads_only (Vdc.retry_edge_gateway steps i href edge err).
Proof.
  induction steps as [| steps IH]; intros; cbn [Vdc.retry_edge_gateway];
    unfold Vdc.receiver; emits_auto.
Qed.
#[local] Hint Resolve reads_only_retry_edge_gateway : emits.

Lemma reads_only_href_id S href : emits reads_only (@href_id S href).
Proof.
  intros w. destruct (href_id_total href w) as [id ->]. exists [].
  rewrite app_nil_r. split; [reflexivity | constructor].
Qed.
#[local] Hint Resolve reads_only_href_id : emits.

Ltac reads := unfold Org.receiver, Vdc.receiver, CatalogItem.receiver,
  Vdc.range_networks, Vdc.range_resources, at_index; emits_auto.

(** X15.  The lookups of the org file only read: whatever the org, the
    arguments and the server's answers, every request they make has
    method GET and no body, and they never go through the versioned
    transport. *)
Theorem org_lookups_only_read (name id href : string) (refresh : bool) :
  emits reads_only Org.Refresh
  /\ emits reads_only (Org.FindCatalog name)
  /\ emits reads_only (Org.GetVdcByName name)
  /\ emits reads_only (Org.GetCatalogByHref href)
  /\ emits reads_only (Org.GetCatalogByName name refresh)
  /\ emits reads_only (Org.GetCatalogById id refresh)
  /\ emits reads_only (Org.GetVDCByHref href)
  /\ emits reads_only (Org.GetVDCByName name refresh)
  /\ emits reads_only (Org.GetVDCById id refresh).
Proof.
  assert (Hch : forall h, emits reads_only (Org.GetCatalogByHref h))
    by (intros; unfold Org.GetCatalogByHref; reads).
  assert (Hvh : forall h, emits reads_only (Org.GetVDCByHref h))
    by (intros; unfold Org.GetVDCByHref; reads).
  repeat apply conj; auto with emits nocore.
  - unfold Org.FindCatalog; reads.
  - unfold Org.GetVdcByName; reads.
  - unfold Org.GetCatalogByName; reads.
  - unfold Org.GetCatalogById; reads.
  - unfold Org.GetVDCByName; reads.
  - unfold Org.GetVDCById; reads.
Qed.

(** X16.  The lookups and listings of the vdc file, and the read of the
    vApp template of a catalog item, only read: whatever the receiver,
    the arguments and the server's answers, every request they make has
    method GET and no body, and they never go through the versioned
    transport.  Besides that they only sleep (between the attempts of a
    retried read). *)
Theorem vdc_lookups_only_read
    (name id href : string) (refresh : bool) (url : URL) (MimeVApp : string) :
  emits reads_only Vdc.Refresh
  /\ emits reads_only (Vdc.getVdcVAppbyHREF url)
  /\ emits reads_only (Vdc.FindVDCNetwork name)
  /\ emits reads_only (Vdc.GetOrgVdcNetworkByHref href)
  /\ emits reads_only (Vdc.GetOrgVdcNetworkByName name refresh)
  /\ emits reads_only (Vdc.GetOrgVdcNetworkById id refresh)
  /\ emits reads_only (Vdc.FindEdgeGateway name)
  /\ emits reads_only (Vdc.GetEdgeGatewayByHref href)
  /\ emits reads_only (Vdc.GetEdgeGatewayRecordsType refresh)
  /\ emits reads_only (Vdc.GetEdgeGatewayByName name refresh)
  /\ emits reads_only (Vdc.GetEdgeGatewayById id refresh)
  /\ emits reads_only (Vdc.GetVAppByHref href)
  /\ emits reads_only (Vdc.GetVAppByName name refresh)
  /\ emits reads_only (Vdc.GetVAppById id refresh)
  /\ emits reads_only (Vdc_FindVAppByName name)
  /\ emits reads_only (Vdc_FindVAppByID id)
  /\ emits reads_only (Vdc_getLinkHref name id)
  /\ emits reads_only (Vdc_GetVappList MimeVApp)
  /\ emits reads_only CatalogItem.GetVAppTemplate.
Proof.
  assert (Hnh : forall h, emits reads_only (Vdc.GetOrgVdcNetworkByHref h))
    by (intros; unfold Vdc.GetOrgVdcNetworkByHref; reads).
  assert (Hah : forall h, emits reads_only (Vdc.GetVAppByHref h))
    by (intros; unfold Vdc.GetVAppByHref; reads).
  assert (Heh : forall h, emits reads_only (Vdc.GetEdgeGatewayByHref h))
    by (intros; unfold Vdc.GetEdgeGatewayByHref; reads).
  assert (Her : forall f, emits reads_only (Vdc.GetEdgeGatewayRecordsType f))
    by (intros; unfold Vdc.GetEdgeGatewayRecordsType; reads).
  repeat apply conj; auto with emits nocore.
  - unfold Vdc.getVdcVAppbyHREF; reads.
  - unfold Vdc.FindVDCNetwork; reads.
  - unfold Vdc.GetOrgVdcNetworkByName; reads.
  - unfold Vdc.GetOrgVdcNetworkById; reads.
  - unfold Vdc.FindEdgeGateway; reads.
  - unfold Vdc.GetEdgeGatewayByName; reads.
  - unfold Vdc.GetEdgeGatewayById; reads.
  - unfold Vdc.GetVAppByName; reads.
  - unfold Vdc.GetVAppById; reads.
  - unfold Vdc_FindVAppByName; reads.
  - unfold Vdc_FindVAppByID; reads.
  - unfold Vdc_getLinkHref; reads.
  - unfold Vdc_GetVappList; reads.
  - unfold CatalogItem.GetVAppTemplate; reads.
Qed.
End ReadsOnly.

(** Deleting a VDC is not a read. *)
Example Vdc_Delete_is_not_a_read :
  ~ emits reads_only (Vdc.Delete (H := fixture_externals) true true).
Proof.
  intros Hm.
  destruct (Hm (mkWorld (fixture_vdc (fixture_client
                           (flaky_server edge_href 0 transient_error))) []))
    as [evs [Ht Hf]].
  cbn in Ht. subst evs. inversion Hf as [| ev evs' Hev _]. destruct Hev as [Hget _].
  discriminate Hget.
Qed.

(* ================================================================= *)
(** ** A refresh that fails *)

Section StoppedByRefresh.
Context `{Externals}.


End StoppedByRefresh.


(* ================================================================= *)
(** ** Guards and addresses *)

Section EmptyId.
Context `{Externals}.

(** X18.  Reading a compute policy by an empty ID, and updating or
    deleting a policy whose ID is empty, is refused: after the
    compatibility check the operation returns an error (the check's, or
    its own when the check passes) and makes no request at all. *)
Theorem compute_policy_operations_refuse_an_empty_id
    S (c : Client) (w : World S) (name href : string) (tr : Trace) :
  let refusal (message : string) : error_value :=
    match snd (compat c policies_endpoint) with
    | Some e => e
    | None => Errorf message []
    end in
  let policy :=
    mkVdcComputePolicy (Some (types.mkVdcComputePolicy "" name)) href (Some c) in
  govcd.getVdcComputePolicyById (Some c) "" w
    = (Val (None, Some (refusal "empty VDC id")),
       mkWorld (self w) (trace w ++ [EvCompat policies_endpoint]))
  /\ run VdcComputePolicy.Update policy tr
    = (Val (None, Some (refusal "cannot update VDC compute policy without ID")),
       mkWorld policy (tr ++ [EvCompat policies_endpoint]))
  /\ run VdcComputePolicy.Delete policy tr
    = (Val (Some (refusal "cannot delete VDC compute policy without id")),
       mkWorld policy (tr ++ [EvCompat policies_endpoint])).
Proof.
  cbv zeta.
  unfold govcd.getVdcComputePolicyById, VdcComputePolicy.Update,
    VdcComputePolicy.Delete, VdcComputePolicy.receiver.
  fold policies_endpoint. destruct w as [s trw].
  openapi_go.
  destruct (compat c policies_endpoint) as [ver [e |]]; repeat split.
Qed.
End EmptyId.

Lemma substring_all (s : string) : substring 0 (String.length s) s = s.
Proof. induction s as [| a s IH]; cbn; [| rewrite IH]; reflexivity. Qed.

Lemma substring_after_prefix (p s : string) :
  substring (String.length p) (String.length (p ++ s) - String.length p) (p ++ s) = s.
Proof.
  induction p as [| a p IH]; cbn [String.append String.length substring].
  - rewrite Nat.sub_0_r. apply substring_all.
  - exact IH.
Qed.

Lemma string_length_app (p s : string) :
  String.length (p ++ s) = (String.length p + String.length s)%nat.
Proof. induction p as [| a p IH]; cbn; [| rewrite IH]; reflexivity. Qed.

Section CatalogItemUrl.
Context `{Externals}.

(** X19.  For a catalog item whose ID is a 23-character prefix (such
    as [urn:vcloud:catalogitem:]) followed by a UUID, [CatalogItem.Delete]
    makes exactly one request, a DELETE of the API root followed by
    [/catalogItem/] and that UUID, and returns the outcome of that
    request. *)
Theorem CatalogItem_Delete_addresses_the_item_by_the_rest_of_its_id
    (c : Client) (item : types.CatalogItem) (tr : Trace) (prefix uuid : string) :
  String.length prefix = 23%nat ->
  types.CatalogItem_ID item = (prefix ++ uuid)%string ->
  let url := mkURL (Scheme (VCDHREF c)) (Host (VCDHREF c))
               (Path (VCDHREF c) ++ "/catalogItem/" ++ uuid)%string in
  let ev := EvRequest (mkRequest MethodDelete (URL_String url) ""
                         "error deleting Catalog item: %s" [] None) in
  run CatalogItem.Delete (mkWrapper (k := KCatalogItem) (Some item) (Some c)) tr
  = (Val (status (Http c) tr ev),
     mkWorld (mkWrapper (k := KCatalogItem) (Some item) (Some c)) (tr ++ [ev])).
Proof.
  intros Hlen Hid url ev. subst url ev.
  unfold CatalogItem.Delete, CatalogItem.receiver, slice_from. go.
  rewrite Hid, <- Hlen, substring_after_prefix.
  destruct (Nat.leb_spec (String.length prefix) (String.length (prefix ++ uuid)))
    as [_ | Hlt]; [reflexivity|].
  rewrite string_length_app in Hlt. lia.
Qed.
End CatalogItemUrl.

(** The ID of a catalog item as the API gives it. *)
Lemma CatalogItem_Delete_addresses_the_item_by_the_rest_of_its_id_witness :
  let c := fixture_client (flaky_server edge_href 0 transient_error) in
  let id := "urn:vcloud:catalogitem:7c9b5d34-0000-4000-8000-000000000009" in
  String.length "urn:vcloud:catalogitem:" = 23%nat
  /\ requests_in
       (trace_of (run (CatalogItem.Delete (H := fixture_externals))
                    (fixture_catalog_item id c) []))
     = [mkRequest "DELETE"
          "https://vcd.example.org/api/catalogItem/7c9b5d34-0000-4000-8000-000000000009"
          "" "error deleting Catalog item: %s" [] None].
Proof.
  split; [reflexivity|].
  exact (f_equal (fun r => requests_in (trace_of r))
           (@CatalogItem_Delete_addresses_the_item_by_the_rest_of_its_id
              fixture_externals
              (fixture_client (flaky_server edge_href 0 transient_error))
              (types.mkCatalogItem "https://vcd.example.org/api/catalogItem/9"
                 "urn:vcloud:catalogitem:7c9b5d34-0000-4000-8000-000000000009" "item-9"
                 (Some (types.mkEntity "https://vcd.example.org/api/vAppTemplate/9"
                          "tpl-9")))
              [] "urn:vcloud:catalogitem:" "7c9b5d34-0000-4000-8000-000000000009"
              eq_refl eq_refl)).
Defined.

Section CreateCatalog.
Context `{Externals}.

Lemma last_add_catalog_link (pre post : list types.Link) (link : types.Link) :
  is_add_catalog_link link = true ->
  (forall l, In l post -> is_add_catalog_link l = false) ->
  forall found,
  fold_left (fun (found : option types.Link) l =>
               if (types.Link_Rel l =? "add") && (types.Link_Type l =? MimeAdminCatalog)
               then Some l else found)
            (pre ++ link :: post) found
  = Some link.
Proof.
  unfold is_add_catalog_link. intros Hl Hpost found.
  rewrite fold_left_app. cbn [fold_left]. rewrite Hl. clear Hl.
  generalize link.
  induction post as [| x post IH]; intros l0; [reflexivity|].
  cbn [fold_left]. rewrite (Hpost x (or_introl eq_refl)).
  apply IH. intros y Hy. apply Hpost. right. exact Hy.
Qed.

(** X20.  Creating a catalog posts to the last link of the org that has
    rel "add" and the admin catalog type (the loop over the links has no
    break), with the name, description and storage profiles in the body.
    The package-level function returns the admin catalog decoded from the
    answer, or on failure an empty one next to the error; the method of
    [Org] returns the catalog inside it with the org's client, or no
    catalog and the error. *)
Theorem CreateCatalog_posts_to_the_last_add_link
    (c : Client) (o : types.Org) (Name Description : string)
    (storageProfiles : option types.CatalogStorageProfiles) (tr : Trace)
    (pre post : list types.Link) (link : types.Link) :
  types.Org_Link o = pre ++ link :: post ->
  is_add_catalog_link link = true ->
  (forall l, In l post -> is_add_catalog_link l = false) ->
  let org : Org := mkWrapper (k := KOrg) (Some o) (Some c) in
  let request :=
    create_catalog_request (types.Link_HREF link) Name Description storageProfiles in
  let after := mkWorld org (tr ++ [request]) in
  run (govcd.CreateCatalogWithStorageProfile (Some c) (types.Org_Link o)
         Name Description storageProfiles) org tr
  = (match answer (Http c) KAdminCatalog tr request with
     | inl e => Val (Some (NewAdminCatalog (Some c)), Some e)
     | inr d => Val (Some (mkWrapper (k := KAdminCatalog) (Some d) (Some c)), None)
     end, after)
  /\ run (Org.CreateCatalogWithStorageProfile Name Description storageProfiles) org tr
  = (match answer (Http c) KAdminCatalog tr request with
     | inl e => Val (None, Some e)
     | inr d =>
         Val (Some (mkWrapper (k := KCatalog) (Some (types.AdminCatalog_Catalog d))
                      (Some c)), None)
     end, after).
Proof.
  intros Hlinks Hlink Hpost org request after. subst org request after.
  unfold Org.CreateCatalogWithStorageProfile, Org.receiver,
    govcd.CreateCatalogWithStorageProfile, create_catalog_request.
  split; go; rewrite Hlinks, (@last_add_catalog_link pre post link Hlink Hpost); go;
    destruct (answer (Http c) KAdminCatalog _ _); reflexivity.
Qed.
End CreateCatalog.

(** On an org with two links that create catalogs, the second one is
    used. *)
Lemma CreateCatalog_posts_to_the_last_add_link_witness :
  let c := fixture_client (flaky_server edge_href 0 transient_error) in
  requests_in
    (trace_of (run (Org.CreateCatalogWithStorageProfile (H := fixture_externals)
                      "cat-9" "nine" None)
                 (fixture_org_with_add_links c) []))
  = [mkRequest "POST" "https://vcd.example.org/api/admin/org/1/catalogs-v2"
       "application/vnd.vmware.admin.catalog+xml" "error creating catalog: %s" []
       (Some (existT doc KAdminCatalog
                (types.mkAdminCatalog "http://www.vmware.com/vcloud/v1.5"
                   (types.mkCatalog "" "" "cat-9" "nine") None)))].
Proof.
  exact (f_equal (fun r => requests_in (trace_of r))
           (proj2 (@CreateCatalog_posts_to_the_last_add_link fixture_externals
                     (fixture_client (flaky_server edge_href 0 transient_error))
                     (types.mkOrg "https://vcd.example.org/api/org/1" "org-1"
                        [types.mkLink "add" "application/vnd.vmware.admin.catalog+xml"
                           "" "https://vcd.example.org/api/admin/org/1/catalogs" "";
                         types.mkLink "add" "application/vnd.vmware.admin.catalog+xml"
                           "" "https://vcd.example.org/api/admin/org/1/catalogs-v2" ""])
                     "cat-9" "nine" None []
                     [types.mkLink "add" "application/vnd.vmware.admin.catalog+xml"
                        "" "https://vcd.example.org/api/admin/org/1/catalogs" ""]
                     []
                     (types.mkLink "add" "application/vnd.vmware.admin.catalog+xml"
                        "" "https://vcd.example.org/api/admin/org/1/catalogs-v2" "")
                     eq_refl eq_refl
                     (fun l (Hin : In l []) => match Hin with end)))).
Defined.

Section Endpoint.
Context `{Externals}.

(** X21.  [buildNsxvNetworkServiceEndpointURL] with a suffix returns
    what it returns without one followed by the suffix; whether it fails
    (or panics) does not depend on the suffix, and it makes no
    request. *)
Theorem NsxvNetworkServiceEndpointURL_appends_the_suffix
    (optionalSuffix : string) (vdc : Vdc) (tr : Trace) :
  run (Vdc_buildNsxvNetworkServiceEndpointURL optionalSuffix) vdc tr
  = match run (Vdc_buildNsxvNetworkServiceEndpointURL "") vdc tr with
    | (Val (base, None), w) => (Val ((base ++ optionalSuffix)%string, None), w)
    | r => r
    end.
Proof.
  unfold Vdc_buildNsxvNetworkServiceEndpointURL, Vdc.receiver.
  destruct vdc as [[v |] cl]; go; [| reflexivity].
  destruct (ParseRequestURI (types.Vdc_HREF v)) as [[u |] [e |]]; try reflexivity.
  cbn [String.eqb negb].
  destruct (String.eqb_spec optionalSuffix "") as [-> | _]; cbn [negb];
    [rewrite string_app_nil_r |]; reflexivity.
Qed.
End Endpoint.

(* ================================================================= *)
(** ** How many requests a lookup makes *)

Section AtMost.
Context {S : Type}.

Lemma at_most_mono A n n' (m : M S A) : (n <= n')%nat -> at_most n m -> at_most n' m.
Proof. intros Hn Hm w. specialize (Hm w). lia. Qed.

Lemma at_most_ret A n (a : A) : at_most n (ret a : M S A).
Proof. intros w. cbn. lia. Qed.

Lemma at_most_panic A n r : at_most n (panic r : M S A).
Proof. intros w. cbn. lia. Qed.

Lemma at_most_deref A n (p : option A) : at_most n (deref p : M S A).
Proof. destruct p; [apply at_most_ret | apply at_most_panic]. Qed.

Lemma at_most_get_self n : at_most n (get_self : M S S).
Proof. intros w. cbn. lia. Qed.

Lemma at_most_bind A B n1 n2 (m : M S A) (k : A -> M S B) :
  at_most n1 m -> (forall a, at_most n2 (k a)) -> at_most (n1 + n2) (bind m k).
Proof.
  intros Hm Hk w. unfold bind. specialize (Hm w).
  destruct (m w) as [[a | r |] w1]; cbn [snd] in *; try lia.
  specialize (Hk a w1). lia.
Qed.

Lemma at_most_emit_lookup n kd s identifier refresh :
  at_most n (emit (EvLookup kd s identifier refresh) : M S unit).
Proof. intros w. cbn. rewrite requests_in_app, length_app. cbn. lia. Qed.

Lemma at_most_Sleep n ms : at_most n (Sleep ms : M S unit).
Proof. intros w. cbn. rewrite requests_in_app, length_app. cbn. lia. Qed.

Lemma at_most_ExecuteRequest cli a b c' d pl k out :
  at_most 1 (@ExecuteRequest S cli a b c' d pl k out).
Proof.
  intros [s tr]. destruct cli as [c |]; go; [| lia].
  destruct (answer _ _ _ _); cbn; rewrite requests_in_app, length_app; cbn; lia.
Qed.

Lemma at_most_ExecuteRequestInto k cli a b c' d pl (x : Wrapper k) :
  at_most 1 (@ExecuteRequestInto S k cli a b c' d pl x).
Proof.
  unfold ExecuteRequestInto.
  apply (at_most_bind (n1 := 0) (n2 := 1)); [apply at_most_deref | intros out].
  apply (at_most_bind (n1 := 1) (n2 := 0)); [apply at_most_ExecuteRequest |].
  intros [d0 err]. apply at_most_ret.
Qed.

Lemma returns_within_continue R n : returns_within n (Continue : M S (option R)).
Proof. intros w. left. reflexivity. Qed.

Lemma final_within_return R n (v : R) : final_within n (Return v : M S (option R)).
Proof. intros w. split; [discriminate | cbn; lia]. Qed.

Lemma final_within_bind A R n1 n2 (m : M S A) (k : A -> M S (option R)) :
  at_most n1 m -> (forall a, final_within n2 (k a)) ->
  final_within (n1 + n2) (bind m k).
Proof.
  intros Hm Hk w. unfold bind. specialize (Hm w).
  destruct (m w) as [[a | r |] w1]; cbn [fst snd] in *;
    try (split; [discriminate | lia]).
  destruct (Hk a w1) as [Hne Hle]. split; [exact Hne | lia].
Qed.

Lemma returns_within_final R n (m : M S (option R)) :
  final_within n m -> returns_within n m.
Proof. intros Hm w. right. apply Hm. Qed.

Lemma returns_within_for_range A R n (l : list A) (body : A -> M S (option R)) :
  (forall x, returns_within n (body x)) -> returns_within n (for_range l body).
Proof.
  intros Hb. induction l as [| x l IH]; intros w; cbn [for_range].
  - left. reflexivity.
  - unfold bind. destruct (Hb x w) as [E | [Hne Hle]].
    + rewrite E. apply IH.
    + right. destruct (body x w) as [[[v |] | r |] w1]; cbn [fst snd] in *;
        [split; [discriminate | exact Hle] | contradiction Hne; reflexivity
        | split; [discriminate | exact Hle] | split; [discriminate | exact Hle]].
Qed.

Lemma at_most_of_returns_within R n (m : M S (option R)) :
  returns_within n m -> at_most n m.
Proof.
  intros Hm w. destruct (Hm w) as [E | [_ Hle]]; [rewrite E; cbn; lia | exact Hle].
Qed.

(** A loop, and then the code after it when the loop has fallen
    through. *)
Lemma at_most_loop_or_after A R n (l : list A) (body : A -> M S (option R))
    (after : M S R) :
  (forall x, returns_within n (body x)) ->
  (forall w, trace (snd (after w)) = trace w) ->
  at_most n (returned <- for_range l body ;; or_after returned after).
Proof.
  intros Hb Ha.
  replace n with (n + 0)%nat by lia.
  apply at_most_bind.
  - apply at_most_of_returns_within, returns_within_for_range, Hb.
  - intros [v |]; cbn [or_after]; [apply at_most_ret |].
    intros w. rewrite Ha. lia.
Qed.
End AtMost.

Section FewRequests.
Context `{Externals}.

Ltac bound a b := apply (at_most_bind (n1 := a) (n2 := b)).
Ltac final a b := apply (final_within_bind (n1 := a) (n2 := b)).

Lemma at_most_Org_Refresh : at_most 1 Org.Refresh.
Proof.
  unfold Org.Refresh, Org.receiver. bound 0%nat 1%nat; [apply at_most_get_self |].
  intros org. destruct (is_zero_value org); [apply at_most_ret |].
  bound 0%nat 1%nat; [apply at_most_deref | intros o].
  bound 1%nat 0%nat; [apply at_most_ExecuteRequest | intros [d [e |]]].
  - apply at_most_ret.
  - intros [s tr]. go. cbn. lia.
Qed.

Lemma at_most_Vdc_Refresh : at_most 1 Vdc.Refresh.
Proof.
  unfold Vdc.Refresh, Vdc.receiver. bound 0%nat 1%nat; [apply at_most_get_self |].
  intros vdc. bound 0%nat 1%nat; [apply at_most_deref | intros v].
  destruct (types.Vdc_HREF v =? ""); [apply at_most_ret |].
  bound 1%nat 0%nat; [apply at_most_ExecuteRequest | intros [d [e |]]].
  - apply at_most_ret.
  - intros [s tr]. go. cbn. lia.
Qed.

Lemma at_most_optional_refresh S (refresh : bool) (m : M S error) :
  at_most 1 m -> at_most 1 (if refresh then m else ret None).
Proof. intros Hm. destruct refresh; [exact Hm | apply at_most_ret]. Qed.

(** A fetch by HREF that hands back an entity or an error. *)
Ltac fetch :=
  bound 0%nat 1%nat; [apply at_most_get_self | intros ?];
  bound 1%nat 0%nat; [apply at_most_ExecuteRequestInto | intros [? [? |]]];
  apply at_most_ret.

Lemma at_most_GetCatalogByHref href : at_most 1 (Org.GetCatalogByHref href).
Proof. unfold Org.GetCatalogByHref, Org.receiver. fetch. Qed.

Lemma at_most_GetVDCByHref href : at_most 1 (Org.GetVDCByHref href).
Proof. unfold Org.GetVDCByHref, Org.receiver. fetch. Qed.

Lemma at_most_GetVAppByHref href : at_most 1 (Vdc.GetVAppByHref href).
Proof. unfold Vdc.GetVAppByHref, Vdc.receiver. fetch. Qed.

Lemma at_most_GetOrgVdcNetworkByHref href :
  at_most 1 (Vdc.GetOrgVdcNetworkByHref href).
Proof.
  unfold Vdc.GetOrgVdcNetworkByHref, Vdc.receiver.
  bound 0%nat 1%nat; [apply at_most_get_self | intros ?].
  bound 1%nat 0%nat; [apply at_most_ExecuteRequestInto | intros [? ?]].
  apply at_most_ret.
Qed.

Lemma at_most_retry_edge_gateway steps : forall i href edge err,
  at_most steps (Vdc.retry_edge_gateway steps i href edge err).
Proof.
  induction steps as [| steps IH]; intros; cbn [Vdc.retry_edge_gateway];
    destruct ((i <? 4)%Z && is_error err); try apply at_most_ret.
  - intros w. cbn. lia.
  - unfold Vdc.receiver.
    bound 0%nat (Datatypes.S steps); [apply at_most_get_self | intros ?].
    bound 0%nat (Datatypes.S steps); [apply at_most_Sleep | intros ?].
    bound 1%nat steps; [apply at_most_ExecuteRequestInto | intros [? ?]].
    apply IH.
Qed.

Lemma at_most_GetEdgeGatewayByHref href : at_most 4 (Vdc.GetEdgeGatewayByHref href).
Proof.
  unfold Vdc.GetEdgeGatewayByHref, Vdc.receiver.
  destruct (href =? ""); [apply at_most_ret |].
  bound 0%nat 4%nat; [apply at_most_get_self | intros ?].
  bound 1%nat 3%nat; [apply at_most_ExecuteRequestInto | intros [edge [e |]]].
  - bound 3%nat 0%nat; [apply at_most_retry_edge_gateway | intros [? [? |]]];
      apply at_most_ret.
  - bound 0%nat 3%nat; [apply at_most_ret | intros [? [? |]]]; apply at_most_ret.
Qed.

(** A lookup: the entry, the optional refresh, then a search that makes
    at most [n] requests. *)
Lemma at_most_lookup S A n kd s identifier flag (refresh : M S error)
    (failed : error_value -> A) (search : M S A) :
  at_most 1 refresh -> at_most n search ->
  at_most (1 + n)
    (emit (EvLookup kd s identifier flag) ;;
     err <- refresh ;;
     match err with
     | Some e => ret (failed e)
     | None => search
     end).
Proof.
  intros Hr Hs.
  apply (at_most_bind (n1 := 0) (n2 := 1 + n)); [apply at_most_emit_lookup | intros _].
  apply at_most_bind; [exact Hr | intros [e |]]; [apply at_most_ret | exact Hs].
Qed.

(** The search of a listing held by the receiver. *)
Ltac search_listing :=
  bound 0%nat 1%nat; [apply at_most_get_self | intros ?];
  bound 0%nat 1%nat; [apply at_most_deref | intros ?];
  apply at_most_loop_or_after; [| reflexivity].

Ltac one_fetch n lemma :=
  match goal with
  | |- returns_within _ (if ?c then _ else _) =>
      destruct c; [| apply returns_within_continue];
      apply returns_within_final; final n 0%nat;
      [apply lemma | intros ?; apply final_within_return]
  end.

(** X22.  Whatever the size of the listing and whatever the server
    answers, a lookup of the org file makes at most two requests: the
    refresh, when asked for, and the fetch of the one link it settles
    on.  The deprecated finders and the fetches by HREF make at most
    one. *)
Theorem org_lookups_make_at_most_two_requests
    (name id href : string) (refresh : bool) :
  at_most 1 Org.Refresh
  /\ at_most 1 (Org.GetCatalogByHref href)
  /\ at_most 1 (Org.GetVDCByHref href)
  /\ at_most 1 (Org.FindCatalog name)
  /\ at_most 1 (Org.GetVdcByName name)
  /\ at_most 2 (Org.GetCatalogByName name refresh)
  /\ at_most 2 (Org.GetCatalogById id refresh)
  /\ at_most 2 (Org.GetVDCByName name refresh)
  /\ at_most 2 (Org.GetVDCById id refresh).
Proof.
  repeat apply conj.
  - apply at_most_Org_Refresh.
  - apply at_most_GetCatalogByHref.
  - apply at_most_GetVDCByHref.
  - unfold Org.FindCatalog, Org.receiver. search_listing. intros link.
    destruct (_ && _); [| apply returns_within_continue].
    apply returns_within_final. final 1%nat 0%nat;
      [apply at_most_ExecuteRequestInto | intros [? ?]; apply final_within_return].
  - unfold Org.GetVdcByName, Org.receiver. search_listing. intros link.
    destruct (_ =? _); [| apply returns_within_continue].
    apply returns_within_final. final 1%nat 0%nat;
      [apply at_most_ExecuteRequestInto | intros [? ?]; apply final_within_return].
  - unfold Org.GetCatalogByName, Org.receiver.
    apply (at_most_lookup (n := 1));
      [apply at_most_optional_refresh, at_most_Org_Refresh |].
    search_listing. intros link. one_fetch 1%nat at_most_GetCatalogByHref.
  - unfold Org.GetCatalogById, Org.receiver.
    apply (at_most_lookup (n := 1));
      [apply at_most_optional_refresh, at_most_Org_Refresh |].
    search_listing. intros link. one_fetch 1%nat at_most_GetCatalogByHref.
  - unfold Org.GetVDCByName, Org.receiver.
    apply (at_most_lookup (n := 1));
      [apply at_most_optional_refresh, at_most_Org_Refresh |].
    search_listing. intros link. one_fetch 1%nat at_most_GetVDCByHref.
  - unfold Org.GetVDCById, Org.receiver.
    apply (at_most_lookup (n := 1));
      [apply at_most_optional_refresh, at_most_Org_Refresh |].
    search_listing. intros link. one_fetch 1%nat at_most_GetVDCByHref.
Qed.
Lemma returns_within_after_quiet S A R n (m : M S A) (k : A -> M S (option R)) :
  (forall w, exists a, m w = (Val a, w)) ->
  (forall a, returns_within n (k a)) ->
  returns_within n (bind m k).
Proof.
  intros Hm Hk w. unfold bind. destruct (Hm w) as [a ->]. apply Hk.
Qed.

Lemma at_most_at_index S A n (l : list A) (i : nat) : at_most n (at_index l i : M S A).
Proof.
  unfold at_index. destruct (nth_error l i); [apply at_most_ret | apply at_most_panic].
Qed.

Lemma at_most_GetEdgeGatewayRecordsType refresh :
  at_most 2 (Vdc.GetEdgeGatewayRecordsType refresh).
Proof.
  unfold Vdc.GetEdgeGatewayRecordsType, Vdc.receiver.
  bound 1%nat 1%nat; [apply at_most_optional_refresh, at_most_Vdc_Refresh |].
  intros [e |]; [apply at_most_ret |].
  search_listing. intros av.
  destruct (_ && _); [| apply returns_within_continue].
  apply returns_within_final. final 1%nat 0%nat; [apply at_most_ExecuteRequest |].
  intros [? [? |]]; apply final_within_return.
Qed.

(** The search of the records of an edge gateway lookup. *)
Ltac edge_lookup :=
  bound 0%nat 6%nat; [apply at_most_emit_lookup | intros _];
  bound 2%nat 4%nat; [apply at_most_GetEdgeGatewayRecordsType |];
  intros [? [? |]]; [apply at_most_ret |];
  bound 0%nat 4%nat; [apply at_most_deref | intros ?];
  apply at_most_loop_or_after; [| reflexivity];
  intros edge; one_fetch 4%nat at_most_GetEdgeGatewayByHref.

(** X23.  Whatever the size of the listing and whatever the server
    answers, a lookup of a vApp or of a network in the vdc file makes at
    most two requests (the refresh and one fetch), and a lookup of an
    edge gateway at most six: the refresh, the query for the records,
    and the four attempts of the retried read of one record. *)
Theorem vdc_lookups_make_few_requests
    (name id href : string) (refresh : bool) (url : URL) :
  at_most 1 Vdc.Refresh
  /\ at_most 1 (Vdc.getVdcVAppbyHREF url)
  /\ at_most 1 (Vdc.GetVAppByHref href)
  /\ at_most 1 (Vdc.GetOrgVdcNetworkByHref href)
  /\ at_most 2 (Vdc.GetVAppByName name refresh)
  /\ at_most 2 (Vdc.GetVAppById id refresh)
  /\ at_most 2 (Vdc.GetOrgVdcNetworkByName name refresh)
  /\ at_most 2 (Vdc.GetOrgVdcNetworkById id refresh)
  /\ at_most 2 (Vdc.FindVDCNetwork name)
  /\ at_most 2 (Vdc_FindVAppByName name)
  /\ at_most 2 (Vdc_FindVAppByID id)
  /\ at_most 2 (Vdc.GetEdgeGatewayRecordsType refresh)
  /\ at_most 4 (Vdc.GetEdgeGatewayByHref href)
  /\ at_most 6 (Vdc.GetEdgeGatewayByName name refresh)
  /\ at_most 6 (Vdc.GetEdgeGatewayById id refresh)
  /\ at_most 6 (Vdc.FindEdgeGateway name).
Proof.
  repeat apply conj.
  - apply at_most_Vdc_Refresh.
  - unfold Vdc.getVdcVAppbyHREF, Vdc.receiver.
    bound 0%nat 1%nat; [apply at_most_get_self | intros ?].
    bound 1%nat 0%nat; [apply at_most_ExecuteRequestInto | intros [? ?]].
    apply at_most_ret.
  - apply at_most_GetVAppByHref.
  - apply at_most_GetOrgVdcNetworkByHref.
  - unfold Vdc.GetVAppByName, Vdc.range_resources, Vdc.receiver.
    apply (at_most_lookup (n := 1));
      [apply at_most_optional_refresh, at_most_Vdc_Refresh |].
    search_listing. intros g. apply returns_within_for_range. intros r.
    one_fetch 1%nat at_most_GetVAppByHref.
  - unfold Vdc.GetVAppById, Vdc.range_resources, Vdc.receiver.
    apply (at_most_lookup (n := 1));
      [apply at_most_optional_refresh, at_most_Vdc_Refresh |].
    search_listing. intros g. apply returns_within_for_range. intros r.
    one_fetch 1%nat at_most_GetVAppByHref.
  - unfold Vdc.GetOrgVdcNetworkByName, Vdc.range_networks, Vdc.receiver.
    apply (at_most_lookup (n := 1));
      [apply at_most_optional_refresh, at_most_Vdc_Refresh |].
    search_listing. intros g. apply returns_within_for_range. intros r.
    one_fetch 1%nat at_most_GetOrgVdcNetworkByHref.
  - unfold Vdc.GetOrgVdcNetworkById, Vdc.range_networks, Vdc.receiver.
    apply (at_most_lookup (n := 1));
      [apply at_most_optional_refresh, at_most_Vdc_Refresh |].
    search_listing. intros g. apply returns_within_for_range. intros r.
    one_fetch 1%nat at_most_GetOrgVdcNetworkByHref.
  - unfold Vdc.FindVDCNetwork, Vdc.range_networks, Vdc.receiver.
    bound 1%nat 1%nat; [apply at_most_Vdc_Refresh | intros [e |]];
      [apply at_most_ret |].
    search_listing. intros g. apply returns_within_for_range. intros r.
    destruct (_ =? _); [| apply returns_within_continue].
    apply returns_within_final. final 1%nat 0%nat;
      [apply at_most_ExecuteRequestInto | intros [? ?]; apply final_within_return].
  - unfold Vdc_FindVAppByName, Vdc.range_resources, Vdc.receiver.
    bound 1%nat 1%nat; [apply at_most_Vdc_Refresh | intros [e |]];
      [apply at_most_ret |].
    search_listing. intros g. apply returns_within_for_range. intros r.
    destruct (_ && _); [| apply returns_within_continue].
    apply returns_within_final. final 1%nat 0%nat;
      [apply at_most_ExecuteRequestInto | intros [? ?]; apply final_within_return].
  - unfold Vdc_FindVAppByID, Vdc.range_resources, Vdc.receiver.
    bound 1%nat 1%nat; [apply at_most_Vdc_Refresh | intros [e |]];
      [apply at_most_ret |].
    bound 0%nat 1%nat; [apply at_most_at_index | intros urnid].
    search_listing. intros g. apply returns_within_for_range. intros r.
    apply returns_within_after_quiet; [intros w; apply href_id_total | intros res].
    destruct (_ && _); [| apply returns_within_continue].
    apply returns_within_final. final 1%nat 0%nat;
      [apply at_most_ExecuteRequestInto | intros [? ?]; apply final_within_return].
  - apply at_most_GetEdgeGatewayRecordsType.
  - apply at_most_GetEdgeGatewayByHref.
  - unfold Vdc.GetEdgeGatewayByName. edge_lookup.
  - unfold Vdc.GetEdgeGatewayById. edge_lookup.
  - unfold Vdc.FindEdgeGateway, Vdc.receiver.
    bound 1%nat 5%nat; [apply at_most_Vdc_Refresh | intros [e |]];
      [apply at_most_ret |].
    bound 0%nat 5%nat; [apply at_most_get_self | intros ?].
    bound 0%nat 5%nat; [apply at_most_deref | intros ?].
    apply at_most_loop_or_after; [| reflexivity]. intros av.
    destruct (_ && _); [| apply returns_within_continue].
    apply returns_within_final. final 1%nat 4%nat; [apply at_most_ExecuteRequest |].
    intros [query [e |]]; [apply final_within_return |].
    cbv zeta. destruct (_ =? ""); [apply final_within_return |].
    final 1%nat 3%nat; [apply at_most_ExecuteRequestInto | intros [edge err]].
    final 3%nat 0%nat; [| intros ?; apply final_within_return].
    destruct err; [apply at_most_retry_edge_gateway | apply at_most_ret].
Qed.
End FewRequests.

(** The bound of six is reached when every attempt fails. *)
Example GetEdgeGatewayByName_makes_six_requests :
  let c := fixture_client (flaky_server edge_href 9 transient_error) in
  let r := run (Vdc.GetEdgeGatewayByName (H := fixture_externals) "edge-7" true)
             (fixture_vdc c) [] in
  fst r = Val (None, Some transient_error)
  /\ List.length (requests_in (trace_of r)) = 6%nat.
Proof. split; reflexivity. Qed.

(* ================================================================= *)
(** ** What changes the object *)

Section KeepsSelf.
Context {S : Type}.

Lemma keeps_self_ret A (a : A) : keeps_self (ret a : M S A).
Proof. intros w. reflexivity. Qed.

Lemma keeps_self_panic A r : keeps_self (panic r : M S A).
Proof. intros w. reflexivity. Qed.

Lemma keeps_self_out_of_fuel A : keeps_self (out_of_fuel : M S A).
Proof. intros w. reflexivity. Qed.

Lemma keeps_self_deref A (p : option A) : keeps_self (deref p : M S A).
Proof. destruct p; [apply keeps_self_ret | apply keeps_self_panic]. Qed.

Lemma keeps_self_get_self : keeps_self (get_self : M S S).
Proof. intros w. reflexivity. Qed.

Lemma keeps_self_get_trace : keeps_self (get_trace : M S Trace).
Proof. intros w. reflexivity. Qed.

Lemma keeps_self_emit ev : keeps_self (emit ev : M S unit).
Proof. intros w. reflexivity. Qed.

Lemma keeps_self_bind A B (m : M S A) (k : A -> M S B) :
  keeps_self m -> (forall a, keeps_self (k a)) -> keeps_self (bind m k).
Proof.
  intros Hm Hk w. unfold bind. specialize (Hm w).
  destruct (m w) as [[a | r |] w1]; cbn [snd] in *; try exact Hm.
  rewrite (Hk a w1). exact Hm.
Qed.

Lemma keeps_self_for_range A R (l : list A) (body : A -> M S (option R)) :
  (forall x, keeps_self (body x)) -> keeps_self (for_range l body).
Proof.
  intros Hb. induction l as [| x l IH]; cbn [for_range].
  - apply keeps_self_ret.
  - apply keeps_self_bind; [apply Hb |]. intros [v |]; [apply keeps_self_ret | exact IH].
Qed.

(** Running a method of another object does not touch this one. *)
Lemma keeps_self_call_on T A (receiver : T) (m : M T A) :
  keeps_self (call_on receiver m : M S (A * T)).
Proof.
  intros w. unfold call_on. destruct (m _) as [[a | r |] w1]; reflexivity.
Qed.
End KeepsSelf.

Create HintDb keeps.

#[export] Hint Resolve keeps_self_ret keeps_self_panic keeps_self_out_of_fuel
  keeps_self_deref keeps_self_get_self keeps_self_get_trace keeps_self_emit
  keeps_self_call_on : keeps.

(** Decomposes a goal [keeps_self m] along the structure of [m]. *)
Ltac keeps_step :=
  first [ solve [auto with keeps nocore] |
  match goal with
  | |- keeps_self (bind _ _) => apply keeps_self_bind
  | |- keeps_self (Return _) => apply keeps_self_ret
  | |- keeps_self Continue => apply keeps_self_ret
  | |- keeps_self (Sleep _) => apply keeps_self_emit
  | |- keeps_self (for_range _ _) => apply keeps_self_for_range
  | |- keeps_self (or_after ?r _) => unfold or_after
  | |- keeps_self (match ?x with _ => _ end) => destruct x
  | |- keeps_self (let '(_, _) := ?x in _) => destruct x
  | |- forall _, _ => intro
  end ].

Ltac keeps_auto := repeat keeps_step.

Section KeepsObject.
Context `{Externals}.

Lemma keeps_self_ExecuteRequest S cli a b c' d pl k out :
  keeps_self (@ExecuteRequest S cli a b c' d pl k out).
Proof. unfold ExecuteRequest. keeps_auto. Qed.
#[local] Hint Resolve keeps_self_ExecuteRequest : keeps.

Lemma keeps_self_ExecuteRequestInto S k cli a b c' d pl (x : Wrapper k) :
  keeps_self (@ExecuteRequestInto S k cli a b c' d pl x).
Proof. unfold ExecuteRequestInto. keeps_auto. Qed.

Lemma keeps_self_ExecuteRequestWithoutResponse S cli a b c' d pl :
  keeps_self (@ExecuteRequestWithoutResponse S cli a b c' d pl).
Proof. unfold ExecuteRequestWithoutResponse. keeps_auto. Qed.

Lemma keeps_self_check S cli endpoint :
  keeps_self (@checkOpenApiEndpointCompatibility S cli endpoint).
Proof. unfold checkOpenApiEndpointCompatibility. keeps_auto. Qed.

Lemma keeps_self_OpenApiCall S cli method v u q pl k out :
  keeps_self (@OpenApiCall S cli method v u q pl k out).
Proof. unfold OpenApiCall. keeps_auto. Qed.

Lemma keeps_self_OpenApiDeleteItem S cli v u :
  keeps_self (@OpenApiDeleteItem S cli v u).
Proof. unfold OpenApiDeleteItem. keeps_auto. Qed.
#[local] Hint Resolve keeps_self_ExecuteRequestInto
  keeps_self_ExecuteRequestWithoutResponse keeps_self_check keeps_self_OpenApiCall
  keeps_self_OpenApiDeleteItem : keeps.

Lemma keeps_self_retry_edge_gateway steps : forall i href edge err,
  keeps_self (Vdc.retry_edge_gateway steps i href edge err).
Proof.
  induction steps as [| steps IH]; intros; cbn [Vdc.retry_edge_gateway];
    unfold Vdc.receiver; keeps_auto.
Qed.
#[local] Hint Resolve keeps_self_retry_edge_gateway : keeps.

Lemma keeps_self_slice_from S s low : keeps_self (@slice_from S s low).
Proof. unfold slice_from. keeps_auto. Qed.
#[local] Hint Resolve keeps_self_slice_from : keeps.

Ltac keeps := unfold Org.receiver, Vdc.receiver, CatalogItem.receiver,
  AdminOrg.receiver, AdminVdc.receiver, VdcComputePolicy.receiver,
  Vdc.range_networks, Vdc.range_resources,
  OpenApiGetItem, OpenApiGetAllItems, OpenApiPostItem, OpenApiPutItem;
  keeps_auto.

(** X24.  Only a refresh changes the object an operation is called on.
    The operations of the org, vdc and catalog item files that do not
    refresh (the lookups called without refresh, the fetches by HREF,
    the creation of a catalog, the deletion of a VDC with or without
    waiting, the deletion of a catalog item, the listings) leave the
    org, VDC or catalog item exactly as it was, whatever the server
    answers and also when they fail or panic. *)
Theorem only_a_refresh_changes_the_object
    (name id href description : string) (url : URL) (force recursive : bool)
    (storageProfiles : option types.CatalogStorageProfiles)
    (fuel : nat) (ctx : Ctx) (MimeVApp : string) :
  (keeps_self (Org.FindCatalog name)
   /\ keeps_self (Org.GetVdcByName name)
   /\ keeps_self (Org.CreateCatalogWithStorageProfile name description storageProfiles)
   /\ keeps_self (Org.CreateCatalog name description)
   /\ keeps_self (Org.GetCatalogByHref href)
   /\ keeps_self (Org.GetCatalogByName name false)
   /\ keeps_self (Org.GetCatalogById id false)
   /\ keeps_self (Org.GetVDCByHref href)
   /\ keeps_self (Org.GetVDCByName name false)
   /\ keeps_self (Org.GetVDCById id false))
  /\ (keeps_self (Vdc.getVdcVAppbyHREF url)
      /\ keeps_self (Vdc.Delete force recursive)
      /\ keeps_self (Vdc.DeleteWait fuel ctx force recursive)
      /\ keeps_self (Vdc.GetOrgVdcNetworkByHref href)
      /\ keeps_self (Vdc.GetOrgVdcNetworkByName name false)
      /\ keeps_self (Vdc.GetOrgVdcNetworkById id false)
      /\ keeps_self (Vdc.GetEdgeGatewayByHref href)
      /\ keeps_self (Vdc.GetEdgeGatewayRecordsType false)
      /\ keeps_self (Vdc.GetEdgeGatewayByName name false)
      /\ keeps_self (Vdc.GetEdgeGatewayById id false)
      /\ keeps_self (Vdc.GetVAppByHref href)
      /\ keeps_self (Vdc.GetVAppByName name false)
      /\ keeps_self (Vdc.GetVAppById id false)
      /\ keeps_self Vdc.GetCapabilities
      /\ keeps_self (Vdc_getLinkHref name id)
      /\ keeps_self (Vdc_GetVappList MimeVApp)
      /\ keeps_self (Vdc_buildNsxvNetworkServiceEndpointURL name))
  /\ (keeps_self CatalogItem.GetVAppTemplate
      /\ keeps_self CatalogItem.Delete).
Proof.
  assert (Hch : forall h, keeps_self (Org.GetCatalogByHref h))
    by (intros; unfold Org.GetCatalogByHref; keeps).
  assert (Hvh : forall h, keeps_self (Org.GetVDCByHref h))
    by (intros; unfold Org.GetVDCByHref; keeps).
  assert (Hcc : forall S cli links n d sp,
            keeps_self (@govcd.CreateCatalogWithStorageProfile _ S cli links n d sp))
    by (intros; unfold govcd.CreateCatalogWithStorageProfile; keeps).
  assert (Hoc : forall n d sp,
            keeps_self (Org.CreateCatalogWithStorageProfile n d sp))
    by (intros; unfold Org.CreateCatalogWithStorageProfile; keeps).
  assert (Hnh : forall h, keeps_self (Vdc.GetOrgVdcNetworkByHref h))
    by (intros; unfold Vdc.GetOrgVdcNetworkByHref; keeps).
  assert (Hah : forall h, keeps_self (Vdc.GetVAppByHref h))
    by (intros; unfold Vdc.GetVAppByHref; keeps).
  assert (Heh : forall h, keeps_self (Vdc.GetEdgeGatewayByHref h))
    by (intros; unfold Vdc.GetEdgeGatewayByHref; keeps).
  assert (Her : keeps_self (Vdc.GetEdgeGatewayRecordsType false))
    by (unfold Vdc.GetEdgeGatewayRecordsType; keeps).
  assert (Hd : forall f r, keeps_self (Vdc.Delete f r)).
  { intros f r [[d cl] tr]. unfold Vdc.Delete, Vdc.receiver. go.
    destruct d as [v |]; [| reflexivity].
    destruct (types.Vdc_HREF v =? ""); [reflexivity |].
    destruct (ParseRequestURI _) as [[u |] [e |]]; try reflexivity;
      destruct cl as [c |]; try reflexivity.
    go. destruct (status _ _ _); [reflexivity |].
    destruct (body _ _ _ _); [reflexivity |].
    destruct (_ =? "error"); reflexivity. }
  repeat apply conj; auto with keeps nocore.
  - unfold Org.FindCatalog; keeps.
  - unfold Org.GetVdcByName; keeps.
  - unfold Org.CreateCatalog; keeps.
  - unfold Org.GetCatalogByName; keeps.
  - unfold Org.GetCatalogById; keeps.
  - unfold Org.GetVDCByName; keeps.
  - unfold Org.GetVDCById; keeps.
  - unfold Vdc.getVdcVAppbyHREF; keeps.
  - unfold Vdc.DeleteWait; keeps.
  - unfold Vdc.GetOrgVdcNetworkByName; keeps.
  - unfold Vdc.GetOrgVdcNetworkById; keeps.
  - unfold Vdc.GetEdgeGatewayByName; keeps.
  - unfold Vdc.GetEdgeGatewayById; keeps.
  - unfold Vdc.GetVAppByName; keeps.
  - unfold Vdc.GetVAppById; keeps.
  - unfold Vdc.GetCapabilities; keeps.
  - unfold Vdc_getLinkHref; keeps.
  - unfold Vdc_GetVappList; keeps.
  - unfold Vdc_buildNsxvNetworkServiceEndpointURL; keeps.
  - unfold CatalogItem.GetVAppTemplate; keeps.
  - unfold CatalogItem.Delete; keeps.
Qed.

(** X25.  The operations of the compute policy file never change the
    object they are called on.  In particular [Update] sends the policy
    it holds and returns what the server answered as a new object; the
    receiver keeps the policy it had. *)
Theorem compute_policy_operations_keep_the_object
    (id : string) (queryParameters : list (string * string))
    (newVdcComputePolicy : option types.VdcComputePolicy) :
  keeps_self (Org.GetVdcComputePolicyById id)
  /\ keeps_self (Org.GetAllVdcComputePolicies queryParameters)
  /\ keeps_self (AdminOrg.GetVdcComputePolicyById id)
  /\ keeps_self (AdminOrg.GetAllVdcComputePolicies queryParameters)
  /\ keeps_self (AdminOrg.CreateVdcComputePolicy newVdcComputePolicy)
  /\ keeps_self VdcComputePolicy.Update
  /\ keeps_self VdcComputePolicy.Delete
  /\ keeps_self (AdminVdc.GetAllAssignedVdcComputePolicies queryParameters).
Proof.
  assert (Hg : forall S cli i, keeps_self (@govcd.getVdcComputePolicyById _ S cli i))
    by (intros; unfold govcd.getVdcComputePolicyById; keeps).
  assert (Ha : forall S cli q, keeps_self (@govcd.getAllVdcComputePolicies _ S cli q))
    by (intros; unfold govcd.getAllVdcComputePolicies; keeps).
  repeat apply conj.
  - unfold Org.GetVdcComputePolicyById; keeps.
  - unfold Org.GetAllVdcComputePolicies; keeps.
  - unfold AdminOrg.GetVdcComputePolicyById; keeps.
  - unfold AdminOrg.GetAllVdcComputePolicies; keeps.
  - unfold AdminOrg.CreateVdcComputePolicy; keeps.
  - unfold VdcComputePolicy.Update; keeps.
  - unfold VdcComputePolicy.Delete; keeps.
  - unfold AdminVdc.GetAllAssignedVdcComputePolicies; keeps.
Qed.
End KeepsObject.

(* ================================================================= *)
(** ** Composing a vApp *)

Section ComposeVApp.
Context `{Externals} `{TaskExternals}.

(** Over networks that are all there the loop appends one entry per
    network to each of the three lists, numbering the connections from
    the index it starts with. *)
Lemma compose_networks_all_there (nets : list vapp_types.OrgVDCNetwork) :
  forall index configs connections assignments (w : World Vdc),
  for_range_indexed (map Some nets) index compose_network
    (configs, connections, assignments) w
  = (Val (configs
            ++ map (fun n =>
                 vapp_types.mkVAppNetworkConfiguration (vapp_types.OrgVDCNetwork_Name n)
                   (Some (vapp_types.mkNetworkConfiguration FenceModeBridged
                            (Some (types.mkReference (vapp_types.OrgVDCNetwork_HREF n)
                                     (vapp_types.OrgVDCNetwork_Type n) ""
                                     (vapp_types.OrgVDCNetwork_Name n)))))) nets,
          connections
            ++ map (fun '(i, n) =>
                 vapp_types.mkNetworkConnection (vapp_types.OrgVDCNetwork_Name n)
                   (Z.of_nat i) true IPAllocationModePool)
                 (combine (seq index (List.length nets)) nets),
          assignments
            ++ map (fun n =>
                 vapp_types.mkNetworkAssignment (vapp_types.OrgVDCNetwork_Name n)
                   (vapp_types.OrgVDCNetwork_Name n)) nets), w).
Proof.
  induction nets as [| n nets IH]; intros index configs connections assignments w.
  - cbn. rewrite !app_nil_r. reflexivity.
  - cbn [map for_range_indexed List.length seq combine].
    unfold bind at 1. unfold compose_network at 1. go.
    rewrite IH. rewrite <- !app_assoc. reflexivity.
Qed.

(** A network that is not there stops the loop with a panic, whatever
    was gathered before. *)
Lemma compose_networks_nil_pointer (nets : list (option vapp_types.OrgVDCNetwork)) :
  In None nets ->
  forall index acc (w : World Vdc),
  for_range_indexed nets index compose_network acc w
  = (Panic "invalid memory address or nil pointer dereference", w).
Proof.
  induction nets as [| n nets IH]; intros Hin index [[configs connections] assignments] w;
    [destruct Hin|].
  cbn [for_range_indexed]. unfold bind at 1. unfold compose_network at 1.
  destruct n as [n |]; go; [|reflexivity].
  apply IH. destruct Hin as [Hn | Hin]; [discriminate | exact Hin].
Qed.

Lemma all_there_or_nil_pointer (nets : list (option vapp_types.OrgVDCNetwork)) :
  In None nets \/ exists l, nets = map Some l.
Proof.
  induction nets as [| n nets IH]; [right; exists []; reflexivity|].
  destruct n as [n |]; [|left; left; reflexivity].
  destruct IH as [Hin | [l ->]]; [left; right; exact Hin|].
  right. exists (n :: l). reflexivity.
Qed.

(** X26.  [ComposeVApp] fails before it submits anything in these cases,
    in this order.  A template without children or a nil slice of
    networks is refused with an error.  A template whose children hold
    no VM makes it panic with an index out of range: the length of the
    list is tested for the primary network connection index only, and
    the source of the composition reads the first VM untested.  A nil
    network in the slice makes it panic with a nil pointer dereference.
    A VDC HREF that does not parse is an error.  In all of them
    [ExecuteTaskRequest] is not run: the trace and the VDC are as before. *)
Theorem ComposeVApp_fails_before_it_submits
    (orgvdcnetworks : slice (option vapp_types.OrgVDCNetwork))
    (template : vapp_types.VAppTemplate) (storageprofileref : types.Reference)
    (name description : string) (acceptalleulas : bool)
    (v : types.Vdc) (cl : option Client) (tr : Trace) :
  let vdc : Vdc := mkWrapper (k := KVdc) (Some v) cl in
  let outcome :=
    run (Vdc_ComposeVApp orgvdcnetworks (Some template) storageprofileref
           name description acceptalleulas) vdc tr in
  (vapp_types.VAppTemplate_Children template = None \/ orgvdcnetworks = None ->
   outcome
   = (Val (zero_value KTask,
           Some (Errorf "can't compose a new vApp, objects passed are not valid" [])),
      mkWorld vdc tr))
  /\ (forall nets,
        vapp_types.VAppTemplate_Children template
        = Some (vapp_types.mkVAppTemplateChildren []) ->
        orgvdcnetworks = Some nets ->
        outcome = (Panic "index out of range", mkWorld vdc tr))
  /\ (forall vm vms nets,
        vapp_types.VAppTemplate_Children template
        = Some (vapp_types.mkVAppTemplateChildren (vm :: vms)) ->
        orgvdcnetworks = Some nets ->
        In None nets ->
        outcome
        = (Panic "invalid memory address or nil pointer dereference", mkWorld vdc tr))
  /\ (forall vm vms nets e,
        vapp_types.VAppTemplate_Children template
        = Some (vapp_types.mkVAppTemplateChildren (vm :: vms)) ->
        orgvdcnetworks = Some (map Some nets) ->
        snd (ParseRequestURI (types.Vdc_HREF v)) = Some e ->
        outcome
        = (Val (zero_value KTask,
                Some (Errorf "error getting vdc href: %s" [ArgError e])),
           mkWorld vdc tr)).
Proof.
  intros vdc outcome. subst vdc outcome.
  unfold Vdc_ComposeVApp, Vdc.receiver.
  destruct template as [children]. cbn [vapp_types.VAppTemplate_Children].
  repeat split.
  - intros [-> | ->]; go; [reflexivity|].
    destruct children; reflexivity.
  - intros nets -> ->. go. reflexivity.
  - intros vm vms nets -> -> Hin. go.
    cbn [is_nil_pointer is_nil orb vapp_types.VM vapp_types.VAppTemplate_Children
         List.length Nat.ltb Nat.leb at_index nth_error elems].
    go. destruct (vapp_types.VM_NetworkConnectionSection vm); go.
    all: rewrite (@compose_networks_nil_pointer nets Hin); reflexivity.
  - intros vm vms nets e -> -> Hparse. go.
    cbn [is_nil_pointer is_nil orb vapp_types.VM vapp_types.VAppTemplate_Children
         List.length Nat.ltb Nat.leb at_index nth_error elems].
    go. destruct (ParseRequestURI (types.Vdc_HREF v)) as [u err].
    cbn [snd] in Hparse. subst err.
    destruct (vapp_types.VM_NetworkConnectionSection vm); go;
      rewrite compose_networks_all_there; reflexivity.
Qed.

(** X27.  When the template has a VM, the networks are all there and the
    HREF of the VDC parses, [ComposeVApp] is one task request: a POST of
    the compose parameters to the VDC's HREF with "/action/composeVApp"
    appended to its path.  The parameters take their source from the
    first VM of the template only, and its primary network connection
    index, or 0 when that VM has no network connection section.  They
    hold one network configuration, one network connection and one
    network assignment per network, in the order of the slice, named
    after the network; the connections are numbered 0, 1, 2, ...  The
    storage profile is set only when the reference given has an HREF.
    Neither deployment nor power-on is asked for. *)
Theorem ComposeVApp_submits_one_connection_per_network
    (nets : list vapp_types.OrgVDCNetwork)
    (template : vapp_types.VAppTemplate) (vm : vapp_types.VAppTemplateVM)
    (vms : list vapp_types.VAppTemplateVM) (storageprofileref : types.Reference)
    (name description : string) (acceptalleulas : bool)
    (v : types.Vdc) (cl : option Client) (tr : Trace) (u : URL) :
  vapp_types.VAppTemplate_Children template
  = Some (vapp_types.mkVAppTemplateChildren (vm :: vms)) ->
  ParseRequestURI (types.Vdc_HREF v) = (Some u, None) ->
  let vdc : Vdc := mkWrapper (k := KVdc) (Some v) cl in
  exists vcomp : vapp_types.ComposeVAppParams,
    run (Vdc_ComposeVApp (Some (map Some nets)) (Some template) storageprofileref
           name description acceptalleulas) vdc tr
    = ExecuteTaskRequest cl
        (URL_String (mkURL (Scheme u) (Host u) (Path u ++ "/action/composeVApp")))
        MethodPost MimeComposeVappParams "error instantiating a new vApp: %s" vcomp
        (mkWorld vdc tr)
    /\ source_of vcomp
       = Some (types.mkReference (vapp_types.VM_HREF vm) "" "" (vapp_types.VM_Name vm))
    /\ primary_index_of vcomp = Some (primary_index_for vm)
    /\ map vapp_types.VAppNetworkConfiguration_NetworkName (network_configs_of vcomp)
       = map vapp_types.OrgVDCNetwork_Name nets
    /\ map (fun c => (vapp_types.NetworkConnection_Network c,
                      vapp_types.NetworkConnection_NetworkConnectionIndex c))
         (network_connections_of vcomp)
       = combine (map vapp_types.OrgVDCNetwork_Name nets)
           (map Z.of_nat (seq 0 (List.length nets)))
    /\ map (fun a => (vapp_types.NetworkAssignment_InnerNetwork a,
                      vapp_types.NetworkAssignment_ContainerNetwork a))
         (network_assignments_of vcomp)
       = map (fun n => (vapp_types.OrgVDCNetwork_Name n, vapp_types.OrgVDCNetwork_Name n))
           nets
    /\ storage_profile_of vcomp
       = (if types.Reference_HREF storageprofileref =? "" then None
          else Some storageprofileref)
    /\ vapp_types.ComposeVAppParams_Name vcomp = name
    /\ vapp_types.ComposeVAppParams_Deploy vcomp = false
    /\ vapp_types.ComposeVAppParams_PowerOn vcomp = false.
Proof.
  intros Hchildren Hparse vdc. subst vdc.
  unfold Vdc_ComposeVApp, Vdc.receiver.
  destruct template as [children]. cbn [vapp_types.VAppTemplate_Children] in *.
  subst children. go.
  cbn [is_nil_pointer is_nil orb vapp_types.VM vapp_types.VAppTemplate_Children
       List.length Nat.ltb Nat.leb at_index nth_error elems].
  go. rewrite Hparse.
  assert (Hindex : forall (l : list vapp_types.OrgVDCNetwork) i,
    map (fun c => (vapp_types.NetworkConnection_Network c,
                   vapp_types.NetworkConnection_NetworkConnectionIndex c))
      (map (fun '(i, n) =>
              vapp_types.mkNetworkConnection (vapp_types.OrgVDCNetwork_Name n)
                (Z.of_nat i) true IPAllocationModePool)
         (combine (seq i (List.length l)) l))
    = combine (map vapp_types.OrgVDCNetwork_Name l)
        (map Z.of_nat (seq i (List.length l)))).
  { induction l as [| n l IH]; intros i; [reflexivity|].
    cbn [List.length seq combine map]. rewrite IH. reflexivity. }
  unfold primary_index_for.
  destruct (vapp_types.VM_NetworkConnectionSection vm) as [section |]; go;
    rewrite compose_networks_all_there; cbn [app];
    eexists; (split; [reflexivity|]);
    unfold source_of, primary_index_of, network_configs_of, network_connections_of,
      network_assignments_of, storage_profile_of, connection_section_of;
    cbn [vapp_types.ComposeVAppParams_InstantiationParams
         vapp_types.ComposeVAppParams_SourcedItem
         vapp_types.InstantiationParams_NetworkConfigSection
         vapp_types.InstantiationParams_NetworkConnectionSection
         vapp_types.NetworkConfigSection_NetworkConfig
         vapp_types.NetworkConnectionSection_NetworkConnection
         vapp_types.NetworkConnectionSection_PrimaryNetworkConnectionIndex
         vapp_types.SourcedItem_Source vapp_types.SourcedItem_InstantiationParams
         vapp_types.SourcedItem_NetworkAssignment vapp_types.SourcedItem_StorageProfile
         vapp_types.ComposeVAppParams_Name vapp_types.ComposeVAppParams_Deploy
         vapp_types.ComposeVAppParams_PowerOn option_map];
    (split; [reflexivity|]); (split; [reflexivity|]);
    (split; [rewrite map_map; reflexivity|]);
    (split; [apply Hindex|]);
    (split; [rewrite map_map; reflexivity|]);
    (split; [destruct (types.Reference_HREF storageprofileref =? ""); reflexivity|]);
    repeat split.
Qed.

End ComposeVApp.

(** On the fixtures: two networks and a template whose first VM has the
    primary network connection index 1. *)
Lemma ComposeVApp_submits_one_connection_per_network_witness :
  let vdc : Vdc := mkWrapper (k := KVdc) (Some fixture_vdc_doc) None in
  let outcome :=
    run (@Vdc_ComposeVApp fixture_externals fixture_task_externals fixture_networks
           (Some (vapp_types.mkVAppTemplate
                    (Some (vapp_types.mkVAppTemplateChildren [fixture_template_vm]))))
           (types.mkReference "" "" "" "") "app" "an app" true) vdc [] in
  exists vcomp : vapp_types.ComposeVAppParams,
    fst outcome = Val (NewTask None, None)
    /\ map (fun r => (requestType r, contentType r)) (requests_in (trace_of outcome))
       = [("POST", "application/vnd.vmware.vcloud.composeVAppParams+xml")]
    /\ map vapp_types.NetworkConnection_NetworkConnectionIndex
         (network_connections_of vcomp) = [0%Z; 1%Z]
    /\ primary_index_of vcomp = Some 1%Z
    /\ storage_profile_of vcomp = None.
Proof.
  destruct (@ComposeVApp_submits_one_connection_per_network
              fixture_externals fixture_task_externals
              [vapp_types.mkOrgVDCNetwork "https://vcd.example.org/api/network/1"
                 "net-1" "application/vnd.vmware.vcloud.network+xml";
               vapp_types.mkOrgVDCNetwork "https://vcd.example.org/api/network/2"
                 "net-2" "application/vnd.vmware.vcloud.network+xml"]
              (vapp_types.mkVAppTemplate
                 (Some (vapp_types.mkVAppTemplateChildren [fixture_template_vm])))
              fixture_template_vm [] (types.mkReference "" "" "" "") "app" "an app" true
              fixture_vdc_doc None []
              (mkURL "https" "vcd.example.org" "https://vcd.example.org/api/vdc/2")
              eq_refl eq_refl)
    as (vcomp & Hrun & _ & Hprimary & _ & Hconnections & _ & Hprofile & _).
  exists vcomp.
  split; [exact (f_equal fst Hrun)|].
  split; [exact (f_equal (fun r => map (fun r => (requestType r, contentType r))
                                     (requests_in (trace_of r))) Hrun)|].
  split; [|split; [exact Hprimary | exact Hprofile]].
  rewrite <- (map_map (fun c => (vapp_types.NetworkConnection_Network c,
                                 vapp_types.NetworkConnection_NetworkConnectionIndex c))
                snd).
  rewrite Hconnections. reflexivity.
Defined.

(** On a template without VMs [ComposeVApp] panics. *)
Example ComposeVApp_on_a_template_without_vms :
  fst (run (@Vdc_ComposeVApp fixture_externals fixture_task_externals fixture_networks
              (Some (vapp_types.mkVAppTemplate
                       (Some (vapp_types.mkVAppTemplateChildren []))))
              (types.mkReference "" "" "" "") "app" "an app" true)
         (mkWrapper (k := KVdc) (Some fixture_vdc_doc) None) [])
  = Panic "index out of range".
Proof. reflexivity. Qed.

(* ================================================================= *)
(** ** Creating a standalone VM *)

Section StandaloneVm.
Context `{Externals} `{TaskExternals}.

(** The search for the creation link stops at the first link with rel
    "add" and the wanted type, and changes nothing. *)
Lemma add_link_href_is_the_first (v : types.Vdc) (mime : string) (w : World Vdc) :
  add_link_href v mime w = (Val (first_add_link_href v mime), w).
Proof.
  unfold add_link_href, first_add_link_href.
  induction (types.Vdc_Link v) as [| link links IH]; cbn [for_range find];
    [reflexivity|].
  unfold is_add_link_of at 1. go.
  destruct ((types.Link_Type link =? mime) && (types.Link_Rel link =? "add"));
    [reflexivity | exact IH].
Qed.

(** X28.  [CreateStandaloneVmAsync] submits nothing and returns an error
    with the zero task when the VDC has no HREF, or when the first link
    of the VDC with rel "add" and the type of the VM creation
    parameters has no HREF or there is no such link; later links are not
    looked at.  Otherwise nil parameters are an error too, again with
    nothing submitted, and parameters that are there are posted to that
    link with the OVF namespace set on them: the run is that one task
    request. *)
Theorem CreateStandaloneVmAsync_posts_to_the_first_creation_link
    (v : types.Vdc) (cl : option Client) (tr : Trace) :
  let vdc : Vdc := mkWrapper (k := KVdc) (Some v) cl in
  let href := first_add_link_href v MimeCreateVmParams in
  ((types.Vdc_HREF v =? "") || (href =? "") = true ->
   forall params, exists e,
     run (Vdc_CreateStandaloneVmAsync params) vdc tr
     = (Val (zero_value KTask, Some e), mkWorld vdc tr))
  /\ ((types.Vdc_HREF v =? "") || (href =? "") = false ->
      run (Vdc_CreateStandaloneVmAsync None) vdc tr
      = (Val (zero_value KTask,
              Some (Errorf "empty parameters passed to standalone VM creation" [])),
         mkWorld vdc tr)
      /\ forall p,
           run (Vdc_CreateStandaloneVmAsync (Some p)) vdc tr
           = ExecuteTaskRequest cl href MethodPost MimeCreateVmParams
               "error creating standalone VM: %s"
               (vapp_types.mkCreateVmParams XMLNamespaceOVF
                  (vapp_types.CreateVmParams_Name p))
               (mkWorld vdc tr)).
Proof.
  intros vdc href. subst vdc href.
  unfold Vdc_CreateStandaloneVmAsync, Vdc.receiver.
  split.
  - intros Hno params. go.
    destruct (types.Vdc_HREF v =? ""); go; [eexists; reflexivity|].
    rewrite add_link_href_is_the_first. cbn [orb] in Hno. rewrite Hno.
    eexists; reflexivity.
  - intros Hyes. apply orb_false_iff in Hyes. destruct Hyes as [Hv Hlink].
    split; [|intros p]; go; rewrite Hv; go;
      rewrite add_link_href_is_the_first, Hlink; reflexivity.
Qed.

Ltac refused := split; [discriminate | intros _; eexists; reflexivity].

(** X29.  [CreateStandaloneVMFromTemplateAsync] looks for its link in
    the same way, and without a link it returns an error whatever the
    parameters are.  With a link, it reads the name of the parameters
    without testing the pointer: nil parameters make it panic, where
    [CreateStandaloneVmAsync] returns an error.  Parameters that lack
    the name, the template item, its source or the HREF of the source
    are refused with an error.  In all these cases nothing is submitted.
    Parameters that name the VM and a template with an HREF are posted
    to the link with the OVF namespace set on them. *)
Theorem CreateStandaloneVMFromTemplateAsync_panics_on_nil_parameters
    (v : types.Vdc) (cl : option Client) (tr : Trace) :
  let vdc : Vdc := mkWrapper (k := KVdc) (Some v) cl in
  let href := first_add_link_href v MimeInstantiateVmTemplateParams in
  ((types.Vdc_HREF v =? "") || (href =? "") = true ->
   forall params, exists e,
     run (Vdc_CreateStandaloneVMFromTemplateAsync params) vdc tr
     = (Val (zero_value KTask, Some e), mkWorld vdc tr))
  /\ ((types.Vdc_HREF v =? "") || (href =? "") = false ->
      run (Vdc_CreateStandaloneVMFromTemplateAsync None) vdc tr
      = (Panic "invalid memory address or nil pointer dereference", mkWorld vdc tr)
      /\ forall p,
           (names_a_template p = true ->
            run (Vdc_CreateStandaloneVMFromTemplateAsync (Some p)) vdc tr
            = ExecuteTaskRequest cl href MethodPost MimeInstantiateVmTemplateParams
                "error creating standalone VM from template: %s"
                (vapp_types.mkInstantiateVmTemplateParams XMLNamespaceOVF
                   (vapp_types.InstantiateVmTemplateParams_Name p)
                   (vapp_types.InstantiateVmTemplateParams_SourcedVmTemplateItem p))
                (mkWorld vdc tr))
           /\ (names_a_template p = false ->
               exists e,
                 run (Vdc_CreateStandaloneVMFromTemplateAsync (Some p)) vdc tr
                 = (Val (zero_value KTask, Some e), mkWorld vdc tr))).
Proof.
  intros vdc href. subst vdc href.
  unfold Vdc_CreateStandaloneVMFromTemplateAsync, Vdc.receiver.
  split.
  - intros Hno params. go.
    destruct (types.Vdc_HREF v =? ""); go; [eexists; reflexivity|].
    rewrite add_link_href_is_the_first. cbn [orb] in Hno. rewrite Hno.
    eexists; reflexivity.
  - intros Hyes. apply orb_false_iff in Hyes. destruct Hyes as [Hv Hlink].
    split; [go; rewrite Hv; go; rewrite add_link_href_is_the_first, Hlink; reflexivity|].
    intros [ovf name item]. unfold names_a_template.
    cbn [vapp_types.InstantiateVmTemplateParams_Name
         vapp_types.InstantiateVmTemplateParams_SourcedVmTemplateItem].
    go. rewrite Hv. go. rewrite add_link_href_is_the_first, Hlink.
    cbn [vapp_types.InstantiateVmTemplateParams_Name
         vapp_types.InstantiateVmTemplateParams_SourcedVmTemplateItem].
    destruct (name =? ""); cbn [negb andb]; [refused|].
    destruct item as [[[source |]] |];
      cbn [vapp_types.SourcedVmTemplateParams_Source]; try refused.
    destruct (types.Reference_HREF source =? ""); cbn [negb]; [refused|].
    split; [reflexivity | discriminate].
Qed.

End StandaloneVm.

(** On the VDC of the fixtures with its two creation links: nil
    parameters are an error for the one function and a panic for the
    other, and nothing is sent. *)
Example standalone_vm_creation_without_parameters :
  let vdc : Vdc := mkWrapper (k := KVdc) (Some fixture_vdc_doc_with_vm_links) None in
  run (@Vdc_CreateStandaloneVmAsync fixture_task_externals None) vdc []
  = (Val (zero_value KTask,
          Some (Errorf "empty parameters passed to standalone VM creation" [])),
     mkWorld vdc [])
  /\ run (@Vdc_CreateStandaloneVMFromTemplateAsync fixture_task_externals None) vdc []
     = (Panic "invalid memory address or nil pointer dereference", mkWorld vdc []).
Proof. split; reflexivity. Qed.

(** A first creation link without HREF hides a second one that has one. *)
Example CreateStandaloneVmAsync_behind_a_link_without_href :
  let links :=
    [types.mkLink "add" "application/vnd.vmware.vcloud.CreateVmParams+xml" "" "" "";
     types.mkLink "add" "application/vnd.vmware.vcloud.CreateVmParams+xml" ""
       "https://vcd.example.org/api/vdc/2/action/createVm" ""] in
  let vdc : Vdc :=
    mkWrapper (k := KVdc)
      (Some (types.mkVdc "https://vcd.example.org/api/vdc/2" "urn:vcloud:vdc:2" "vdc-2"
               links [] [])) None in
  run (@Vdc_CreateStandaloneVmAsync fixture_task_externals
         (Some (vapp_types.mkCreateVmParams "" "vm-1"))) vdc []
  = (Val (zero_value KTask,
          Some (Errorf "error retrieving VM creation link from VDC %s"
                  [ArgString "vdc-2"])),
     mkWorld vdc []).
Proof. reflexivity. Qed.
